(** * Authorization decisions and approval requests of the AI Project Manager

    A shallow embedding of the application of [server.js] (its routes, and
    what is mounted before and after them), of the JWT-protected variant of
    the routes (the deployment server that falls back to a table of mock
    permissions when no FGA client is configured) and of the browser
    code of [app.js] (permission cache, approval-request list, Token Vault
    cache, security log, login redirect, document view), together with the
    post-login action that enriches a user's profile and the checks of the
    environment ([validateConfig], the health endpoint).

    Handlers are functions in a state-and-exception monad over the server's
    world: the state of the remote FGA store, the console, the pending
    [setTimeout] callbacks and the draws of [Math.random].  A journal records,
    in program order, every call issued to the FGA client and every lookup of
    the mock table, the way a test spy would. *)

From Stdlib Require Import ZArith Ascii.
From stdpp Require Import base strings gmap list pretty.
From Equations Require Import Equations.

Open Scope string_scope.
Open Scope Z_scope.

(** ** Results, and the state-and-exception monad *)

(** What a JavaScript call yields: a value, or a thrown error. *)
Inductive Result (A : Type) : Type :=
| Return (a : A)
| Throw (err : string).
Arguments Return {A} a.
Arguments Throw {A} err.

(** Mutations made before a [throw] persist, so the state is returned on
    both outcomes. *)
Definition M (St A : Type) : Type := St -> Result A * St.

Definition ret {St A} (a : A) : M St A := fun s => (Return a, s).

Definition throw {St A} (err : string) : M St A := fun s => (Throw err, s).

Definition bind {St A B} (m : M St A) (k : A -> M St B) : M St B :=
  fun s => match m s with
           | (Return a, s') => k a s'
           | (Throw e, s') => (Throw e, s')
           end.

(** [try { body } catch (error) { handler }] *)
Definition try_catch {St A} (body : M St A) (handler : string -> M St A) : M St A :=
  fun s => match body s with
           | (Return a, s') => (Return a, s')
           | (Throw e, s') => handler e s'
           end.

Definition get {St} : M St St := fun s => (Return s, s).

Definition modify {St} (f : St -> St) : M St unit := fun s => (Return tt, f s).

Notation "'let*' x ':=' m 'in' k" := (bind m (fun x => k))
  (at level 10, x name, m at level 100, k at level 200, only parsing).

(** [for (const x of l) { f x }]: stops at the first iteration that throws. *)
Fixpoint for_of {St A} (l : list A) (f : A -> M St unit) : M St unit :=
  match l with
  | [] => ret tt
  | x :: l' => let* _ := f x in for_of l' f
  end.

(** ** Keys and tuples *)

(** The template literal [`${resource}:${relation}`] that both the mock table
    of the server and the permission cache of the browser use as key. *)
Definition mk_key (resource relation : string) : string :=
  resource +:+ ":" +:+ relation.

(** A relationship tuple as passed to [fgaClient.check] and
    [fgaClient.write]. *)
Record Tuple : Type := mkTuple {
  t_user : string;
  t_relation : string;
  t_object : string
}.

(** The FGA client is an external collaborator: [fga_check] and [fga_write]
    are what its [check] and [write] promises settle to, given the state [R]
    of the remote store. *)
Record FgaClient (R : Type) : Type := mkFgaClient {
  fga_check : R -> Tuple -> Result bool;
  fga_write : R -> Tuple -> Result R
}.
Arguments fga_check {R} _ _ _.
Arguments fga_write {R} _ _ _.

(** ** JSON bodies, responses, the world of the server *)

Record AppMetadata : Type := mkAppMetadata {
  loyalty_tier : option string;
  employee_id : option string;
  department : option string;
  access_level : option string;
  is_data_synced : option bool
}.

Record User : Type := mkUser {
  sub : string;
  name : string;
  email : string;
  picture : string
}.

(** JSON values: [null], booleans, numbers and strings, and the objects that
    the servers answer with. *)
Inductive Json : Type :=
| JNull
| JBool (b : bool)
| JNumber (n : Z)
| JString (s : string)
| JError (error : string)
| JInternalError (error message : string)
| JFile (path : string)
| JProfile (user : User) (meta : AppMetadata)
| JToken (access_token : string) (expires_in : Z) (scope : string)
| JDecision (allowed : bool) (resource relation : string)
| JGranted (success : bool) (message : string)
| JApproval (request_id status message : string).

Record Response : Type := mkResponse {
  status : Z;
  body : Json
}.

(** The value as a condition: [null], [false], [0] and the empty string are
    falsy, every object is truthy. *)
Definition json_truthy (data : Json) : bool :=
  match data with
  | JNull => false
  | JBool b => b
  | JNumber n => negb (n =? 0)
  | JString s => negb (String.eqb s "")
  | _ => true
  end.

Definition is_null (data : Json) : bool :=
  match data with JNull => true | _ => false end.

(** A property read [data.name]: a [TypeError] when [data] is [null];
    on any other value what [read] finds there, [undefined] included. *)
Definition property_of {St A} (data : Json) (read : Json -> A) : M St A :=
  if is_null data then throw "TypeError: Cannot read properties of null"
  else ret (read data).

(** The object built by the approval route. *)
Record ApprovalRequest : Type := mkApprovalRequest {
  ar_id : string;
  ar_user_id : string;
  ar_user_name : string;
  ar_action : string;
  ar_resource : string;
  ar_justification : string;
  ar_status : string;
  ar_created_at : string
}.

Inductive LogLine : Type :=
| LogText (text : string)
| LogApprovalCreated (text : string) (request : ApprovalRequest)
| LogError (text : string) (error : string).

(** A pending [setTimeout]: its only callback in the server is
    [simulateApprovalDecision(approvalRequest.id)]. *)
Record Timer : Type := mkTimer {
  delay_ms : Z;
  timer_request_id : string
}.

(** Journal entries: what a handler consulted to reach its answer. *)
Inductive Effect : Type :=
| FgaCheck (t : Tuple)
| FgaWrite (t : Tuple)
| MockLookup (key : string).

(** Where a decision came from. *)
Inductive Source : Type := cache | remote | fallback.

Definition is_fga_check (e : Effect) : bool :=
  match e with FgaCheck _ => true | _ => false end.

Definition is_fga_write (e : Effect) : bool :=
  match e with FgaWrite _ => true | _ => false end.

Definition is_mock_lookup (e : Effect) : bool :=
  match e with MockLookup _ => true | _ => false end.

(** A decision reached through a remote check is [remote]; one reached
    through the mock table is [fallback]; one reached with neither can only
    have been memoised: [cache]. *)
Definition source_of (effects : list Effect) : Source :=
  if existsb is_fga_check effects then remote
  else if existsb is_mock_lookup effects then fallback
  else cache.

(** The world of the server: the state of the remote store, the journal,
    the console, the pending timers, what [Math.random] draws, the clock, and
    the files next to server.js.  Sending a file is Express's own:
    [files w path] is what [res.sendFile(__dirname + path)] comes to, the
    response that is sent for the file, or the error that is passed to
    [next]. *)
Record World (R : Type) : Type := mkWorld {
  fga_store : R;
  journal : list Effect;
  console : list LogLine;
  timers : list Timer;
  entropy : nat -> string;
  draws : nat;
  clock : string;
  files : string -> Result Response
}.
Arguments mkWorld {R} _ _ _ _ _ _ _ _.
Arguments files {R} _.
Arguments fga_store {R} _.
Arguments journal {R} _.
Arguments console {R} _.
Arguments timers {R} _.
Arguments entropy {R} _.
Arguments draws {R} _.
Arguments clock {R} _.

(** The body of a request after [express.json()], with the fields the
    handlers destructure, and the session of [express-openid-connect]:
    [req.oidc.isAuthenticated()] holds exactly when [req.oidc.user] is
    there. *)
Record Request : Type := mkRequest {
  oidc_user : option User;
  resource : string;
  relation : string;
  targetUser : string;
  action : string;
  justification : string
}.

Definition isAuthenticated (req : Request) : bool :=
  match oidc_user req with Some _ => true | None => false end.

(** The effects added to the journal between two worlds. *)
Definition effects_since {R} (before after : World R) : list Effect :=
  drop (length (journal before)) (journal after).

(** ** Primitive effects on the world *)

Section Primitives.
Context {R : Type}.

Definition set_store (r : R) (w : World R) : World R :=
  mkWorld r (journal w) (console w) (timers w) (entropy w) (draws w) (clock w)
          (files w).

Definition add_effect (e : Effect) (w : World R) : World R :=
  mkWorld (fga_store w) (journal w ++ [e]) (console w) (timers w)
          (entropy w) (draws w) (clock w) (files w).

Definition add_line (l : LogLine) (w : World R) : World R :=
  mkWorld (fga_store w) (journal w) (console w ++ [l]) (timers w)
          (entropy w) (draws w) (clock w) (files w).

Definition add_timer (t : Timer) (w : World R) : World R :=
  mkWorld (fga_store w) (journal w) (console w) (timers w ++ [t])
          (entropy w) (draws w) (clock w) (files w).

Definition set_timers (ts : list Timer) (w : World R) : World R :=
  mkWorld (fga_store w) (journal w) (console w) ts
          (entropy w) (draws w) (clock w) (files w).

Definition next_draw (w : World R) : World R :=
  mkWorld (fga_store w) (journal w) (console w) (timers w)
          (entropy w) (S (draws w)) (clock w) (files w).

Definition console_log (l : LogLine) : M (World R) unit := modify (add_line l).

Definition console_error (text error : string) : M (World R) unit :=
  modify (add_line (LogError text error)).

(** [setTimeout(() => simulateApprovalDecision(id), ms)] *)
Definition setTimeout (id : string) (ms : Z) : M (World R) unit :=
  modify (add_timer (mkTimer ms id)).

(** [Math.random().toString(36)]: the next draw, as rendered in base 36. *)
Definition Math_random_toString36 : M (World R) string :=
  fun w => (Return (entropy w (draws w)), next_draw w).

(** [new Date().toISOString()] *)
Definition Date_toISOString : M (World R) string :=
  fun w => (Return (clock w), w).

(** [await fgaClient.check({user, relation, object})]: the call is
    journalled, then settles as the client says. *)
Definition await_check (fgaClient : FgaClient R) (t : Tuple) : M (World R) bool :=
  fun w => (fga_check fgaClient (fga_store w) t, add_effect (FgaCheck t) w).

(** [await fgaClient.write({writes: [t]})] *)
Definition await_write (fgaClient : FgaClient R) (t : Tuple) : M (World R) unit :=
  fun w => match fga_write fgaClient (fga_store w) t with
           | Return r' => (Return tt, set_store r' (add_effect (FgaWrite t) w))
           | Throw e => (Throw e, add_effect (FgaWrite t) w)
           end.

(** [req.oidc.user], then a property read on it: a [TypeError] when the
    user is undefined. *)
Definition the_user (u : option User) : M (World R) User :=
  match u with
  | Some user => ret user
  | None => throw "TypeError: Cannot read properties of undefined"
  end.
End Primitives.

(** [res.json(body)] and [res.status(code).json(body)] *)
Definition res_json (b : Json) : Response := mkResponse 200 b.
Definition res_status_json (code : Z) (b : Json) : Response := mkResponse code b.

Definition Handler (R : Type) : Type := Request -> M (World R) Response.

(** ** server.js *)

Module Server.
Section Handlers.
Context {R : Type}.
Variable fgaClient : FgaClient R.
Variable management_getUser : string -> Result AppMetadata.

(** Scopes of [TOKEN_VAULT_CONFIG] in auth0-config.js. *)
Definition googleCalendar_scope : string := "https://www.googleapis.com/auth/calendar".
Definition slack_scope : string := "chat:write,channels:read".

Definition requireAuth (next : Handler R) : Handler R :=
  fun req =>
    if negb (isAuthenticated req)
    then ret (res_status_json 401 (JError "Authentication required"))
    else next req.

Definition generateRequestId : M (World R) string :=
  let* s := Math_random_toString36 in
  ret ("req_" +:+ String.substring 2 9 s).

Definition generateToken : M (World R) string :=
  let* s := Math_random_toString36 in
  ret (String.substring 2 16 s).

Definition simulateTokenVaultExchange (userId service : string)
  : M (World R) (string * Z) :=
  let* tok := generateToken in
  ret ("tvault_" +:+ service +:+ "_" +:+ tok, 3600).

Definition simulateApprovalDecision (requestId : string) : M (World R) unit :=
  console_log (LogText ("Approval request " +:+ requestId +:+
                        " has been auto-approved for demo purposes")).

(** [res.sendFile(__dirname + path)] *)
Definition sendFile (path : string) : M (World R) Response :=
  fun w => (files w path, w).

(** [app.get('/')]; it has no [try]: an error of [res.sendFile] goes on to
    the error middleware. *)
Definition root : Handler R :=
  fun req =>
    if isAuthenticated req
    then sendFile "/index.html"
    else sendFile "/index.html".

(** [app.get('/api/profile')], after [requireAuth] *)
Definition profile : Handler R :=
  fun req =>
    try_catch
      (let* user := the_user (oidc_user req) in
       let* userDetails := (fun w => (management_getUser (sub user), w)) in
       ret (res_json (JProfile user userDetails)))
      (fun error =>
         let* _ := console_error "Error fetching user profile:" error in
         ret (res_status_json 500 (JError "Failed to fetch user profile"))).

(** [app.get('/api/tokens/google-calendar')], after [requireAuth] *)
Definition tokens_google_calendar : Handler R :=
  fun req =>
    try_catch
      (let* user := the_user (oidc_user req) in
       let* tokenResponse := simulateTokenVaultExchange (sub user) "google-calendar" in
       ret (res_json (JToken (fst tokenResponse) (snd tokenResponse)
                             googleCalendar_scope)))
      (fun error =>
         let* _ := console_error "Error getting Google Calendar token:" error in
         ret (res_status_json 500 (JError "Failed to get calendar token"))).

(** [app.get('/api/tokens/slack')], after [requireAuth] *)
Definition tokens_slack : Handler R :=
  fun req =>
    try_catch
      (let* user := the_user (oidc_user req) in
       let* tokenResponse := simulateTokenVaultExchange (sub user) "slack" in
       ret (res_json (JToken (fst tokenResponse) (snd tokenResponse) slack_scope)))
      (fun error =>
         let* _ := console_error "Error getting Slack token:" error in
         ret (res_status_json 500 (JError "Failed to get Slack token"))).

(** [app.post('/api/fga/check-access')], after [requireAuth] *)
Definition check_access : Handler R :=
  fun req =>
    try_catch
      (let* user := the_user (oidc_user req) in
       let* allowed := await_check fgaClient
                    (mkTuple ("user:" +:+ sub user) (relation req) (resource req)) in
       ret (res_json (JDecision allowed (resource req) (relation req))))
      (fun error =>
         let* _ := console_error "Error checking FGA access:" error in
         ret (res_status_json 500 (JError "Failed to check access"))).

(** [app.post('/api/fga/grant-access')], after [requireAuth] *)
Definition grant_access : Handler R :=
  fun req =>
    try_catch
      (let* user := the_user (oidc_user req) in
       let* canGrant := await_check fgaClient
                     (mkTuple ("user:" +:+ sub user) "owner" (resource req)) in
       if negb canGrant
       then ret (res_status_json 403
                   (JError "Insufficient permissions to grant access"))
       else
         let* _ := await_write fgaClient
           (mkTuple ("user:" +:+ targetUser req) (relation req) (resource req)) in
         ret (res_json (JGranted true
                ("Access granted: " +:+ targetUser req +:+ " can now " +:+
                 relation req +:+ " " +:+ resource req))))
      (fun error =>
         let* _ := console_error "Error granting FGA access:" error in
         ret (res_status_json 500 (JError "Failed to grant access"))).

(** [app.post('/api/async-approval')], after [requireAuth] *)
Definition async_approval : Handler R :=
  fun req =>
    try_catch
      (let* id := generateRequestId in
       let* user := the_user (oidc_user req) in
       let* created_at := Date_toISOString in
       let approvalRequest :=
         mkApprovalRequest id (sub user) (name user) (action req) (resource req)
                           (justification req) "pending" created_at in
       let* _ := console_log
                   (LogApprovalCreated "Approval request created:" approvalRequest) in
       let* _ := setTimeout (ar_id approvalRequest) 5000 in
       ret (res_json (JApproval (ar_id approvalRequest) "pending"
              "Approval request submitted. You will be notified when approved.")))
      (fun error =>
         let* _ := console_error "Error creating approval request:" error in
         ret (res_status_json 500 (JError "Failed to create approval request"))).

(** The routes of the application.  A request reaches them through what is
    mounted before them, see [app] below. *)
Inductive Endpoint : Type :=
| GetRoot
| GetProfile
| GetTokenGoogleCalendar
| GetTokenSlack
| PostFgaCheckAccess
| PostFgaGrantAccess
| PostAsyncApproval.

Definition route (e : Endpoint) : Handler R :=
  match e with
  | GetRoot => root
  | GetProfile => requireAuth profile
  | GetTokenGoogleCalendar => requireAuth tokens_google_calendar
  | GetTokenSlack => requireAuth tokens_slack
  | PostFgaCheckAccess => requireAuth check_access
  | PostFgaGrantAccess => requireAuth grant_access
  | PostAsyncApproval => requireAuth async_approval
  end.

(** The endpoints registered with [requireAuth]. *)
Definition protected (e : Endpoint) : bool :=
  match e with GetRoot => false | _ => true end.

(** *** The application: what is mounted before and after the routes *)

Inductive Method : Type := GET | POST.

Definition method (e : Endpoint) : Method :=
  match e with
  | PostFgaCheckAccess | PostFgaGrantAccess | PostAsyncApproval => POST
  | _ => GET
  end.

(** A request as it arrives, with the session that [auth(config)] attached:
    its body is one that [express.json()] parses, into the fields that the
    handlers destructure, or one that it rejects with an error. *)
Inductive Incoming : Type :=
| WithBody (req : Request)
| BadBody (user : option User) (error : string).

Definition session (inc : Incoming) : option User :=
  match inc with
  | WithBody req => oidc_user req
  | BadBody user _ => user
  end.

(** [process.env.NODE_ENV] *)
Variable NODE_ENV : option string.

(** [express.static('public')] is Express's own: for the path of an endpoint
    it answers from the files under [public/] ([Return (Some response)]),
    calls [next()] ([Return None]), or passes an error on ([Throw]). *)
Variable express_static : Endpoint -> Result (option Response).

(** [app.use(express.json())] *)
Definition express_json (inc : Incoming) : M (World R) Request :=
  match inc with
  | WithBody req => ret req
  | BadBody _ error => throw error
  end.

(** [app.use(express.static('public'))]; it looks at GET requests only. *)
Definition serve_static (e : Endpoint) : M (World R) (option Response) :=
  match method e with
  | GET => fun w => (express_static e, w)
  | POST => ret None
  end.

(** [app.use((error, req, res, next) => ...)], mounted after the routes *)
Definition error_middleware (error : string) : M (World R) Response :=
  let* _ := console_error "Application error:" error in
  ret (res_status_json 500
         (JInternalError "Internal server error"
            (if decide (NODE_ENV = Some "development")
             then error else "Something went wrong"))).

(** The application: [express.json()], [express.static], the route, and the
    error middleware for whatever was passed to [next] on the way. *)
Definition app (e : Endpoint) (inc : Incoming) : M (World R) Response :=
  try_catch
    (let* req := express_json inc in
     let* served := serve_static e in
     match served with
     | Some response => ret response
     | None => route e req
     end)
    error_middleware.

(** The event loop runs the callback of the first pending timer. *)
Definition fire_timer : M (World R) unit :=
  let* w := get in
  match timers w with
  | [] => ret tt
  | t :: rest =>
      let* _ := modify (set_timers rest) in
      simulateApprovalDecision (timer_request_id t)
  end.
End Handlers.
End Server.

(** ** JavaScript values, as far as a property read and a template literal go *)

Inductive JsValue : Type :=
| JsUndefined
| JsString (s : string)
| JsObject (properties : JsProperties)
with JsProperties : Type :=
| NoProperty
| Property (name : string) (value : JsValue) (rest : JsProperties).

(** [o.name] on an object with these own properties: the property of that
    name, [undefined] when there is none.  (No name read below is a property
    of [Object.prototype].) *)
Fixpoint own_property (properties : JsProperties) (name : string) : JsValue :=
  match properties with
  | NoProperty => JsUndefined
  | Property k v rest => if String.eqb k name then v else own_property rest name
  end.

(** [`${v}`] *)
Definition template (v : JsValue) : string :=
  match v with
  | JsUndefined => "undefined"
  | JsString s => s
  | JsObject _ => "[object Object]"
  end.

(** ** The JWT-protected server with mock permissions

    The deployment variant of server.js: [fgaClient] is [null] unless the FGA
    environment variables are set, and the routes sit behind [jwtCheck], the
    middleware of [express-oauth2-jwt-bearer]. *)

Module ServerJwt.

(** [req.auth] as [express-oauth2-jwt-bearer] leaves it on a request whose
    token it accepted: the object [{ payload, header, token }].  The claims
    of the token, [sub] among them, are properties of [payload]. *)
Record JwtAuth : Type := mkJwtAuth {
  payload : JsProperties;
  header : JsProperties;
  token : string
}.

Definition req_auth (a : JwtAuth) : JsProperties :=
  Property "payload" (JsObject (payload a))
    (Property "header" (JsObject (header a))
       (Property "token" (JsString (token a)) NoProperty)).

(** [${user.sub}] in the template literal [`user:${user.sub}`], after
    [const user = req.auth]. *)
Definition user_sub (a : JwtAuth) : string :=
  template (own_property (req_auth a) "sub").

Section Handlers.
Context {R : Type}.
Variable fgaClient : option (FgaClient R).

(** The object literal of the check route. *)
Definition mockPermissions : gmap string bool :=
  list_to_map
    [("document:project-plan:viewer", true);
     ("document:requirements:viewer", true);
     ("document:requirements:editor", true);
     ("document:architecture:viewer", true)].

(** [mockPermissions[key] || false].  A key always contains a colon, so it
    never names a property that the object literal inherits. *)
Definition mock_allowed (key : string) : bool :=
  match mockPermissions !! key with
  | Some v => v || false
  | None => false
  end.

(** The decision of the mock table; the principal plays no part in it. *)
Definition fallback_decide (principal relation resource : string) : bool :=
  mock_allowed (mk_key resource relation).

(** [fgaClient.check(...)] on a [fgaClient] that may be [null] *)
Definition client_check (t : Tuple) : M (World R) bool :=
  match fgaClient with
  | Some c => await_check c t
  | None => throw "TypeError: Cannot read properties of null"
  end.

Definition client_write (t : Tuple) : M (World R) unit :=
  match fgaClient with
  | Some c => await_write c t
  | None => throw "TypeError: Cannot read properties of null"
  end.

(** [app.post('/api/fga/check-access')], after [jwtCheck] *)
Definition check_access (auth : JwtAuth) : Handler R :=
  fun req =>
    try_catch
      (match fgaClient with
       | None =>
           let key := mk_key (resource req) (relation req) in
           let* _ := modify (add_effect (MockLookup key)) in
           ret (res_json (JDecision (mock_allowed key) (resource req) (relation req)))
       | Some c =>
           let* allowed := await_check c
               (mkTuple ("user:" +:+ user_sub auth) (relation req) (resource req)) in
           ret (res_json (JDecision allowed (resource req) (relation req)))
       end)
      (fun error =>
         let* _ := console_error "Error checking FGA access:" error in
         ret (res_status_json 500 (JError "Failed to check access"))).

(** [app.post('/api/fga/grant-access')], after [jwtCheck] *)
Definition grant_access (auth : JwtAuth) : Handler R :=
  fun req =>
    try_catch
      (let* canGrant := client_check
                     (mkTuple ("user:" +:+ user_sub auth) "owner" (resource req)) in
       if negb canGrant
       then ret (res_status_json 403
                   (JError "Insufficient permissions to grant access"))
       else
         let* _ := client_write
           (mkTuple ("user:" +:+ targetUser req) (relation req) (resource req)) in
         ret (res_json (JGranted true
                ("Access granted: " +:+ targetUser req +:+ " can now " +:+
                 relation req +:+ " " +:+ resource req))))
      (fun error =>
         let* _ := console_error "Error granting FGA access:" error in
         ret (res_status_json 500 (JError "Failed to grant access"))).
End Handlers.
End ServerJwt.

(** ** app.js: the browser *)

Module App.

Record ApprovalEntry : Type := mkApprovalEntry {
  ae_id : string;
  ae_resource : string;
  ae_relation : string;
  ae_status : string;
  ae_timestamp : string
}.

(** The fields of [appState] that the permission and approval code
    touches, and the browser console. *)
Record AppState : Type := mkAppState {
  approvalRequests : list ApprovalEntry;
  fgaPermissions : gmap string bool;
  app_console : list LogLine
}.

Definition appState : AppState := mkAppState [] ∅ [].

(** [m.has(key)] *)
Definition Map_has (m : gmap string bool) (key : string) : bool :=
  bool_decide (is_Some (m !! key)).

(** [appState.fgaPermissions.set(key, v)] *)
Definition permissions_set (key : string) (v : bool) (a : AppState) : AppState :=
  mkAppState (approvalRequests a) (<[key := v]> (fgaPermissions a)) (app_console a).

(** [appState.approvalRequests.push(e)] *)
Definition approvals_push (e : ApprovalEntry) (a : AppState) : AppState :=
  mkAppState (approvalRequests a ++ [e]) (fgaPermissions a) (app_console a).

Definition app_log (l : LogLine) (a : AppState) : AppState :=
  mkAppState (approvalRequests a) (fgaPermissions a) (app_console a ++ [l]).

(** [response.ok] *)
Definition response_ok (r : Response) : bool :=
  (200 <=? status r) && (status r <=? 299).

(** [data.allowed], as a condition *)
Definition data_allowed (data : Json) : bool :=
  match data with JDecision a _ _ => a | _ => false end.

(** [data.request_id] *)
Definition data_request_id (data : Json) : string :=
  match data with JApproval id _ _ => id | _ => "undefined" end.

(** [hasPermission(resource, relation)] *)
Definition hasPermission (a : AppState) (resource relation : string) : bool :=
  let key := mk_key resource relation in
  if Map_has (fgaPermissions a) key
  then default false (fgaPermissions a !! key)
  else false.

Definition resources : list string :=
  ["document:project-plan"; "document:requirements"; "document:architecture";
   "project:alpha-release"; "calendar:team-calendar"].

Definition relations : list string := ["viewer"; "editor"; "owner"].

Section Browser.
(** The network and whatever answers on it. *)
Context {Net : Type}.
(** [fetch('/api/fga/check-access', {body: {resource, relation}})] *)
Variable fetch_check_access : string -> string -> M Net Response.
(** [fetch('/api/async-approval', {body: {action, resource, justification}})] *)
Variable fetch_async_approval : string -> string -> string -> M Net Response.
(** [new Date().toISOString()] in the browser *)
Variable now : string.

Definition on_net {A} (m : M Net A) : M (AppState * Net) A :=
  fun s => match m (snd s) with (r, n') => (r, (fst s, n')) end.

Definition on_app (f : AppState -> AppState) : M (AppState * Net) unit :=
  modify (fun s => (f (fst s), snd s)).

(** The body of the two nested loops of [loadUserPermissions]. *)
Definition load_permission (resource relation : string) : M (AppState * Net) unit :=
  let* response := on_net (fetch_check_access resource relation) in
  if response_ok response then
    let data := body response in
    let* allowed := property_of data data_allowed in
    if allowed then
      let key := mk_key resource relation in
      on_app (permissions_set key true)
    else ret tt
  else ret tt.

Definition loadUserPermissions : M (AppState * Net) unit :=
  try_catch
    (let* _ :=
       for_of resources (fun resource =>
         for_of relations (fun relation => load_permission resource relation)) in
     on_app (app_log (LogText "Loaded FGA permissions:")))
    (fun error => on_app (app_log (LogError "Error loading permissions:" error))).

(** [requestApproval(action, resource)] *)
Definition requestApproval (action resource : string) : M (AppState * Net) unit :=
  try_catch
    (let resource_or_system := if String.eqb resource "" then "system" else resource in
     let* response := on_net (fetch_async_approval action resource_or_system
                                ("User requested " +:+ action +:+ " approval")) in
     if response_ok response then
       let data := body response in
       let* request_id := property_of data data_request_id in
       on_app (approvals_push
                 (mkApprovalEntry request_id resource_or_system action
                                  "pending" now))
     else ret tt)
    (fun error => on_app (app_log (LogError "Error requesting approval:" error))).
End Browser.
End App.

(** ** The browser wired to server.js *)

Module System.
Section Wiring.
Context {R : Type}.
Variable fgaClient : FgaClient R.
Variable management_getUser : string -> Result AppMetadata.
(** The session cookie the browser sends with [credentials: 'include']. *)
Variable session : option User.

Definition fetch_check_access (resource relation : string) : M (World R) Response :=
  Server.route fgaClient management_getUser Server.PostFgaCheckAccess
    (mkRequest session resource relation "" "" "").

Definition fetch_async_approval (action resource justification : string)
  : M (World R) Response :=
  Server.route fgaClient management_getUser Server.PostAsyncApproval
    (mkRequest session resource "" "" action justification).

Definition loadUserPermissions : M (App.AppState * World R) unit :=
  App.loadUserPermissions fetch_check_access.

Definition requestApproval (now action resource : string)
  : M (App.AppState * World R) unit :=
  App.requestApproval fetch_async_approval now action resource.

(** A request that reaches the server from any HTTP client. *)
Definition http (e : Server.Endpoint) (req : Request)
  : M (App.AppState * World R) Response :=
  App.on_net (Server.route fgaClient management_getUser e req).

(** The server's event loop runs a due timer. *)
Definition timer_fires : M (App.AppState * World R) unit :=
  App.on_net Server.fire_timer.
End Wiring.
End System.

(** ** Stand-ins for the external services, for running the model *)

Definition tuple_eqb (a b : Tuple) : bool :=
  String.eqb (t_user a) (t_user b) && String.eqb (t_relation a) (t_relation b)
  && String.eqb (t_object a) (t_object b).

(** A store that keeps the tuples written to it and allows exactly those. *)
Definition memory_fga : FgaClient (list Tuple) :=
  mkFgaClient (list Tuple)
    (fun store t => Return (existsb (tuple_eqb t) store))
    (fun store t => Return (store ++ [t])%list).

(** A service that cannot be reached: every call fails in transport. *)
Definition unreachable_fga : FgaClient (list Tuple) :=
  mkFgaClient (list Tuple)
    (fun _ _ => Throw "connect ECONNREFUSED")
    (fun _ _ => Throw "connect ECONNREFUSED").

Definition no_metadata : string -> Result AppMetadata :=
  fun _ => Return (mkAppMetadata None None None None None).

Definition alice : User :=
  mkUser "auth0|alice" "Alice" "alice@example.com" "alice.png".

Definition bob : User :=
  mkUser "auth0|bob" "Bob" "bob@example.com" "bob.png".

(** What [jwtCheck] leaves in [req.auth] for a token of Alice and for one of
    Bob. *)
Definition jose_header : JsProperties :=
  Property "alg" (JsString "RS256") (Property "typ" (JsString "JWT") NoProperty).

Definition alice_token : ServerJwt.JwtAuth :=
  ServerJwt.mkJwtAuth
    (Property "iss" (JsString "https://demo.auth0.com/")
       (Property "sub" (JsString "auth0|alice")
          (Property "aud" (JsString "https://api.ai-project-manager.com") NoProperty)))
    jose_header "eyJhbGciOiJSUzI1NiJ9.alice".

Definition bob_token : ServerJwt.JwtAuth :=
  ServerJwt.mkJwtAuth
    (Property "iss" (JsString "https://demo.auth0.com/")
       (Property "sub" (JsString "auth0|bob")
          (Property "aud" (JsString "https://api.ai-project-manager.com") NoProperty)))
    jose_header "eyJhbGciOiJSUzI1NiJ9.bob".

(** A session whose user has the string ["undefined"] as [sub]. *)
Definition undefined_user : User :=
  mkUser "undefined" "Nobody" "nobody@example.com" "nobody.png".

(** A store in which [user:undefined] is owner of the project plan, as after
    a grant of [owner] whose body named no target user. *)
Definition undefined_owner_tuples : list Tuple :=
  [mkTuple "user:undefined" "owner" "document:project-plan"].

(** Alice owns and may view the project plan; nothing else is known. *)
Definition plan_tuples : list Tuple :=
  [mkTuple "user:auth0|alice" "owner" "document:project-plan";
   mkTuple "user:auth0|alice" "viewer" "document:project-plan"].

(** The page of the application is the only file next to server.js. *)
Definition site_files : string -> Result Response :=
  fun path =>
    if String.eqb path "/index.html" then Return (mkResponse 200 (JFile path))
    else Throw "ENOENT: no such file or directory".

Definition world0 (store : list Tuple) : World (list Tuple) :=
  mkWorld store [] [] [] (fun _ => "0.4fzyo82mvyr") 0%nat "2025-10-09T12:00:00.000Z"
          site_files.

(** The same world without the page. *)
Definition world_without_page (store : list Tuple) : World (list Tuple) :=
  mkWorld store [] [] [] (fun _ => "0.4fzyo82mvyr") 0%nat "2025-10-09T12:00:00.000Z"
          (fun _ => Throw "ENOENT: no such file or directory").

(** An [express.static] that finds no file for the path of any route. *)
Definition no_static : Server.Endpoint -> Result (option Response) :=
  fun _ => Return None.

Definition check_plan_viewer (u : option User) : Request :=
  mkRequest u "document:project-plan" "viewer" "" "" "".

Definition grant_plan_editor_to_alice (u : option User) : Request :=
  mkRequest u "document:project-plan" "editor" "auth0|alice" "" "".

Definition approval_request (u : option User) : Request :=
  mkRequest u "document:sensitive" "" "" "access_document"
            "Need access for project review".

(** ** Decisions read off a handler run *)

Record Decision : Type := mkDecision {
  d_allowed : bool;
  d_source : Source
}.

(** A run of a check route yields a decision when it answers 200 with an
    [allowed] field; its source is read off the journal of that run. *)
Definition decision_of {R} (before : World R) (out : Result Response * World R)
  : option Decision :=
  match fst out with
  | Return (mkResponse code (JDecision a _ _)) =>
      if code =? 200
      then Some (mkDecision a (source_of (effects_since before (snd out))))
      else None
  | _ => None
  end.

(** The four (relation, resource) pairs that the table enumerates: the
    resources are the documents that [loadUserPermissions] asks about, and
    each key of [mockPermissions] is [`${resource}:${relation}`] for one of
    the pairs. *)
Definition enumerated_pairs : list (string * string) :=
  [("viewer", "document:project-plan");
   ("viewer", "document:requirements");
   ("editor", "document:requirements");
   ("viewer", "document:architecture")].

Fixpoint colon_free (s : string) : bool :=
  match s with
  | EmptyString => true
  | String c s' => negb (Ascii.eqb c ":"%char) && colon_free s'
  end.

(** Every value of the cache is [true]. *)
Definition positive_only (m : gmap string bool) : Prop :=
  forall k v, m !! k = Some v -> v = true.

(** The server allowed the pair that key [k] is made of: some fetch of the
    loading loop for it got an ok response with [allowed] true. *)
Definition allowed_by_server {Net} (fetch : string -> string -> M Net Response)
    (k : string) : Prop :=
  exists res rel n resp n',
    k = mk_key res rel /\ res ∈ App.resources /\ rel ∈ App.relations
    /\ fetch res rel n = (Return resp, n')
    /\ App.response_ok resp = true /\ App.data_allowed (body resp) = true.

(** Every entry of cache [c] was in [c0] already, or is [true] and was
    allowed by the server. *)
Definition cache_grown {Net} (fetch : string -> string -> M Net Response)
    (c0 c : gmap string bool) : Prop :=
  forall k v, c !! k = Some v -> c0 !! k = Some v \/ (v = true /\ allowed_by_server fetch k).

(** The line that [simulateApprovalDecision] writes for a request id. *)
Definition auto_approved_line (requestId : string) : LogLine :=
  LogText ("Approval request " +:+ requestId +:+
           " has been auto-approved for demo purposes").

(** [n] resolutions of the same request id, one after the other. *)
Fixpoint resolve_times {R} (n : nat) (requestId : string) : M (World R) unit :=
  match n with
  | O => ret tt
  | S n' =>
      let* _ := Server.simulateApprovalDecision requestId in
      resolve_times n' requestId
  end.

(** Case analysis on what the remote service answers. *)
Ltac case_check :=
  match goal with
  | |- context [fga_check ?c ?s ?t] => destruct (fga_check c s t) as [[|] | ?]
  end.

Ltac case_write :=
  match goal with
  | |- context [fga_write ?c ?s ?t] => destruct (fga_write c s t) as [? | ?]
  end.

(** The event loop runs [n] due timers, one after the other. *)
Fixpoint fire_times {R} (n : nat) : M (World R) unit :=
  match n with
  | O => ret tt
  | S n' => let* _ := Server.fire_timer in fire_times n'
  end.

(** The statuses that the routes of server.js answer with. *)
Definition is_answer_status (code : Z) : Prop :=
  code = 200 \/ code = 401 \/ code = 403 \/ code = 500.

(** The remote service, in state [store], says that user [u] has [rel] on
    [res]: the check returns [true]. *)
Definition remote_allows {R} (fgaClient : FgaClient R) (store : R) (u : User)
    (res rel : string) : bool :=
  match fga_check fgaClient store (mkTuple ("user:" +:+ sub u) rel res) with
  | Return true => true
  | _ => false
  end.

(** The pairs that [loadUserPermissions] asks about, in the order of its two
    loops. *)
Definition loaded_pairs : list (string * string) :=
  list_prod App.resources App.relations.

(** What one iteration of the loading loop does to the cache when the store
    of the remote service is [store]. *)
Definition cache_step {R} (fgaClient : FgaClient R) (store : R) (u : User)
    (c : gmap string bool) (p : string * string) : gmap string bool :=
  if remote_allows fgaClient store u (fst p) (snd p)
  then <[mk_key (fst p) (snd p) := true]> c
  else c.

(** The remote check that one iteration of the loading loop causes. *)
Definition check_of (u : User) (p : string * string) : Effect :=
  FgaCheck (mkTuple ("user:" +:+ sub u) (snd p) (fst p)).

(** ** auth0-post-login-action.js *)

Module PostLogin.

(** JavaScript numbers are IEEE 754 doubles.  A retry count holds an integer
    and is written as that integer.  Every integer up to [2^53] in absolute
    value is a double; a larger one is a double only when it is a multiple of
    [2^e], [e] being the number of its bits beyond 53.  [to_double z] is the
    double nearest to the integer [z], a tie going to the even significand:
    what an addition gives whose exact result is [z].  (Adding 1 to a double
    never reaches the range where the result would be [Infinity].) *)
Definition to_double (z : Z) : Z :=
  let m := Z.abs z in
  let e := Z.log2 m - 52 in
  if e <=? 0 then z
  else
    let q := Z.shiftr m e in
    let r := Z.land m (Z.ones e) in
    let half := Z.shiftl 1 (e - 1) in
    let q' := if (half <? r) || ((r =? half) && Z.odd q) then q + 1 else q in
    Z.sgn z * Z.shiftl q' e.

(** [count + 1] *)
Definition plus_one (count : Z) : Z := to_double (count + 1).

(** The values that the action reads from and writes to [app_metadata] and
    the token claims. *)
Inductive MetaValue : Type :=
| MUndefined
| MBool (b : bool)
| MString (s : string)
| MList (l : list string)
| MSyncError (message timestamp : string) (retry_count : Z).

(** The value as a condition: what [if (v)] and [v || d] test. *)
Definition truthy (v : MetaValue) : bool :=
  match v with
  | MUndefined => false
  | MBool b => b
  | MString s => negb (String.eqb s "")
  | MList _ => true
  | MSyncError _ _ _ => true
  end.

(** [v || d] *)
Definition or_else (v d : MetaValue) : MetaValue := if truthy v then v else d.

Record Event : Type := mkEvent {
  user_id : string;
  app_metadata : option (gmap string MetaValue)
}.

(** [user.app_metadata?.field] *)
Definition meta_field (event : Event) (field : string) : MetaValue :=
  match app_metadata event with
  | Some m => default MUndefined (m !! field)
  | None => MUndefined
  end.

(** The fields of the external API's answer that the action reads. *)
Record UserData : Type := mkUserData {
  ud_loyalty_tier : MetaValue;
  ud_employee_id : MetaValue;
  ud_department : MetaValue;
  ud_access_level : MetaValue;
  ud_custom_permissions : MetaValue
}.

(** What [api.fetch] resolves to; [fr_json] is what [response.json()] settles
    to, [None] standing for the JSON value [null]. *)
Record FetchResponse : Type := mkFetchResponse {
  fr_ok : bool;
  fr_status : Z;
  fr_json : Result (option UserData)
}.

(** What the action did to the login, in order, and the console. *)
Record Api : Type := mkApi {
  fetched : list string;
  metadata_set : list (string * MetaValue);
  idToken_claims : list (string * MetaValue);
  accessToken_claims : list (string * MetaValue);
  action_console : list LogLine
}.

Definition api0 : Api := mkApi [] [] [] [] [].

Definition add_fetched (url : string) (a : Api) : Api :=
  mkApi (fetched a ++ [url]) (metadata_set a) (idToken_claims a)
        (accessToken_claims a) (action_console a).

Definition add_metadata (k : string) (v : MetaValue) (a : Api) : Api :=
  mkApi (fetched a) (metadata_set a ++ [(k, v)]) (idToken_claims a)
        (accessToken_claims a) (action_console a).

Definition add_id_claim (k : string) (v : MetaValue) (a : Api) : Api :=
  mkApi (fetched a) (metadata_set a) (idToken_claims a ++ [(k, v)])
        (accessToken_claims a) (action_console a).

Definition add_access_claim (k : string) (v : MetaValue) (a : Api) : Api :=
  mkApi (fetched a) (metadata_set a) (idToken_claims a)
        (accessToken_claims a ++ [(k, v)]) (action_console a).

Definition add_console (l : LogLine) (a : Api) : Api :=
  mkApi (fetched a) (metadata_set a) (idToken_claims a)
        (accessToken_claims a) (action_console a ++ [l]).

Section Action.
(** The external API, as reached through [api.fetch]. *)
Variable external_api : string -> Result FetchResponse.
(** [new Date().toISOString()] *)
Variable now : string.

Definition api_fetch (url : string) : M Api FetchResponse :=
  fun a => (external_api url, add_fetched url a).

Definition setAppMetadata (k : string) (v : MetaValue) : M Api unit :=
  modify (add_metadata k v).

Definition log (l : LogLine) : M Api unit := modify (add_console l).

(** A property read on [userData]: a [TypeError] when it is [null]. *)
Definition the_data (d : option UserData) : M Api UserData :=
  match d with
  | Some ud => ret ud
  | None => throw "Cannot read properties of null"
  end.

(** [user.app_metadata?.data_sync_error?.retry_count || 0] *)
Definition previous_retry_count (event : Event) : Z :=
  match meta_field event "data_sync_error" with
  | MSyncError _ _ n => n
  | _ => 0
  end.

Definition onExecutePostLogin (event : Event) : M Api unit :=
  try_catch
    (let isDataSynced := meta_field event "is_data_synced" in
     if truthy isDataSynced then
       log (LogText ("User " +:+ user_id event +:+
                     " data already synced, skipping enrichment"))
     else
       let* _ := log (LogText ("Starting data enrichment for user " +:+
                               user_id event)) in
       let externalApiUrl :=
         "https://api.internal-db.com/user-data?id=" +:+ user_id event in
       let* response := api_fetch externalApiUrl in
       if negb (fr_ok response) then
         throw ("External API request failed with status: " +:+
                pretty (fr_status response))
       else
         let* json := (fun a => (fr_json response, a)) in
         let* _ := log (LogText ("Successfully fetched user data for " +:+
                                 user_id event)) in
         let* userData := the_data json in
         let loyalty_tier := or_else (ud_loyalty_tier userData) (MString "Bronze") in
         let custom_permissions :=
           or_else (ud_custom_permissions userData) (MList []) in
         let* _ := setAppMetadata "loyalty_tier" loyalty_tier in
         let* _ := setAppMetadata "employee_id" (ud_employee_id userData) in
         let* _ := setAppMetadata "department" (ud_department userData) in
         let* _ := setAppMetadata "access_level" (ud_access_level userData) in
         let* _ := setAppMetadata "custom_permissions" custom_permissions in
         let* _ := setAppMetadata "is_data_synced" (MBool true) in
         let* _ := setAppMetadata "data_sync_timestamp" (MString now) in
         let* _ := log (LogText ("Successfully updated app_metadata for user " +:+
                                 user_id event)) in
         let* _ := modify (add_id_claim "loyalty_tier" loyalty_tier) in
         let* _ := modify (add_id_claim "access_level" (ud_access_level userData)) in
         let* _ := modify (add_access_claim "loyalty_tier" loyalty_tier) in
         modify (add_access_claim "access_level" (ud_access_level userData)))
    (fun error =>
       let* _ := log (LogError ("Error during user profile enrichment for " +:+
                                user_id event +:+ ":") error) in
       let* _ := setAppMetadata "data_sync_error"
                   (MSyncError error now (plus_one (previous_retry_count event))) in
       log (LogText ("Login proceeding for user " +:+ user_id event +:+
                     " despite enrichment failure"))).

(** The platform keeps what [api.user.setAppMetadata] set: the user's
    [app_metadata] at the next login. *)
Definition metadata_after (event : Event) (a : Api) : gmap string MetaValue :=
  foldl (fun m kv => <[fst kv := snd kv]> m)
        (default ∅ (app_metadata event)) (metadata_set a).

Definition next_event (event : Event) (a : Api) : Event :=
  mkEvent (user_id event) (Some (metadata_after event a)).

(** [n] logins of the same user, one after the other, each starting from a
    fresh [api]; the result is the event of the login after them and what
    each login did, in order. *)
Fixpoint logins (n : nat) (event : Event) : Event * list Api :=
  match n with
  | O => (event, [])
  | S n' =>
      let a := snd (onExecutePostLogin event api0) in
      let rest := logins n' (next_event event a) in
      (fst rest, a :: snd rest)
  end.

(** The external API did not deliver user data: the request failed, or was
    answered with an error status, or its body was no JSON or was [null]. *)
Definition no_user_data (r : Result FetchResponse) : Prop :=
  match r with
  | Throw _ => True
  | Return resp =>
      fr_ok resp = false
      \/ match fr_json resp with
         | Throw _ => True
         | Return None => True
         | Return (Some _) => False
         end
  end.
End Action.
End PostLogin.

(** An external API that answers for every user, and one that is down. *)
Definition gold_api : string -> Result PostLogin.FetchResponse :=
  fun _ => Return (PostLogin.mkFetchResponse true 200
             (Return (Some (PostLogin.mkUserData
                (PostLogin.MString "Gold") (PostLogin.MString "E-17")
                (PostLogin.MString "Engineering") (PostLogin.MString "admin")
                PostLogin.MUndefined)))).

Definition failing_api : string -> Result PostLogin.FetchResponse :=
  fun _ => Return (PostLogin.mkFetchResponse false 503 (Throw "no body")).

Definition first_login : PostLogin.Event := PostLogin.mkEvent "auth0|alice" None.

(** A user whose recorded retry count has reached [2^53]. *)
Definition worn_out_login : PostLogin.Event :=
  PostLogin.mkEvent "auth0|alice"
    (Some {["data_sync_error" :=
              PostLogin.MSyncError "no body" "2025-10-09T12:00:00.000Z" (2 ^ 53)]}).

(** ** app.js: security log, notifications and Token Vault tokens *)

Module Dashboard.

(** A [div.log-entry] as [updateSecurityLogs] builds it. *)
Record LogEntryDiv : Type := mkLogEntryDiv {
  log_time : string;
  log_event : string;
  log_status : string
}.

(** The page: the element children of [.log-entries], first child first
    ([None] when the document has no such element), the notifications
    shown so far, and the [loading] class of the body. *)
Record Page : Type := mkPage {
  log_entries : option (list LogEntryDiv);
  notifications : list (string * string);
  loading : bool
}.

Record Browser : Type := mkBrowser {
  tokenVaultTokens : gmap string Json;
  page : Page;
  browser_console : list LogLine
}.

(** [while (children.length > limit) removeChild(lastChild)] *)
Equations? remove_excess {A} (limit : nat) (children : list A) : list A
  by wf (length children) lt :=
  remove_excess limit children with decide (limit < length children)%nat := {
    | left _ => remove_excess limit (removelast children)
    | right _ => children }.
Proof. rewrite removelast_firstn_len, length_take. lia. Qed.

(** [updateSecurityLogs(newLog)] *)
Definition updateSecurityLogs (newLog : LogEntryDiv) (p : Page) : Page :=
  match log_entries p with
  | None => p
  | Some children =>
      mkPage (Some (remove_excess 10%nat (newLog :: children)))
             (notifications p) (loading p)
  end.

(** [addSecurityLog(event, status, details)]; [time] is what
    [toLocaleTimeString] gives for the moment of the call. *)
Definition addSecurityLog (time event status details : string) (p : Page) : Page :=
  updateSecurityLogs (mkLogEntryDiv time event status) p.

(** [showNotification(message, type)] *)
Definition showNotification (message type : string) (p : Page) : Page :=
  mkPage (log_entries p) (notifications p ++ [(message, type)]) (loading p).

Definition showLoadingState (p : Page) : Page :=
  mkPage (log_entries p) (notifications p) true.

Definition hideLoadingState (p : Page) : Page :=
  mkPage (log_entries p) (notifications p) false.

Definition on_page (f : Page -> Page) (b : Browser) : Browser :=
  mkBrowser (tokenVaultTokens b) (f (page b)) (browser_console b).

(** [appState.tokenVaultTokens.set(service, data)] *)
Definition tokens_set (service : string) (data : Json) (b : Browser) : Browser :=
  mkBrowser (<[service := data]> (tokenVaultTokens b)) (page b) (browser_console b).

Definition browser_log (l : LogLine) (b : Browser) : Browser :=
  mkBrowser (tokenVaultTokens b) (page b) (browser_console b ++ [l]).

(** [getTokenVaultToken(service)]: what the map holds for the service,
    [None] standing for [undefined]. *)
Definition getTokenVaultToken (b : Browser) (service : string) : option Json :=
  tokenVaultTokens b !! service.

(** [!calendarToken] *)
Definition not_token (calendarToken : option Json) : bool :=
  match calendarToken with
  | Some data => negb (json_truthy data)
  | None => true
  end.

(** [tokenData.expires_in] in a template literal *)
Definition show_expires_in (data : Json) : string :=
  match data with JToken _ n _ => pretty n | _ => "undefined" end.

Section Client.
Context {Net : Type}.
(** [fetch('/api/tokens/google-calendar', {credentials: 'include'})] *)
Variable fetch_calendar_token : M Net Response.
(** [fetch('/api/tokens/slack', {credentials: 'include'})] *)
Variable fetch_slack_token : M Net Response.
(** [toLocaleTimeString] of the moment of the call *)
Variable time : string.

Definition via_net {A} (m : M Net A) : M (Browser * Net) A :=
  fun s => match m (snd s) with (r, n') => (r, (fst s, n')) end.

Definition in_browser (f : Browser -> Browser) : M (Browser * Net) unit :=
  modify (fun s => (f (fst s), snd s)).

Definition loadTokenVaultTokens : M (Browser * Net) unit :=
  try_catch
    (let* calendarResponse := via_net fetch_calendar_token in
     let* _ := if App.response_ok calendarResponse
               then in_browser (tokens_set "google-calendar" (body calendarResponse))
               else ret tt in
     let* slackResponse := via_net fetch_slack_token in
     let* _ := if App.response_ok slackResponse
               then in_browser (tokens_set "slack" (body slackResponse))
               else ret tt in
     in_browser (browser_log (LogText "Loaded Token Vault tokens:")))
    (fun error =>
       in_browser (browser_log (LogError "Error loading Token Vault tokens:" error))).

Definition refreshCalendarData : M (Browser * Net) unit :=
  let* _ := in_browser (on_page showLoadingState) in
  try_catch
    (let* s := get in
     let calendarToken := getTokenVaultToken (fst s) "google-calendar" in
     if not_token calendarToken then
       let* response := via_net fetch_calendar_token in
       if App.response_ok response then
         let tokenData := body response in
         let* _ := in_browser (tokens_set "google-calendar" tokenData) in
         let* _ := in_browser (on_page hideLoadingState) in
         let* _ := in_browser (on_page (showNotification
                     "Calendar data refreshed via Token Vault" "success")) in
         let* expires_in := property_of tokenData show_expires_in in
         in_browser (on_page (addSecurityLog time "Calendar sync completed" "success"
           ("Events synchronized from Google Calendar using Token Vault (expires in "
            +:+ expires_in +:+ "s)")))
       else throw "Failed to get calendar token"
     else
       let* _ := in_browser (on_page hideLoadingState) in
       let* _ := in_browser (on_page (showNotification
                   "Calendar data refreshed via Token Vault" "success")) in
       in_browser (on_page (addSecurityLog time "Calendar sync completed" "success"
         "Events synchronized from Google Calendar using cached Token Vault token")))
    (fun error =>
       let* _ := in_browser (browser_log (LogError "Error refreshing calendar:" error)) in
       let* _ := in_browser (on_page hideLoadingState) in
       let* _ := in_browser (on_page (showNotification
                   "Failed to refresh calendar data" "error")) in
       in_browser (on_page (addSecurityLog time "Calendar sync failed" "error" error))).
End Client.
End Dashboard.

(** The token routes of server.js, as the browser reaches them with its
    session cookie. *)
Definition fetch_calendar_token {R} (fgaClient : FgaClient R)
    (management_getUser : string -> Result AppMetadata) (session : option User)
  : M (World R) Response :=
  Server.route fgaClient management_getUser Server.GetTokenGoogleCalendar
    (mkRequest session "" "" "" "" "").

Definition fetch_slack_token {R} (fgaClient : FgaClient R)
    (management_getUser : string -> Result AppMetadata) (session : option User)
  : M (World R) Response :=
  Server.route fgaClient management_getUser Server.GetTokenSlack
    (mkRequest session "" "" "" "" "").

Definition empty_page : Dashboard.Page := Dashboard.mkPage (Some []) [] false.

Definition browser0 : Dashboard.Browser := Dashboard.mkBrowser ∅ empty_page [].

(** ** The environment of the JWT server and of its configuration file *)

Module Env.

(** [process.env.NAME] as a condition: the variable is set and not empty. *)
Definition is_set (env : gmap string string) (name : string) : bool :=
  match env !! name with
  | Some v => negb (String.eqb v "")
  | None => false
  end.

(** [process.env.NAME || fallback] *)
Definition or_default (env : gmap string string) (name fallback : string) : string :=
  match env !! name with
  | Some v => if String.eqb v "" then fallback else v
  | None => fallback
  end.

(** [process.env.NAME !== literal] *)
Definition differs (env : gmap string string) (name literal : string) : bool :=
  match env !! name with
  | Some v => negb (String.eqb v literal)
  | None => true
  end.

(** [AUTH0_CONFIG.domain] *)
Definition config_domain (env : gmap string string) : string :=
  or_default env "AUTH0_DOMAIN" "demo.auth0.com".

(** The body of [GET /api/health]. *)
Record Health : Type := mkHealth {
  h_status : string;
  h_timestamp : string;
  h_auth0_configured : bool;
  h_fga_configured : bool;
  h_auth0_domain : string
}.

Definition health (env : gmap string string) (now : string) : Health :=
  let auth0Configured :=
    is_set env "AUTH0_DOMAIN" && is_set env "AUTH0_CLIENT_ID"
    && is_set env "AUTH0_CLIENT_SECRET"
    && differs env "AUTH0_DOMAIN" "demo.auth0.com"
    && differs env "AUTH0_CLIENT_ID" "demo-client-id" in
  mkHealth "ok" now auth0Configured
           (is_set env "FGA_STORE_ID" && is_set env "FGA_CLIENT_ID")
           (or_default env "AUTH0_DOMAIN" "not-set").

(** The condition under which [app.use(auth(config))] is mounted and the
    management client is created. *)
Definition auth_mounted (env : gmap string string) : bool :=
  is_set env "AUTH0_DOMAIN" && is_set env "AUTH0_CLIENT_ID"
  && is_set env "AUTH0_CLIENT_SECRET".

(** [fgaClient] after the [try] block that builds it; [new_client] is what
    [new OpenFgaClient(...)] yields. *)
Definition configured_client {R} (env : gmap string string)
    (new_client : Result (FgaClient R)) : option (FgaClient R) :=
  if is_set env "FGA_STORE_ID" && is_set env "FGA_CLIENT_ID" then
    match new_client with
    | Return c => Some c
    | Throw _ => None
    end
  else None.

Definition requiredEnvVars : list string :=
  ["AUTH0_DOMAIN"; "AUTH0_CLIENT_ID"; "AUTH0_CLIENT_SECRET"; "SESSION_SECRET"].

(** [validateConfig()]: the result, and the names it warns about. *)
Definition validateConfig (env : gmap string string) : bool * list string :=
  let missing := filter (fun envVar => is_set env envVar = false) requiredEnvVars in
  if (0 <? length missing)%nat then (false, missing) else (true, []).
End Env.

(** An environment with only the Auth0 variables set, to demo values. *)
Definition demo_env : gmap string string :=
  {[ "AUTH0_DOMAIN" := "demo.auth0.com"; "AUTH0_CLIENT_ID" := "demo-client-id";
     "AUTH0_CLIENT_SECRET" := "demo-client-secret" ]}.

(** ** app.js: the redirect to the login page *)

Module Login.

(** [AUTH0_CONFIG] of the browser. *)
Record Auth0Config : Type := mkAuth0Config {
  domain : string;
  clientId : string;
  audience : string;
  scope : string
}.

(** What the login code touches in the window. *)
Record Window : Type := mkWindow {
  origin : string;
  href : string;
  sessionStorage : gmap string string;
  random : nat -> string;
  drawn : nat
}.

Section Redirect.
Variable AUTH0_CONFIG : Auth0Config.
(** The builtin [encodeURIComponent]. *)
Variable encodeURIComponent : string -> string.

(** [Math.random().toString(36).substr(2, 16)] *)
Definition generateRandomState : M Window string :=
  fun w => (Return (String.substring 2 16 (random w (drawn w))),
            mkWindow (origin w) (href w) (sessionStorage w) (random w) (S (drawn w))).

Definition initiateAuth0Login : M Window unit :=
  let* w := get in
  let* state := generateRandomState in
  let authUrl :=
    "https://" +:+ domain AUTH0_CONFIG +:+ "/authorize?" +:+
    "response_type=code&" +:+
    "client_id=" +:+ clientId AUTH0_CONFIG +:+ "&" +:+
    "redirect_uri=" +:+ encodeURIComponent (origin w +:+ "/callback") +:+ "&" +:+
    "scope=" +:+ encodeURIComponent (scope AUTH0_CONFIG) +:+ "&" +:+
    "audience=" +:+ encodeURIComponent (audience AUTH0_CONFIG) +:+ "&" +:+
    "state=" +:+ state in
  let* stored := generateRandomState in
  let* _ := modify (fun w => mkWindow (origin w) (href w)
                       (<["auth0_state" := stored]> (sessionStorage w))
                       (random w) (drawn w)) in
  modify (fun w => mkWindow (origin w) authUrl (sessionStorage w)
                     (random w) (drawn w)).
End Redirect.
End Login.

(** A window whose draws differ from one another. *)
Definition window0 : Login.Window :=
  Login.mkWindow "http://localhost:3000" "http://localhost:3000/" ∅
    (fun i => if Nat.eqb i 0 then "0.4fzyo82mvyr" else "0.k1x9q7hd2pm") 0.

Definition browser_config : Login.Auth0Config :=
  Login.mkAuth0Config "your-domain.auth0.com" "your_client_id"
    "https://api.ai-project-manager.com"
    "openid profile email read:projects write:projects manage:calendar".

(** ** app.js: opening a document *)

Module Documents.

(** What [resourceMap[docId] || `document:${docId}`] evaluates to: a string,
    or, when [docId] names a property that every object inherits, that
    inherited value. *)
Inductive Resource : Type :=
| RString (s : string)
| RInherited (name : string).

(** The tab: the application state, the page and the console. *)
Record Tab : Type := mkTab {
  app : App.AppState;
  page : Dashboard.Page;
  tab_console : list LogLine
}.

Definition on_tab_page (f : Dashboard.Page -> Dashboard.Page) (t : Tab) : Tab :=
  mkTab (app t) (f (page t)) (tab_console t).

Definition on_tab_app (f : App.AppState -> App.AppState) (t : Tab) : Tab :=
  mkTab (f (app t)) (page t) (tab_console t).

Definition tab_log (l : LogLine) (t : Tab) : Tab :=
  mkTab (app t) (page t) (tab_console t ++ [l]).

(** The object literal of [viewDocument]. *)
Definition resourceMap : gmap string string :=
  list_to_map [("doc1", "document:project-plan");
               ("doc2", "document:requirements");
               ("doc3", "document:architecture")].

Section View.
Context {Net : Type}.
(** Whether a name is a property that object literals inherit, and the
    text that such a value gives in a template literal. *)
Variable inherited : string -> bool.
Variable show_inherited : string -> string.
(** [fetch('/api/async-approval', ...)] with action ['access_document'], the
    resource as given to [JSON.stringify], and the justification. *)
Variable fetch_access_request : Resource -> string -> M Net Response.
(** [toLocaleTimeString] and [toISOString] of the moment of the call, and the
    description of the current user in the log details. *)
Variable time : string.
Variable now : string.
Variable userContext : string.

(** [`${resource}`] *)
Definition show (r : Resource) : string :=
  match r with
  | RString s => s
  | RInherited name => show_inherited name
  end.

Definition resource_of (docId : string) : Resource :=
  match resourceMap !! docId with
  | Some v => if String.eqb v "" then RString ("document:" +:+ docId) else RString v
  | None => if inherited docId then RInherited docId
            else RString ("document:" +:+ docId)
  end.

Definition in_tab (f : Tab -> Tab) : M (Tab * Net) unit :=
  modify (fun s => (f (fst s), snd s)).

Definition to_net {A} (m : M Net A) : M (Tab * Net) A :=
  fun s => match m (snd s) with (r, n') => (r, (fst s, n')) end.

Definition notify (message type : string) : M (Tab * Net) unit :=
  in_tab (on_tab_page (Dashboard.showNotification message type)).

Definition security_log (event status details : string) : M (Tab * Net) unit :=
  in_tab (on_tab_page (Dashboard.addSecurityLog time event status details)).

(** [requestDocumentAccess(resource, relation)]; the entry pushed keeps the
    resource as the approval list displays it. *)
Definition requestDocumentAccess (resource : Resource) (relation : string)
  : M (Tab * Net) unit :=
  try_catch
    (let* response := to_net (fetch_access_request resource
         ("User needs " +:+ relation +:+ " access to " +:+ show resource +:+
          " for project work")) in
     if App.response_ok response then
       let data := body response in
       let* request_id := property_of data App.data_request_id in
       let* _ := notify ("Access request submitted (ID: " +:+ request_id
                         +:+ "). You'll be notified when approved.") "info" in
       in_tab (on_tab_app (App.approvals_push
                 (App.mkApprovalEntry request_id (show resource)
                                      relation "pending" now)))
     else throw "Failed to submit access request")
    (fun error =>
       let* _ := in_tab (tab_log (LogError "Error requesting document access:" error)) in
       notify "Error requesting access" "error").

(** [if (permission)]: the permission, when it is given and not empty. *)
Definition given (permission : option string) : option string :=
  match permission with
  | Some p => if String.eqb p "" then None else Some p
  | None => None
  end.

(** [viewDocument(docId, permission)]; [permission] is [None] when the
    argument is left out. *)
Definition viewDocument (docId : string) (permission : option string)
  : M (Tab * Net) unit :=
  try_catch
    (let resource := resource_of docId in
     match given permission with
     | Some p =>
         if String.eqb p "no-access" then
           let* _ := notify "Access denied: Insufficient permissions" "error" in
           security_log "Document access denied" "error"
             ("User attempted to access restricted document " +:+ docId)
         else
           let* _ := notify ("Document opened with " +:+ p +:+ " permissions")
                       "success" in
           security_log "Document accessed" "success"
             ("User accessed document " +:+ docId +:+ " with " +:+ p +:+ " permissions")
     | None =>
         let* s := get in
         let a := app (fst s) in
         let opened (userPermission : string) :=
           let* _ :=
             if String.eqb userPermission "viewer" then
               notify "Document opened in read-only mode" "info"
             else if String.eqb userPermission "editor" then
               notify "Document opened with edit permissions" "success"
             else notify "Document opened with full permissions" "success" in
           security_log "Document accessed" "success"
             (userContext +:+ " accessed " +:+ show resource +:+ " with " +:+
              userPermission +:+ " permissions") in
         if App.hasPermission a (show resource) "owner" then opened "owner"
         else if App.hasPermission a (show resource) "editor" then opened "editor"
         else if App.hasPermission a (show resource) "viewer" then opened "viewer"
         else
           let* _ := notify "Access denied. Requesting approval..." "warning" in
           requestDocumentAccess resource "viewer"
     end)
    (fun error =>
       let* _ := in_tab (tab_log (LogError "Error accessing document:" error)) in
       notify "Error accessing document" "error").
End View.
End Documents.

Definition tab0 : Documents.Tab := Documents.mkTab App.appState empty_page [].

(** A tab in which the owner permission on the project plan is cached. *)
Definition tab_owner : Documents.Tab :=
  Documents.mkTab
    (App.permissions_set "document:project-plan:owner" true App.appState)
    empty_page [].

(** An approval route that accepts every request, on a network without
    state. *)
Definition accepting_route : Documents.Resource -> string -> M unit Response :=
  fun _ _ n =>
    (Return (mkResponse 200
       (JApproval "req_4fzyo82mv" "pending"
          "Approval request submitted. You will be notified when approved.")), n).

Definition no_inherited : string -> bool := fun _ => false.

(** * Properties *)

(** ** The journal *)

Lemma effects_since_refl {R} (w : World R) : effects_since w w = [].
Proof. unfold effects_since. apply drop_all. Qed.

Lemma effects_since_add {R} (w : World R) (e : Effect) :
  effects_since w (add_effect e w) = [e].
Proof. unfold effects_since. simpl. apply drop_app_length. Qed.

Lemma effects_since_add_line {R} (w w' : World R) (l : LogLine) :
  effects_since w (add_line l w') = effects_since w w'.
Proof. reflexivity. Qed.

Lemma effects_since_set_store {R} (w w' : World R) (r : R) :
  effects_since w (set_store r w') = effects_since w w'.
Proof. reflexivity. Qed.

Lemma effects_since_add2 {R} (w : World R) (e1 e2 : Effect) :
  effects_since w (add_effect e2 (add_effect e1 w)) = [e1; e2].
Proof.
  unfold effects_since. simpl. rewrite <- app_assoc. apply drop_app_length.
Qed.

(** ** requireAuth *)

(** What the routes leave to the error middleware, and what it answers. *)
Lemma app_run {R} (fgaClient : FgaClient R)
    (management_getUser : string -> Result AppMetadata) (NODE_ENV : option string)
    (express_static : Server.Endpoint -> Result (option Response))
    (e : Server.Endpoint) (inc : Server.Incoming) (w : World R) :
  let failed := fun (error : string) (w0 : World R) =>
    (Return (mkResponse 500
       (JInternalError "Internal server error"
          (if decide (NODE_ENV = Some "development")
           then error else "Something went wrong"))),
     add_line (LogError "Application error:" error) w0) in
  let routed := fun (req : Request) =>
    match Server.route fgaClient management_getUser e req w with
    | (Return response, w') => (Return response, w')
    | (Throw error, w') => failed error w'
    end in
  Server.app fgaClient management_getUser NODE_ENV express_static e inc w
  = match inc with
    | Server.BadBody _ error => failed error w
    | Server.WithBody req =>
        match Server.method e with
        | Server.POST => routed req
        | Server.GET =>
            match express_static e with
            | Return (Some response) => (Return response, w)
            | Return None => routed req
            | Throw error => failed error w
            end
        end
    end.
Proof.
  cbv zeta.
  unfold Server.app, Server.express_json, Server.serve_static, Server.error_middleware,
    try_catch, bind, ret, throw, console_error, modify.
  destruct inc as [req | user error]; [| reflexivity].
  destruct (Server.method e); cbn [fst snd]; [| reflexivity].
  destruct (express_static e) as [[response |] | error]; reflexivity.
Qed.

(** No error escapes a route that sits behind [requireAuth], and its status
    is 200, 401, 403 or 500. *)
Lemma protected_route_answers {R} (fgaClient : FgaClient R)
    (management_getUser : string -> Result AppMetadata)
    (e : Server.Endpoint) (req : Request) (w : World R) :
  Server.protected e = true ->
  exists resp,
    fst (Server.route fgaClient management_getUser e req w) = Return resp
    /\ is_answer_status (status resp).
Proof.
  unfold is_answer_status. intros He.
  destruct req as [[u |] res rel tgt act jus]; destruct e; try discriminate He; simpl;
    unfold Server.requireAuth, isAuthenticated; simpl;
    try (eexists; split; [reflexivity | simpl; tauto]).
  - unfold Server.profile, try_catch, bind. simpl.
    destruct (management_getUser (sub u)); simpl;
      eexists; (split; [reflexivity | simpl; tauto]).
  - unfold Server.check_access, try_catch, bind, await_check. simpl.
    case_check; simpl; eexists; (split; [reflexivity | simpl; tauto]).
  - unfold Server.grant_access, try_catch, bind, await_check, await_write. simpl.
    case_check; simpl; try case_write; simpl;
      eexists; (split; [reflexivity | simpl; tauto]).
Qed.

(** A request whose body parses, and which [express.static] passes on,
    gets from the application exactly what its route does: what is proved of
    a route behind [requireAuth] holds of the application for these
    requests. *)
Lemma app_reaches_route {R} (fgaClient : FgaClient R)
    (management_getUser : string -> Result AppMetadata) (NODE_ENV : option string)
    (express_static : Server.Endpoint -> Result (option Response))
    (e : Server.Endpoint) (req : Request) (w : World R) :
  Server.protected e = true ->
  (Server.method e = Server.GET -> express_static e = Return None) ->
  Server.app fgaClient management_getUser NODE_ENV express_static e
    (Server.WithBody req) w
  = Server.route fgaClient management_getUser e req w.
Proof.
  intros He Hstatic. rewrite app_run. cbv zeta.
  destruct (protected_route_answers fgaClient management_getUser e req w He)
    as (resp & Hrun & _).
  destruct (Server.route fgaClient management_getUser e req w) as [[r | err] w'];
    simpl in Hrun; [| discriminate Hrun].
  destruct (Server.method e); [rewrite (Hstatic eq_refl) |]; reflexivity.
Qed.

(** C10, as stated, does not hold.  [express.json()] is mounted before the
    routes, and with them before [requireAuth]: an unauthenticated request
    to the check route whose body does not parse is answered by the error
    middleware, with 500 and not 401, and the error is on the console. *)
Lemma unauthenticated_bad_body_answered_500 :
  let w := world0 plan_tuples in
  let out := Server.app memory_fga no_metadata None no_static
               Server.PostFgaCheckAccess
               (Server.BadBody None "Unexpected token } in JSON at position 12") w in
  Server.protected Server.PostFgaCheckAccess = true
  /\ fst out
     = Return (mkResponse 500
         (JInternalError "Internal server error" "Something went wrong"))
  /\ console (snd out)
     = [LogError "Application error:" "Unexpected token } in JSON at position 12"]
  /\ out <> (Return (mkResponse 401 (JError "Authentication required")), w).
Proof. cbv zeta. split_and!; try reflexivity. intros Heq. discriminate Heq. Qed.

(** C10, amended. Every endpoint registered with [requireAuth] (profile, the
    two token routes, FGA check and grant, async approval) answers an
    unauthenticated request that reaches it, one whose body [express.json()]
    accepts and which [express.static] does not answer from [public/], with
    401 and [{error: 'Authentication required'}], and the world of the server
    is the one it started from.  An unauthenticated request whose body
    [express.json()] rejects is answered 500 by the error middleware, which
    logs the error.  Either way no remote call is journalled, no timer is
    set, and the remote store is untouched. *)
Theorem unauthenticated_request_rejected {R} (fgaClient : FgaClient R)
    (management_getUser : string -> Result AppMetadata) (NODE_ENV : option string)
    (express_static : Server.Endpoint -> Result (option Response))
    (e : Server.Endpoint) (inc : Server.Incoming) (w : World R) :
  Server.protected e = true ->
  Server.session inc = None ->
  (Server.method e = Server.GET -> express_static e = Return None) ->
  let out := Server.app fgaClient management_getUser NODE_ENV express_static e inc w in
  match inc with
  | Server.WithBody _ =>
      out = (Return (mkResponse 401 (JError "Authentication required")), w)
  | Server.BadBody _ error =>
      exists message,
        out = (Return (mkResponse 500 (JInternalError "Internal server error" message)),
               add_line (LogError "Application error:" error) w)
  end
  /\ effects_since w (snd out) = []
  /\ fga_store (snd out) = fga_store w
  /\ timers (snd out) = timers w.
Proof.
  intros He Hnone Hstatic. cbv zeta. rewrite app_run. cbv zeta.
  destruct inc as [req | user error].
  - assert (Hroute : Server.route fgaClient management_getUser e req w
                     = (Return (mkResponse 401 (JError "Authentication required")), w)).
    { simpl in Hnone. destruct e; try discriminate He; simpl;
        unfold Server.requireAuth, isAuthenticated; rewrite Hnone; reflexivity. }
    destruct (Server.method e) eqn:Hmethod.
    + rewrite (Hstatic eq_refl), Hroute.
      split_and!; try reflexivity. apply effects_since_refl.
    + rewrite Hroute. split_and!; try reflexivity. apply effects_since_refl.
  - cbn [fst snd]. split_and!; try reflexivity.
    + eexists. reflexivity.
    + rewrite effects_since_add_line. apply effects_since_refl.
Qed.

Lemma unauthenticated_request_rejected_witness :
  let asked := Server.WithBody (mkRequest None "" "" "" "" "") in
  Server.protected Server.GetProfile = true /\
  Server.session asked = None /\
  (Server.method Server.GetProfile = Server.GET ->
   no_static Server.GetProfile = Return None) /\
  Server.app memory_fga no_metadata None no_static Server.GetProfile asked
    (world0 plan_tuples)
  = (Return (mkResponse 401 (JError "Authentication required")), world0 plan_tuples).
Proof.
  cbv zeta. split; [reflexivity | split; [reflexivity | split; [reflexivity |]]].
  exact (proj1 (unauthenticated_request_rejected memory_fga no_metadata None no_static
                  Server.GetProfile
                  (Server.WithBody (mkRequest None "" "" "" "" ""))
                  (world0 plan_tuples) eq_refl eq_refl (fun _ => eq_refl))).
Defined.

(** [express.static] is mounted before the routes too: a file of [public/]
    that has the path of a GET endpoint is served to whoever asks. *)
Example static_file_shadows_profile :
  let page := mkResponse 200 (JFile "/public/api/profile") in
  let served := fun e : Server.Endpoint =>
    match e with Server.GetProfile => Return (Some page) | _ => Return None end in
  Server.app memory_fga no_metadata None served Server.GetProfile
    (Server.WithBody (mkRequest None "" "" "" "" "")) (world0 plan_tuples)
  = (Return page, world0 plan_tuples).
Proof. reflexivity. Qed.

(** ** Approval requests *)

(** C7. For an authenticated caller the approval route always succeeds: it
    answers 200 with the generated request id and status [pending], logs the
    request it built (status [pending]), and has started one 5000 ms timer
    for that id; the remote store and the journal are untouched. *)
Theorem async_approval_returns_pending {R} (fgaClient : FgaClient R)
    (management_getUser : string -> Result AppMetadata)
    (req : Request) (w : World R) (u : User) :
  oidc_user req = Some u ->
  let id := "req_" +:+ String.substring 2 9 (entropy w (draws w)) in
  exists w',
    Server.route fgaClient management_getUser Server.PostAsyncApproval req w
    = (Return (mkResponse 200
         (JApproval id "pending"
            "Approval request submitted. You will be notified when approved.")), w')
    /\ timers w' = (timers w ++ [mkTimer 5000 id])%list
    /\ console w' =
         (console w ++
          [LogApprovalCreated "Approval request created:"
             (mkApprovalRequest id (sub u) (name u) (action req) (resource req)
                                (justification req) "pending" (clock w))])%list
    /\ fga_store w' = fga_store w
    /\ journal w' = journal w.
Proof.
  intros Hu id. eexists.
  simpl. unfold Server.requireAuth, isAuthenticated, Server.async_approval.
  rewrite Hu. simpl. unfold try_catch, bind. simpl.
  split; [reflexivity |]. simpl. repeat split; reflexivity.
Qed.

Lemma async_approval_returns_pending_witness :
  oidc_user (approval_request (Some alice)) = Some alice /\
  exists w',
    Server.route memory_fga no_metadata Server.PostAsyncApproval
      (approval_request (Some alice)) (world0 plan_tuples)
    = (Return (mkResponse 200
         (JApproval "req_4fzyo82mv" "pending"
            "Approval request submitted. You will be notified when approved.")), w')
    /\ timers w' = [mkTimer 5000 "req_4fzyo82mv"].
Proof.
  split; [reflexivity |].
  destruct (async_approval_returns_pending memory_fga no_metadata
              (approval_request (Some alice)) (world0 plan_tuples) alice eq_refl)
    as (w' & Hrun & Htimers & _).
  exists w'. split; [exact Hrun | exact Htimers].
Defined.

(** ** Granting access *)

(** No run of the grant route of the JWT server looks anything up in the
    mock table, whatever the client, the caller and the outcome. *)
Lemma grant_access_jwt_no_mock_lookup {R} (client : option (FgaClient R))
    (auth : ServerJwt.JwtAuth) (req : Request) (w : World R) :
  existsb is_mock_lookup
    (effects_since w (snd (ServerJwt.grant_access client auth req w))) = false.
Proof.
  unfold ServerJwt.grant_access, ServerJwt.client_check, ServerJwt.client_write,
    try_catch, bind.
  destruct client as [c |]; simpl.
  - unfold await_check, await_write. case_check; simpl.
    + case_write; simpl;
        rewrite ?effects_since_add_line, ?effects_since_set_store,
          effects_since_add2; reflexivity.
    + rewrite effects_since_add. reflexivity.
    + rewrite effects_since_add_line, effects_since_add. reflexivity.
  - rewrite effects_since_add_line, effects_since_refl. reflexivity.
Qed.

(** Whatever [jwtCheck] accepted, [user.sub] is [undefined] on the JWT
    server: [req.auth] has the properties [payload], [header] and [token]
    only. *)
Lemma user_sub_undefined (auth : ServerJwt.JwtAuth) :
  ServerJwt.user_sub auth = "undefined".
Proof. reflexivity. Qed.

(** X30. On server.js a caller who is not [owner] cannot grant: when the remote
    check says that the user of the session is not [owner] of the resource,
    the grant route answers 403 "Insufficient permissions to grant access",
    the remote store is what it was and the only call journalled is that
    owner check: no tuple is written.  The JWT server with a client asks the
    same question about [user:undefined], whoever calls, and refuses when the
    answer is no; and no run of its grant route ever consults the mock
    table. *)
Theorem grant_access_requires_owner {R} (fgaClient : FgaClient R)
    (management_getUser : string -> Result AppMetadata)
    (req : Request) (w : World R) (u : User) :
  oidc_user req = Some u ->
  fga_check fgaClient (fga_store w)
    (mkTuple ("user:" +:+ sub u) "owner" (resource req)) = Return false ->
  let denied := mkResponse 403 (JError "Insufficient permissions to grant access") in
  let owner_check := FgaCheck (mkTuple ("user:" +:+ sub u) "owner" (resource req)) in
  (exists w',
     Server.route fgaClient management_getUser Server.PostFgaGrantAccess req w
     = (Return denied, w')
     /\ fga_store w' = fga_store w
     /\ effects_since w w' = [owner_check])
  /\ (forall auth : ServerJwt.JwtAuth,
        fga_check fgaClient (fga_store w)
          (mkTuple "user:undefined" "owner" (resource req)) = Return false ->
        exists w',
          ServerJwt.grant_access (Some fgaClient) auth req w = (Return denied, w')
          /\ fga_store w' = fga_store w
          /\ effects_since w w'
             = [FgaCheck (mkTuple "user:undefined" "owner" (resource req))])
  /\ (forall (client : option (FgaClient R)) (auth : ServerJwt.JwtAuth)
             (req' : Request) (w0 : World R),
        existsb is_mock_lookup
          (effects_since w0 (snd (ServerJwt.grant_access client auth req' w0)))
        = false).
Proof.
  intros Hu Hcheck denied owner_check. split; [| split].
  - eexists. simpl.
    unfold Server.requireAuth, isAuthenticated, Server.grant_access.
    rewrite Hu. simpl. unfold try_catch, bind, await_check. simpl.
    rewrite Hcheck. simpl.
    split; [reflexivity |]. split; [reflexivity |]. apply effects_since_add.
  - intros auth Hjwt. eexists.
    unfold ServerJwt.grant_access, ServerJwt.client_check, try_catch, bind,
      await_check.
    rewrite user_sub_undefined.
    change ("user:" +:+ "undefined") with "user:undefined".
    rewrite Hjwt. simpl.
    split; [reflexivity |]. split; [reflexivity |]. apply effects_since_add.
  - intros client auth req' w0. apply grant_access_jwt_no_mock_lookup.
Qed.

Lemma grant_access_requires_owner_witness :
  oidc_user (grant_plan_editor_to_alice (Some bob)) = Some bob /\
  fga_check memory_fga (fga_store (world0 plan_tuples))
    (mkTuple ("user:" +:+ sub bob) "owner"
       (resource (grant_plan_editor_to_alice (Some bob)))) = Return false /\
  exists w',
    Server.route memory_fga no_metadata Server.PostFgaGrantAccess
      (grant_plan_editor_to_alice (Some bob)) (world0 plan_tuples)
    = (Return (mkResponse 403 (JError "Insufficient permissions to grant access")), w')
    /\ fga_store w' = plan_tuples.
Proof.
  split; [reflexivity | split; [reflexivity |]].
  destruct (grant_access_requires_owner memory_fga no_metadata
              (grant_plan_editor_to_alice (Some bob)) (world0 plan_tuples) bob
              eq_refl eq_refl) as ((w' & Hrun & Hstore & _) & _).
  exists w'. split; [exact Hrun | exact Hstore].
Defined.

(** C6 does not hold on the JWT server.  The store says that [user:undefined]
    is [owner] of the project plan and says nothing about Bob.  Bob, with a
    token of his own, asks the JWT server to make him [editor]: the owner
    check is made for [user:undefined], passes, and Bob's tuple is written.
    server.js, which reads the user of the session, refuses the same
    request with 403 and writes nothing. *)
Theorem jwt_grant_by_non_owner :
  let w := world0 undefined_owner_tuples in
  let asked := mkRequest None "document:project-plan" "editor" "auth0|bob" "" "" in
  let out := ServerJwt.grant_access (Some memory_fga) bob_token asked w in
  let out_js := Server.route memory_fga no_metadata Server.PostFgaGrantAccess
                  (mkRequest (Some bob) "document:project-plan" "editor"
                             "auth0|bob" "" "") w in
  fga_check memory_fga (fga_store w)
    (mkTuple "user:auth0|bob" "owner" "document:project-plan") = Return false
  /\ fst out
     = Return (mkResponse 200
         (JGranted true "Access granted: auth0|bob can now editor document:project-plan"))
  /\ fga_store (snd out)
     = (undefined_owner_tuples
        ++ [mkTuple "user:auth0|bob" "editor" "document:project-plan"])%list
  /\ effects_since w (snd out)
     = [FgaCheck (mkTuple "user:undefined" "owner" "document:project-plan");
        FgaWrite (mkTuple "user:auth0|bob" "editor" "document:project-plan")]
  /\ fst out_js
     = Return (mkResponse 403 (JError "Insufficient permissions to grant access"))
  /\ fga_store (snd out_js) = undefined_owner_tuples.
Proof. cbv zeta. split_and!; reflexivity. Qed.

(** ** The mock table *)

Lemma append_nil_l (s : string) : "" +:+ s = s.
Proof. reflexivity. Qed.

Lemma append_String (c : ascii) (a b : string) :
  String c a +:+ b = String c (a +:+ b).
Proof. reflexivity. Qed.

Lemma colon_free_app_colon (a b : string) : colon_free (a +:+ ":" +:+ b) = false.
Proof.
  induction a as [| c a IH].
  - rewrite append_nil_l, append_String. reflexivity.
  - rewrite append_String. simpl. rewrite IH. apply andb_false_r.
Qed.

(** A key splits at its last colon: with relations that carry no colon, two
    pairs with the same key are the same pair. *)
Lemma mk_key_inj (res1 rel1 res2 rel2 : string) :
  colon_free rel1 = true -> colon_free rel2 = true ->
  mk_key res1 rel1 = mk_key res2 rel2 -> res1 = res2 /\ rel1 = rel2.
Proof.
  unfold mk_key. revert res2.
  induction res1 as [| c res1 IH]; intros [| d res2] H1 H2 Heq;
    rewrite ?append_nil_l, ?append_String, ?append_nil_l in Heq.
  - injection Heq as Heq. split; [reflexivity | exact Heq].
  - injection Heq as Hd Heq. rewrite Heq in H1.
    change (colon_free (res2 +:+ ":" +:+ rel2) = true) in H1.
    rewrite colon_free_app_colon in H1. discriminate H1.
  - injection Heq as Hc Heq. rewrite <- Heq in H2.
    change (colon_free (res1 +:+ ":" +:+ rel1) = true) in H2.
    rewrite colon_free_app_colon in H2. discriminate H2.
  - injection Heq as Hc Heq. subst d.
    destruct (IH res2 H1 H2 Heq) as [Hres Hrel]. subst. split; reflexivity.
Qed.

(** The table is made of the keys of the four pairs, each with [true]. *)
Lemma mockPermissions_of_pairs :
  ServerJwt.mockPermissions
  = list_to_map ((fun p => (mk_key (snd p) (fst p), true)) <$> enumerated_pairs).
Proof. reflexivity. Qed.





(** ** Checks when the remote service fails *)

(** C2, as stated, does not hold: with an FGA service that cannot be reached,
    the check route of server.js and the one of the JWT server (client
    configured) answer 500 "Failed to check access"; no decision is returned,
    so none with source [fallback]. *)
Lemma check_access_unreachable_no_decision :
  let w := world0 plan_tuples in
  let out := Server.route unreachable_fga no_metadata Server.PostFgaCheckAccess
               (check_plan_viewer (Some alice)) w in
  let out_jwt := ServerJwt.check_access (Some unreachable_fga) alice_token
                   (check_plan_viewer None) w in
  fst out = Return (mkResponse 500 (JError "Failed to check access"))
  /\ fst out_jwt = Return (mkResponse 500 (JError "Failed to check access"))
  /\ ~ (exists a, decision_of w out = Some (mkDecision a fallback))
  /\ ~ (exists a, decision_of w out_jwt = Some (mkDecision a fallback)).
Proof.
  repeat split; try reflexivity; intros [a Ha]; vm_compute in Ha; discriminate Ha.
Qed.

(** C2, amended. When [fgaClient.check] throws, the check route (server.js,
    and the JWT server with a client, where the check is the one for
    [user:undefined]) logs the error and answers 500 "Failed to check
    access": the handler returns, the raw error stays on the console, and
    there is no decision.  The mock table answers only when no client is
    configured, and then the decision has source [fallback]. *)
Theorem check_access_remote_failure {R} (fgaClient : FgaClient R)
    (management_getUser : string -> Result AppMetadata)
    (req : Request) (w : World R) (u : User) (err : string) :
  oidc_user req = Some u ->
  fga_check fgaClient (fga_store w)
    (mkTuple ("user:" +:+ sub u) (relation req) (resource req)) = Throw err ->
  let t := mkTuple ("user:" +:+ sub u) (relation req) (resource req) in
  let failed := fun (t0 : Tuple) (e : string) =>
    (Return (mkResponse 500 (JError "Failed to check access")),
     add_line (LogError "Error checking FGA access:" e)
              (add_effect (FgaCheck t0) w)) in
  Server.route fgaClient management_getUser Server.PostFgaCheckAccess req w
  = failed t err
  /\ (forall (auth : ServerJwt.JwtAuth) (e : string),
        let t_jwt := mkTuple "user:undefined" (relation req) (resource req) in
        fga_check fgaClient (fga_store w) t_jwt = Throw e ->
        ServerJwt.check_access (Some fgaClient) auth req w = failed t_jwt e
        /\ decision_of w (failed t_jwt e) = None)
  /\ decision_of w (failed t err) = None
  /\ (forall (principal : string) (auth : ServerJwt.JwtAuth) (req' : Request)
             (w0 : World R),
        decision_of w0 (ServerJwt.check_access None auth req' w0)
        = Some (mkDecision
                  (ServerJwt.fallback_decide principal (relation req') (resource req'))
                  fallback)).
Proof.
  intros Hu Hcheck. cbv zeta. split_and!.
  - simpl. unfold Server.requireAuth, isAuthenticated, Server.check_access.
    rewrite Hu. simpl. unfold try_catch, bind, await_check. simpl.
    rewrite Hcheck. reflexivity.
  - intros auth e Hjwt. split; [| reflexivity].
    unfold ServerJwt.check_access, try_catch, bind, await_check.
    rewrite user_sub_undefined.
    change ("user:" +:+ "undefined") with "user:undefined".
    rewrite Hjwt. reflexivity.
  - reflexivity.
  - intros principal auth req' w0.
    unfold ServerJwt.check_access, decision_of, try_catch, bind, modify, ret. simpl.
    rewrite effects_since_add. reflexivity.
Qed.

Lemma check_access_remote_failure_witness :
  oidc_user (check_plan_viewer (Some alice)) = Some alice /\
  fga_check unreachable_fga (fga_store (world0 plan_tuples))
    (mkTuple ("user:" +:+ sub alice) (relation (check_plan_viewer (Some alice)))
       (resource (check_plan_viewer (Some alice))))
  = Throw "connect ECONNREFUSED" /\
  fst (Server.route unreachable_fga no_metadata Server.PostFgaCheckAccess
         (check_plan_viewer (Some alice)) (world0 plan_tuples))
  = Return (mkResponse 500 (JError "Failed to check access")).
Proof.
  split; [reflexivity | split; [reflexivity |]].
  rewrite (proj1 (check_access_remote_failure unreachable_fga no_metadata
                    (check_plan_viewer (Some alice)) (world0 plan_tuples) alice
                    "connect ECONNREFUSED" eq_refl eq_refl)).
  reflexivity.
Defined.

(** ** Repeated checks, and checks after a grant *)

(** A decision of the check route of server.js always comes from the remote
    service. *)
Lemma check_access_source_remote {R} (fgaClient : FgaClient R)
    (management_getUser : string -> Result AppMetadata)
    (req : Request) (w : World R) (d : Decision) :
  decision_of w
    (Server.route fgaClient management_getUser Server.PostFgaCheckAccess req w)
  = Some d ->
  d_source d = remote.
Proof.
  unfold decision_of. simpl.
  unfold Server.requireAuth, isAuthenticated, Server.check_access.
  destruct (oidc_user req) as [u |]; simpl; [| discriminate].
  unfold try_catch, bind, await_check. simpl.
  case_check; simpl; try discriminate;
    rewrite effects_since_add; intros [= <-]; reflexivity.
Qed.

(** C8, as stated, does not hold: the second of two identical checks is
    answered by a second remote call, so its source is [remote], not
    [cache]; on the JWT server without client both are [fallback]. *)
Lemma repeated_check_not_from_cache :
  let w := world0 plan_tuples in
  let req := check_plan_viewer (Some alice) in
  let first := Server.route memory_fga no_metadata Server.PostFgaCheckAccess req w in
  let second := Server.route memory_fga no_metadata Server.PostFgaCheckAccess req
                  (snd first) in
  let first_jwt := ServerJwt.check_access (R := list Tuple) None alice_token req w in
  let second_jwt := ServerJwt.check_access (R := list Tuple) None alice_token req
                      (snd first_jwt) in
  decision_of w first = Some (mkDecision true remote)
  /\ decision_of (snd first) second = Some (mkDecision true remote)
  /\ effects_since (snd first) (snd second)
     = [FgaCheck (mkTuple "user:auth0|alice" "viewer" "document:project-plan")]
  /\ decision_of (snd first_jwt) second_jwt = Some (mkDecision true fallback)
  /\ ~ (exists a, decision_of (snd first) second = Some (mkDecision a cache))
  /\ ~ (exists a, decision_of (snd first_jwt) second_jwt = Some (mkDecision a cache)).
Proof.
  repeat split; try reflexivity; intros [a Ha]; vm_compute in Ha; discriminate Ha.
Qed.

(** C8, amended. Two successive checks of the same triple by the same caller,
    with nothing in between, get the same answer, and each of them issues
    its own call to the FGA client: a decision has source [remote] on the
    first call and on the second.  On the JWT server without client both
    answers are the mock table's, with source [fallback]. *)
Theorem repeated_check_same_answer {R} (fgaClient : FgaClient R)
    (management_getUser : string -> Result AppMetadata)
    (req : Request) (w : World R) (u : User) (auth : ServerJwt.JwtAuth) :
  oidc_user req = Some u ->
  let t := mkTuple ("user:" +:+ sub u) (relation req) (resource req) in
  let check := Server.route fgaClient management_getUser Server.PostFgaCheckAccess req in
  let first := check w in
  let second := check (snd first) in
  let check_jwt := ServerJwt.check_access (R := R) None auth req in
  let first_jwt := check_jwt w in
  let second_jwt := check_jwt (snd first_jwt) in
  fst second = fst first
  /\ effects_since w (snd first) = [FgaCheck t]
  /\ effects_since (snd first) (snd second) = [FgaCheck t]
  /\ (forall d, decision_of w first = Some d ->
        decision_of (snd first) second = Some d /\ d_source d = remote)
  /\ fst second_jwt = fst first_jwt
  /\ decision_of w first_jwt
     = Some (mkDecision (ServerJwt.fallback_decide (sub u) (relation req) (resource req))
                        fallback)
  /\ decision_of (snd first_jwt) second_jwt = decision_of w first_jwt.
Proof.
  intros Hu. cbv zeta.
  assert (Hrun : forall w0 : World R,
    Server.route fgaClient management_getUser Server.PostFgaCheckAccess req w0
    = match fga_check fgaClient (fga_store w0)
              (mkTuple ("user:" +:+ sub u) (relation req) (resource req)) with
      | Return a =>
          (Return (mkResponse 200 (JDecision a (resource req) (relation req))),
           add_effect (FgaCheck (mkTuple ("user:" +:+ sub u) (relation req)
                                         (resource req))) w0)
      | Throw e =>
          (Return (mkResponse 500 (JError "Failed to check access")),
           add_line (LogError "Error checking FGA access:" e)
             (add_effect (FgaCheck (mkTuple ("user:" +:+ sub u) (relation req)
                                            (resource req))) w0))
      end).
  { intros w0. simpl.
    unfold Server.requireAuth, isAuthenticated, Server.check_access.
    rewrite Hu. simpl. unfold try_catch, bind, await_check. simpl.
    destruct (fga_check fgaClient (fga_store w0) _); reflexivity. }
  rewrite !Hrun.
  destruct (fga_check fgaClient (fga_store w)
              (mkTuple ("user:" +:+ sub u) (relation req) (resource req)))
    as [a | e] eqn:Hcheck; simpl; rewrite Hcheck; simpl.
  - split_and!; try reflexivity; try apply effects_since_add.
    + intros d. unfold decision_of. simpl. rewrite !effects_since_add.
      intros [= <-]. split; reflexivity.
    + unfold decision_of. simpl. rewrite !effects_since_add. reflexivity.
    + unfold decision_of. simpl. rewrite !effects_since_add. reflexivity.
  - split_and!; try reflexivity;
      try (rewrite effects_since_add_line; apply effects_since_add).
    + intros d. unfold decision_of. simpl. discriminate.
    + unfold decision_of. simpl. rewrite !effects_since_add. reflexivity.
    + unfold decision_of. simpl. rewrite !effects_since_add. reflexivity.
Qed.

Lemma repeated_check_same_answer_witness :
  oidc_user (check_plan_viewer (Some alice)) = Some alice /\
  fst (Server.route memory_fga no_metadata Server.PostFgaCheckAccess
         (check_plan_viewer (Some alice))
         (snd (Server.route memory_fga no_metadata Server.PostFgaCheckAccess
                 (check_plan_viewer (Some alice)) (world0 plan_tuples))))
  = fst (Server.route memory_fga no_metadata Server.PostFgaCheckAccess
           (check_plan_viewer (Some alice)) (world0 plan_tuples)).
Proof.
  split; [reflexivity |].
  exact (proj1 (repeated_check_same_answer memory_fga no_metadata
                  (check_plan_viewer (Some alice)) (world0 plan_tuples) alice
                  alice_token eq_refl)).
Defined.

(** C3, as stated, does not hold.  Alice loads her permissions, then
    grants herself [editor] on the project plan, and the write succeeds.  The
    cache entry for the viewer relation on that resource is still there, and
    [hasPermission] still answers the editor question from the cache, with
    the denial of before the write, while the remote service now allows. *)
Lemma grant_leaves_cache_untouched :
  let s0 := (App.appState, world0 plan_tuples) in
  let s1 := snd (System.loadUserPermissions memory_fga no_metadata (Some alice) s0) in
  let granted := System.http memory_fga no_metadata Server.PostFgaGrantAccess
                   (grant_plan_editor_to_alice (Some alice)) s1 in
  let s2 := snd granted in
  fst granted
  = Return (mkResponse 200
      (JGranted true "Access granted: auth0|alice can now editor document:project-plan"))
  /\ App.fgaPermissions (fst s2) !! "document:project-plan:viewer" = Some true
  /\ App.hasPermission (fst s2) "document:project-plan" "editor" = false
  /\ fst (Server.route memory_fga no_metadata Server.PostFgaCheckAccess
            (mkRequest (Some alice) "document:project-plan" "editor" "" "" "")
            (snd s2))
     = Return (mkResponse 200 (JDecision true "document:project-plan" "editor")).
Proof. vm_compute. repeat split; reflexivity. Qed.

(** C3, amended. A grant invalidates nothing: a request to any route of the
    server leaves the browser's [appState], and with it the permission cache
    and every answer of [hasPermission], exactly as it was.  The check route
    of the server keeps no cache of its own: whenever it returns a decision,
    before or after a grant, the source is [remote]. *)
Theorem grant_access_invalidates_nothing {R} (fgaClient : FgaClient R)
    (management_getUser : string -> Result AppMetadata)
    (e : Server.Endpoint) (req : Request) (s : App.AppState * World R) :
  let s' := snd (System.http fgaClient management_getUser e req s) in
  fst s' = fst s
  /\ App.fgaPermissions (fst s') = App.fgaPermissions (fst s)
  /\ (forall res rel, App.hasPermission (fst s') res rel = App.hasPermission (fst s) res rel)
  /\ (forall (req' : Request) (d : Decision),
        decision_of (snd s')
          (Server.route fgaClient management_getUser Server.PostFgaCheckAccess
             req' (snd s')) = Some d ->
        d_source d = remote).
Proof.
  cbv zeta. unfold System.http, App.on_net.
  destruct (Server.route fgaClient management_getUser e req (snd s)) as [r n'].
  simpl. split_and!; try reflexivity.
  intros req' d.
  exact (check_access_source_remote fgaClient management_getUser req' n' d).
Qed.

(** ** Resolution of approval requests *)

(** C4, as stated, does not hold.  The server has one resolution path,
    [simulateApprovalDecision]; it takes an id that no request ever had and
    returns normally, and it returns normally again on the same id.  The same
    happens for the id of a request whose timer has already fired. *)
Lemma resolution_never_rejects :
  let w := world0 plan_tuples in
  let first := Server.simulateApprovalDecision "req_unknown" w in
  let second := Server.simulateApprovalDecision "req_unknown" (snd first) in
  let created := snd (Server.route memory_fga no_metadata Server.PostAsyncApproval
                        (approval_request (Some alice)) w) in
  let fired := snd (Server.fire_timer created) in
  let again := Server.simulateApprovalDecision "req_4fzyo82mv" fired in
  timers w = [] /\ console w = []
  /\ fst first = Return tt
  /\ fst second = Return tt
  /\ console (snd second)
     = [auto_approved_line "req_unknown"; auto_approved_line "req_unknown"]
  /\ timers created = [mkTimer 5000 "req_4fzyo82mv"]
  /\ last (console fired) = Some (auto_approved_line "req_4fzyo82mv")
  /\ fst again = Return tt
  /\ (forall err, fst first <> Throw err)
  /\ (forall err, fst second <> Throw err)
  /\ (forall err, fst again <> Throw err).
Proof. split_and!; try reflexivity; intros err; discriminate. Qed.

(** C4, amended. The code has no [resolve], no [NotFound] and no
    [AlreadyResolved]: resolving an id with [simulateApprovalDecision], any
    number of times and whether or not a request with that id exists, always
    returns normally; each call appends the auto-approval line to the console
    and nothing else in the world changes. *)
Theorem resolution_always_succeeds {R} (n : nat) (requestId : string) (w : World R) :
  let out := resolve_times n requestId w in
  fst out = Return tt
  /\ console (snd out) = (console w ++ replicate n (auto_approved_line requestId))%list
  /\ timers (snd out) = timers w
  /\ fga_store (snd out) = fga_store w
  /\ journal (snd out) = journal w
  /\ draws (snd out) = draws w.
Proof.
  cbv zeta. revert w. induction n as [| n IH]; intros w.
  - simpl. rewrite app_nil_r. split_and!; reflexivity.
  - simpl. unfold bind, Server.simulateApprovalDecision, console_log, modify.
    fold (auto_approved_line requestId).
    destruct (IH (add_line (auto_approved_line requestId) w))
      as (Hret & Hconsole & Htimers & Hstore & Hjournal & Hdraws).
    rewrite Hret, Hconsole, Htimers, Hstore, Hjournal, Hdraws. simpl.
    rewrite <- app_assoc. split_and!; reflexivity.
Qed.

(** ** The timer of an approval request *)

(** C5, as stated, does not hold.  Alice asks for approval from the browser;
    the entry the browser keeps has status [pending].  When the timer of the
    request fires, the server logs that the request "has been auto-approved";
    nothing is set to [expired], and the browser's entry still says
    [pending]. *)
Lemma timer_auto_approves :
  let s0 := (App.appState, world0 plan_tuples) in
  let s1 := snd (System.requestApproval memory_fga no_metadata (Some alice)
                   "2025-10-09T12:00:01.000Z" "access_document" "document:sensitive"
                   s0) in
  let s2 := snd (System.timer_fires s1) in
  timers (snd s1) = [mkTimer 5000 "req_4fzyo82mv"]
  /\ map App.ae_id (App.approvalRequests (fst s1)) = ["req_4fzyo82mv"]
  /\ timers (snd s2) = []
  /\ last (console (snd s2))
     = Some (LogText
         "Approval request req_4fzyo82mv has been auto-approved for demo purposes")
  /\ map App.ae_status (App.approvalRequests (fst s2)) = ["pending"]
  /\ ~ ("expired" ∈ map App.ae_status (App.approvalRequests (fst s2))).
Proof.
  split_and!; try reflexivity.
  intros Hin. change ("expired" ∈ ["pending"]) in Hin.
  apply list_elem_of_singleton in Hin. discriminate Hin.
Qed.

(** C5, amended. When the 5000 ms timer of a request fires, the only thing
    that happens is that the timer leaves the pending list and the server
    logs that the request "has been auto-approved for demo purposes".  No
    status is set to [expired], or set at all: the browser's [appState], and
    so the status of each of its approval entries, is what it was. *)
Theorem timer_fires_logs_auto_approval {R} (s : App.AppState * World R)
    (t : Timer) (rest : list Timer) :
  timers (snd s) = t :: rest ->
  System.timer_fires s
  = (Return tt,
     (fst s, add_line (auto_approved_line (timer_request_id t))
                      (set_timers rest (snd s)))).
Proof.
  intros Htimers.
  unfold System.timer_fires, App.on_net, Server.fire_timer, bind, get.
  rewrite Htimers. reflexivity.
Qed.

Lemma timer_fires_logs_auto_approval_witness :
  let s1 := snd (System.requestApproval memory_fga no_metadata (Some alice)
                   "2025-10-09T12:00:01.000Z" "access_document" "document:sensitive"
                   (App.appState, world0 plan_tuples)) in
  timers (snd s1) = [mkTimer 5000 "req_4fzyo82mv"] /\
  System.timer_fires s1
  = (Return tt,
     (fst s1, add_line (auto_approved_line "req_4fzyo82mv") (set_timers [] (snd s1)))).
Proof.
  cbv zeta. split; [reflexivity |].
  apply (timer_fires_logs_auto_approval _ (mkTimer 5000 "req_4fzyo82mv") []).
  reflexivity.
Defined.

(** ** The permission cache of the browser *)

(** A property of the state that every iteration keeps is kept by the loop,
    whether it runs to the end or stops at a throw. *)
Lemma for_of_invariant {St A} (P : St -> Prop) (l : list A) (f : A -> M St unit) :
  (forall x, x ∈ l -> forall s, P s -> P (snd (f x s))) ->
  forall s, P s -> P (snd (for_of l f s)).
Proof.
  induction l as [| x l IH]; intros Hf s Hs; simpl.
  - exact Hs.
  - unfold bind.
    pose proof (Hf x (list_elem_of_here x l) s Hs) as Hstep.
    destruct (f x s) as [[[] | e] s1]; simpl in Hstep |- *.
    + apply IH; [| exact Hstep].
      intros y Hy. apply Hf. apply list_elem_of_further. exact Hy.
    + exact Hstep.
Qed.

(** One iteration of the loading loop, by what the fetch gives: a failed
    fetch and the body [null] end the loop with a throw, an ok answer with
    [allowed] true sets the key, anything else changes nothing. *)
Lemma load_permission_cases {Net} (fetch : string -> string -> M Net Response)
    (res rel : string) (s : App.AppState * Net) :
  App.load_permission fetch res rel s
  = match fetch res rel (snd s) with
    | (Return resp, n') =>
        if App.response_ok resp then
          if is_null (body resp)
          then (Throw "TypeError: Cannot read properties of null", (fst s, n'))
          else if App.data_allowed (body resp)
               then (Return tt, (App.permissions_set (mk_key res rel) true (fst s), n'))
               else (Return tt, (fst s, n'))
        else (Return tt, (fst s, n'))
    | (Throw e, n') => (Throw e, (fst s, n'))
    end.
Proof.
  unfold App.load_permission, bind, App.on_net, property_of.
  destruct (fetch res rel (snd s)) as [[resp | e] n']; [| reflexivity].
  destruct (App.response_ok resp); [| reflexivity].
  destruct (is_null (body resp)); [reflexivity |].
  cbn [ret]. destruct (App.data_allowed (body resp)); reflexivity.
Qed.

Section PermissionCache.
Context {Net : Type}.
Variable fetch : string -> string -> M Net Response.
Variable c0 : gmap string bool.

Lemma load_permission_grows (res rel : string) (s : App.AppState * Net) :
  res ∈ App.resources -> rel ∈ App.relations ->
  cache_grown fetch c0 (App.fgaPermissions (fst s)) ->
  cache_grown fetch c0
    (App.fgaPermissions (fst (snd (App.load_permission fetch res rel s)))).
Proof.
  intros Hres Hrel Hs.
  rewrite load_permission_cases.
  destruct (fetch res rel (snd s)) as [[resp | e] n'] eqn:Hfetch; simpl;
    [| exact Hs].
  destruct (App.response_ok resp) eqn:Hok; simpl; [| exact Hs].
  destruct (is_null (body resp)); simpl; [exact Hs |].
  destruct (App.data_allowed (body resp)) eqn:Hallowed; simpl; [| exact Hs].
  intros k v Hk. apply lookup_insert_Some in Hk as [[<- <-] | [_ Hk]].
  - right. split; [reflexivity |].
    exists res, rel, (snd s), resp, n'. split_and!; done.
  - apply Hs. exact Hk.
Qed.

Lemma loadUserPermissions_grows (s : App.AppState * Net) :
  cache_grown fetch c0 (App.fgaPermissions (fst s)) ->
  cache_grown fetch c0
    (App.fgaPermissions (fst (snd (App.loadUserPermissions fetch s)))).
Proof.
  intros Hs. unfold App.loadUserPermissions, try_catch, bind.
  pose proof (for_of_invariant
    (fun s => cache_grown fetch c0 (App.fgaPermissions (fst s)))
    App.resources
    (fun resource =>
       for_of App.relations (fun relation => App.load_permission fetch resource relation))
    ) as Hloops.
  match goal with
  | |- context [for_of App.resources ?f s] =>
      specialize (Hloops ltac:(
        intros res Hres s1 Hs1;
        apply (for_of_invariant
                 (fun s => cache_grown fetch c0 (App.fgaPermissions (fst s))));
        [ intros rel Hrel s2 Hs2; apply load_permission_grows; assumption
        | exact Hs1 ]) s Hs);
      destruct (for_of App.resources f s) as [[[] | e] s1]
  end; simpl in Hloops |- *; exact Hloops.
Qed.
End PermissionCache.

Lemma cache_grown_positive {Net} (fetch : string -> string -> M Net Response)
    (c : gmap string bool) :
  cache_grown fetch ∅ c -> positive_only c.
Proof.
  intros Hc k v Hk. destruct (Hc k v Hk) as [Hempty | [Hv _]].
  - rewrite lookup_empty in Hempty. discriminate Hempty.
  - exact Hv.
Qed.

Lemma hasPermission_cached (a : App.AppState) (res rel : string) :
  positive_only (App.fgaPermissions a) ->
  App.hasPermission a res rel = true
  <-> is_Some (App.fgaPermissions a !! mk_key res rel).
Proof.
  intros Hpos. unfold App.hasPermission, App.Map_has.
  destruct (App.fgaPermissions a !! mk_key res rel) as [v |] eqn:Hk.
  - rewrite bool_decide_true by eauto. simpl.
    rewrite (Hpos _ _ Hk). split; eauto.
  - rewrite bool_decide_false by (intros [v Hv]; discriminate Hv).
    split; [discriminate | intros [v Hv]; discriminate Hv].
Qed.

(** C9. Whatever the server answers, after [loadUserPermissions] has run on
    the initial [appState] the cache holds only [true] values, each under a
    key for which a fetch got an ok response with [allowed] true; and
    [hasPermission(resource, relation)] is true exactly when the key of the
    pair is in the cache, false when it is not. *)
Theorem permission_cache_only_allows {Net} (fetch : string -> string -> M Net Response)
    (net : Net) :
  let a := fst (snd (App.loadUserPermissions fetch (App.appState, net))) in
  positive_only (App.fgaPermissions a)
  /\ (forall k, is_Some (App.fgaPermissions a !! k) -> allowed_by_server fetch k)
  /\ (forall res rel,
        App.hasPermission a res rel = true
        <-> is_Some (App.fgaPermissions a !! mk_key res rel))
  /\ (forall res rel,
        App.fgaPermissions a !! mk_key res rel = None ->
        App.hasPermission a res rel = false).
Proof.
  cbv zeta.
  assert (Hgrown : cache_grown fetch ∅
            (App.fgaPermissions
               (fst (snd (App.loadUserPermissions fetch (App.appState, net)))))).
  { apply loadUserPermissions_grows. intros k v Hk. simpl in Hk.
    rewrite lookup_empty in Hk. discriminate Hk. }
  pose proof (cache_grown_positive fetch _ Hgrown) as Hpos.
  split_and!.
  - exact Hpos.
  - intros k [v Hk]. destruct (Hgrown k v Hk) as [Hempty | [_ Hallowed]].
    + rewrite lookup_empty in Hempty. discriminate Hempty.
    + exact Hallowed.
  - intros res rel. apply hasPermission_cached. exact Hpos.
  - intros res rel Hnone.
    destruct (App.hasPermission _ res rel) eqn:Hhas; [| reflexivity].
    apply (hasPermission_cached _ res rel Hpos) in Hhas.
    rewrite Hnone in Hhas. destruct Hhas as [v Hv]. discriminate Hv.
Qed.

(** Alice's browser after loading: what the store allows her is cached,
    what it does not is absent. *)
Example loaded_permissions_of_alice :
  let a := fst (snd (System.loadUserPermissions memory_fga no_metadata (Some alice)
                       (App.appState, world0 plan_tuples))) in
  App.hasPermission a "document:project-plan" "viewer" = true
  /\ App.hasPermission a "document:project-plan" "owner" = true
  /\ App.hasPermission a "document:project-plan" "editor" = false
  /\ App.fgaPermissions a !! "document:requirements:viewer" = None.
Proof. vm_compute. repeat split; reflexivity. Qed.

(** * Further properties of the handlers *)

(** ** Every route answers *)



(** Without the page next to server.js, a request for it is answered 500. *)
Example page_missing_answered_500 :
  let out := Server.app memory_fga no_metadata None no_static Server.GetRoot
               (Server.WithBody (mkRequest None "" "" "" "" ""))
               (world_without_page []) in
  fst out
  = Return (mkResponse 500
      (JInternalError "Internal server error" "Something went wrong"))
  /\ console (snd out)
     = [LogError "Application error:" "ENOENT: no such file or directory"].
Proof. cbv zeta. split; reflexivity. Qed.

(** ** The remote store *)

(** X2. The FGA store changes only through a grant that succeeds: after any
    request to any route the store is the one before, unless the route is
    grant-access, the caller passed the owner check, [fgaClient.write]
    returned, and the answer is 200; the store is then the one the write
    produced. *)
Theorem store_changes_only_by_grant {R} (fgaClient : FgaClient R)
    (management_getUser : string -> Result AppMetadata)
    (e : Server.Endpoint) (req : Request) (w : World R) :
  let out := Server.route fgaClient management_getUser e req w in
  fga_store (snd out) = fga_store w
  \/ (e = Server.PostFgaGrantAccess
      /\ exists u r',
           oidc_user req = Some u
           /\ fga_check fgaClient (fga_store w)
                (mkTuple ("user:" +:+ sub u) "owner" (resource req)) = Return true
           /\ fga_write fgaClient (fga_store w)
                (mkTuple ("user:" +:+ targetUser req) (relation req) (resource req))
              = Return r'
           /\ fga_store (snd out) = r'
           /\ exists msg, fst out = Return (mkResponse 200 (JGranted true msg))).
Proof.
  cbv zeta.
  destruct req as [[u |] res rel tgt act jus]; destruct e; simpl;
    unfold Server.requireAuth, Server.root, Server.sendFile, isAuthenticated; simpl;
    try (left; reflexivity).
  - left. unfold Server.profile, try_catch, bind. simpl.
    destruct (management_getUser (sub u)); reflexivity.
  - left. unfold Server.check_access, try_catch, bind, await_check. simpl.
    case_check; reflexivity.
  - unfold Server.grant_access, try_catch, bind, await_check, await_write. simpl.
    destruct (fga_check fgaClient (fga_store w)
                (mkTuple ("user:" +:+ sub u) "owner" res))
      as [[|] | err] eqn:Hcheck; simpl; try (left; reflexivity).
    destruct (fga_write fgaClient (fga_store w)
                (mkTuple ("user:" +:+ tgt) rel res))
      as [r' | err] eqn:Hwrite; simpl; [| left; reflexivity].
    right. split; [reflexivity |]. exists u, r'.
    split_and!; try reflexivity; try assumption.
    eexists. reflexivity.
Qed.

(** ** Grants *)

(** X3. A grant by an owner whose write succeeds answers 200, has issued the
    owner check and then the write of the target user's tuple, and leaves the
    store that the write returned; the target user's next check of that
    relation on that resource is evaluated on this new store. *)
Theorem grant_then_check {R} (fgaClient : FgaClient R)
    (management_getUser : string -> Result AppMetadata)
    (req : Request) (w : World R) (u target : User) (r' : R) :
  oidc_user req = Some u ->
  sub target = targetUser req ->
  fga_check fgaClient (fga_store w)
    (mkTuple ("user:" +:+ sub u) "owner" (resource req)) = Return true ->
  fga_write fgaClient (fga_store w)
    (mkTuple ("user:" +:+ targetUser req) (relation req) (resource req)) = Return r' ->
  let granted_tuple :=
    mkTuple ("user:" +:+ targetUser req) (relation req) (resource req) in
  let out := Server.route fgaClient management_getUser Server.PostFgaGrantAccess req w in
  let next := Server.route fgaClient management_getUser Server.PostFgaCheckAccess
                (mkRequest (Some target) (resource req) (relation req) "" "" "")
                (snd out) in
  fst out = Return (mkResponse 200 (JGranted true
              ("Access granted: " +:+ targetUser req +:+ " can now " +:+
               relation req +:+ " " +:+ resource req)))
  /\ fga_store (snd out) = r'
  /\ effects_since w (snd out)
     = [FgaCheck (mkTuple ("user:" +:+ sub u) "owner" (resource req));
        FgaWrite granted_tuple]
  /\ fst next
     = match fga_check fgaClient r' granted_tuple with
       | Return a => Return (mkResponse 200 (JDecision a (resource req) (relation req)))
       | Throw _ => Return (mkResponse 500 (JError "Failed to check access"))
       end.
Proof.
  intros Hu Htarget Hcheck Hwrite. cbv zeta. simpl.
  unfold Server.requireAuth, isAuthenticated, Server.grant_access,
    Server.check_access.
  rewrite Hu. simpl. unfold try_catch, bind, await_check, await_write. simpl.
  rewrite Hcheck. simpl. rewrite Hwrite. simpl. rewrite Htarget.
  split_and!; try reflexivity.
  - apply effects_since_add2.
  - destruct (fga_check fgaClient r' _); reflexivity.
Qed.

Lemma grant_then_check_witness :
  let req := grant_plan_editor_to_alice (Some alice) in
  let w := world0 plan_tuples in
  oidc_user req = Some alice /\
  sub alice = targetUser req /\
  fst (Server.route memory_fga no_metadata Server.PostFgaCheckAccess
         (mkRequest (Some alice) (resource req) (relation req) "" "" "")
         (snd (Server.route memory_fga no_metadata Server.PostFgaGrantAccess req w)))
  = Return (mkResponse 200 (JDecision true "document:project-plan" "editor")).
Proof.
  cbv zeta. split; [reflexivity | split; [reflexivity |]].
  destruct (grant_then_check memory_fga no_metadata
              (grant_plan_editor_to_alice (Some alice)) (world0 plan_tuples)
              alice alice
              (plan_tuples ++ [mkTuple "user:auth0|alice" "editor" "document:project-plan"])%list
              eq_refl eq_refl eq_refl eq_refl) as (_ & _ & _ & Hnext).
  rewrite Hnext. reflexivity.
Defined.

(** X4. When the owner check throws, or the owner check passes and the write
    throws, the grant route answers 500 "Failed to grant access", logs the
    error, and the store is the one before. *)
Theorem grant_remote_failure {R} (fgaClient : FgaClient R)
    (management_getUser : string -> Result AppMetadata)
    (req : Request) (w : World R) (u : User) (err : string) :
  oidc_user req = Some u ->
  fga_check fgaClient (fga_store w)
    (mkTuple ("user:" +:+ sub u) "owner" (resource req)) = Throw err
  \/ (fga_check fgaClient (fga_store w)
        (mkTuple ("user:" +:+ sub u) "owner" (resource req)) = Return true
      /\ fga_write fgaClient (fga_store w)
           (mkTuple ("user:" +:+ targetUser req) (relation req) (resource req))
         = Throw err) ->
  let out := Server.route fgaClient management_getUser Server.PostFgaGrantAccess req w in
  fst out = Return (mkResponse 500 (JError "Failed to grant access"))
  /\ fga_store (snd out) = fga_store w
  /\ console (snd out) = (console w ++ [LogError "Error granting FGA access:" err])%list.
Proof.
  intros Hu Hfail. cbv zeta. simpl.
  unfold Server.requireAuth, isAuthenticated, Server.grant_access.
  rewrite Hu. simpl. unfold try_catch, bind, await_check, await_write. simpl.
  destruct Hfail as [Hcheck | [Hcheck Hwrite]].
  - rewrite Hcheck. simpl. split_and!; reflexivity.
  - rewrite Hcheck. simpl. rewrite Hwrite. simpl. split_and!; reflexivity.
Qed.

Lemma grant_remote_failure_witness :
  let req := grant_plan_editor_to_alice (Some alice) in
  let w := world0 plan_tuples in
  oidc_user req = Some alice /\
  fga_check unreachable_fga (fga_store w)
    (mkTuple ("user:" +:+ sub alice) "owner" (resource req))
  = Throw "connect ECONNREFUSED" /\
  fst (Server.route unreachable_fga no_metadata Server.PostFgaGrantAccess req w)
  = Return (mkResponse 500 (JError "Failed to grant access")).
Proof.
  cbv zeta. split; [reflexivity | split; [reflexivity |]].
  exact (proj1 (grant_remote_failure unreachable_fga no_metadata
                  (grant_plan_editor_to_alice (Some alice)) (world0 plan_tuples)
                  alice "connect ECONNREFUSED" eq_refl (or_introl eq_refl))).
Defined.

(** ** The two servers *)

(** X5. With an FGA client configured, the check and grant handlers of the
    JWT server do not look at who calls.  [req.auth] is the object
    [{ payload, header, token }], so [user.sub] is undefined, and every
    caller is treated exactly as server.js treats a session of a user whose
    [sub] is the string ["undefined"]: same response, same world afterwards,
    whatever token was presented. *)
Theorem jwt_server_ignores_caller {R} (fgaClient : FgaClient R)
    (management_getUser : string -> Result AppMetadata)
    (auth : ServerJwt.JwtAuth) (req : Request) (w : World R) (u : User) :
  oidc_user req = Some u ->
  sub u = "undefined" ->
  ServerJwt.check_access (Some fgaClient) auth req w
  = Server.route fgaClient management_getUser Server.PostFgaCheckAccess req w
  /\ ServerJwt.grant_access (Some fgaClient) auth req w
     = Server.route fgaClient management_getUser Server.PostFgaGrantAccess req w
  /\ (forall other : ServerJwt.JwtAuth,
        ServerJwt.check_access (Some fgaClient) other req w
        = ServerJwt.check_access (Some fgaClient) auth req w
        /\ ServerJwt.grant_access (Some fgaClient) other req w
           = ServerJwt.grant_access (Some fgaClient) auth req w).
Proof.
  intros Hu Hsub. simpl.
  unfold Server.requireAuth, isAuthenticated, Server.check_access,
    Server.grant_access, ServerJwt.check_access, ServerJwt.grant_access,
    ServerJwt.client_check, ServerJwt.client_write.
  rewrite Hu. rewrite !user_sub_undefined.
  unfold try_catch, bind, await_check, await_write. simpl. rewrite Hsub.
  split_and!.
  - case_check; reflexivity.
  - case_check; reflexivity.
  - intros other. rewrite !user_sub_undefined. split; reflexivity.
Qed.

Lemma jwt_server_ignores_caller_witness :
  let req := mkRequest (Some undefined_user) "document:project-plan" "owner" "" "" "" in
  oidc_user req = Some undefined_user /\
  sub undefined_user = "undefined" /\
  ServerJwt.check_access (Some memory_fga) alice_token req
    (world0 undefined_owner_tuples)
  = Server.route memory_fga no_metadata Server.PostFgaCheckAccess req
      (world0 undefined_owner_tuples) /\
  fst (ServerJwt.check_access (Some memory_fga) alice_token req
         (world0 undefined_owner_tuples))
  = Return (mkResponse 200 (JDecision true "document:project-plan" "owner")).
Proof.
  cbv zeta. split; [reflexivity | split; [reflexivity |]].
  pose proof (proj1 (jwt_server_ignores_caller memory_fga no_metadata alice_token
                  (mkRequest (Some undefined_user) "document:project-plan" "owner"
                             "" "" "")
                  (world0 undefined_owner_tuples) undefined_user
                  eq_refl eq_refl)) as Hsame.
  split; [exact Hsame | reflexivity].
Defined.

(** X6. On the JWT server without FGA client, a check is always answered 200
    from the mock table, and a grant is always answered 500 "Failed to grant
    access": nothing is written, no call is journalled, and the mock table
    is not used to decide who may grant. *)
Theorem jwt_server_without_client {R} (principal : string) (auth : ServerJwt.JwtAuth)
    (req : Request) (w : World R) :
  let checked := ServerJwt.check_access (R := R) None auth req w in
  let granted := ServerJwt.grant_access (R := R) None auth req w in
  fst checked
  = Return (mkResponse 200
      (JDecision (ServerJwt.fallback_decide principal (relation req) (resource req))
                 (resource req) (relation req)))
  /\ fst granted = Return (mkResponse 500 (JError "Failed to grant access"))
  /\ fga_store (snd granted) = fga_store w
  /\ journal (snd granted) = journal w
  /\ fga_store (snd checked) = fga_store w.
Proof. cbv zeta. split_and!; reflexivity. Qed.

(** ** Random identifiers *)

Lemma length_substring_le (n m : nat) (s : string) :
  (String.length (String.substring n m s) <= m)%nat.
Proof.
  revert n m. induction s as [| c s IH]; intros [| n] [| m]; simpl; try lia.
  - specialize (IH 0%nat m). lia.
  - apply IH.
  - apply IH.
Qed.

Lemma length_append (a b : string) :
  String.length (a +:+ b) = (String.length a + String.length b)%nat.
Proof.
  induction a as [| c a IH].
  - reflexivity.
  - rewrite append_String. simpl. rewrite IH. reflexivity.
Qed.

(** X7. Whatever [Math.random] draws, a request id is ["req_"] followed by at
    most 9 characters (13 in all), a token has at most 16 characters, and
    each generation uses exactly one draw and changes nothing else. *)
Theorem random_ids_bounded {R} (w : World R) :
  (exists suffix,
     Server.generateRequestId w = (Return ("req_" +:+ suffix), next_draw w)
     /\ (String.length suffix <= 9)%nat
     /\ (String.length ("req_" +:+ suffix) <= 13)%nat)
  /\ (exists token,
        Server.generateToken w = (Return token, next_draw w)
        /\ (String.length token <= 16)%nat).
Proof.
  split.
  - exists (String.substring 2 9 (entropy w (draws w))).
    split; [reflexivity |].
    pose proof (length_substring_le 2 9 (entropy w (draws w))) as Hlen.
    split; [exact Hlen |]. rewrite length_append. simpl. lia.
  - exists (String.substring 2 16 (entropy w (draws w))).
    split; [reflexivity |]. apply length_substring_le.
Qed.

(** ** Timers *)

Lemma fire_timer_run {R} (w : World R) :
  Server.fire_timer w
  = match timers w with
    | [] => (Return tt, w)
    | t :: rest =>
        (Return tt,
         add_line (auto_approved_line (timer_request_id t)) (set_timers rest w))
    end.
Proof.
  unfold Server.fire_timer. unfold bind, get. simpl.
  destruct (timers w); reflexivity.
Qed.

(** X8. Timers fire in the order they were set: running [n] due timers removes
    the first [n] of the pending list and logs the auto-approval of their
    request ids, in that order; it never fails, also when fewer than [n]
    timers are pending, and touches nothing else. *)
Theorem timers_fire_in_order {R} (n : nat) (w : World R) :
  let out := fire_times n w in
  fst out = Return tt
  /\ timers (snd out) = drop n (timers w)
  /\ console (snd out)
     = (console w
        ++ map (fun t => auto_approved_line (timer_request_id t)) (take n (timers w)))%list
  /\ fga_store (snd out) = fga_store w
  /\ journal (snd out) = journal w.
Proof.
  cbv zeta. revert w. induction n as [| n IH]; intros w.
  - simpl. rewrite app_nil_r. split_and!; reflexivity.
  - simpl. unfold bind at 1 2 3 4 5. rewrite fire_timer_run.
    destruct (timers w) as [| t rest] eqn:Htimers; simpl.
    + destruct (IH w) as (Hret & Hts & Hconsole & Hstore & Hjournal).
      rewrite Htimers in Hts, Hconsole. rewrite drop_nil in Hts.
      rewrite take_nil in Hconsole. split_and!; assumption.
    + destruct (IH (add_line (auto_approved_line (timer_request_id t))
                             (set_timers rest w)))
        as (Hret & Hts & Hconsole & Hstore & Hjournal).
      simpl in Hts, Hconsole, Hstore, Hjournal.
      rewrite Hret, Hts, Hconsole, Hstore, Hjournal.
      rewrite <- app_assoc. split_and!; reflexivity.
Qed.

(** X9. The id that the approval route hands to the caller is the id that
    gets auto-approved: with no other timer pending, when the timer of a
    fresh request fires, the line logged names the [request_id] of the
    response, and no timer is left. *)
Theorem approval_timer_names_returned_id {R} (fgaClient : FgaClient R)
    (management_getUser : string -> Result AppMetadata)
    (req : Request) (w : World R) (u : User) :
  oidc_user req = Some u ->
  timers w = [] ->
  let out := Server.route fgaClient management_getUser Server.PostAsyncApproval req w in
  let fired := Server.fire_timer (snd out) in
  exists id msg,
    fst out = Return (mkResponse 200 (JApproval id "pending" msg))
    /\ fst fired = Return tt
    /\ last (console (snd fired)) = Some (auto_approved_line id)
    /\ timers (snd fired) = [].
Proof.
  intros Hu Htimers. cbv zeta. simpl.
  unfold Server.requireAuth, isAuthenticated, Server.async_approval.
  rewrite Hu. simpl. unfold try_catch, bind. simpl.
  rewrite fire_timer_run. simpl. rewrite Htimers. simpl.
  eexists. eexists. split; [reflexivity |]. split; [reflexivity |].
  split; [| reflexivity].
  rewrite last_snoc. reflexivity.
Qed.

Lemma approval_timer_names_returned_id_witness :
  oidc_user (approval_request (Some alice)) = Some alice /\
  timers (world0 plan_tuples) = [] /\
  last (console (snd (Server.fire_timer
          (snd (Server.route memory_fga no_metadata Server.PostAsyncApproval
                  (approval_request (Some alice)) (world0 plan_tuples))))))
  = Some (auto_approved_line "req_4fzyo82mv").
Proof.
  split; [reflexivity | split; [reflexivity |]].
  destruct (approval_timer_names_returned_id memory_fga no_metadata
              (approval_request (Some alice)) (world0 plan_tuples) alice
              eq_refl eq_refl) as (id & msg & Hout & _ & Hlast & _).
  injection Hout as Hid _. rewrite Hlast, <- Hid. reflexivity.
Defined.

(** * Further properties of the browser *)

(** ** Loops *)

Lemma for_of_skip {St A} (l : list A) (f : A -> M St unit) (s : St) :
  (forall x, x ∈ l -> f x s = (Return tt, s)) ->
  for_of l f s = (Return tt, s).
Proof.
  induction l as [| x l IH]; intros Hf; simpl.
  - reflexivity.
  - unfold bind. rewrite (Hf x (list_elem_of_here x l)).
    apply IH. intros y Hy. apply Hf. apply list_elem_of_further. exact Hy.
Qed.

Lemma for_of_app {St A} (l1 l2 : list A) (f : A -> M St unit) (s : St) :
  for_of (l1 ++ l2) f s
  = match for_of l1 f s with
    | (Return _, s1) => for_of l2 f s1
    | (Throw e, s1) => (Throw e, s1)
    end.
Proof.
  revert s. induction l1 as [| x l1 IH]; intros s; simpl.
  - reflexivity.
  - unfold bind. destruct (f x s) as [[[] | e] s1]; [apply IH | reflexivity].
Qed.

Lemma for_of_map {St A B} (h : A -> B) (l : list A) (f : B -> M St unit) (s : St) :
  for_of (map h l) f s = for_of l (fun x => f (h x)) s.
Proof.
  revert s. induction l as [| x l IH]; intros s; simpl.
  - reflexivity.
  - unfold bind. destruct (f (h x) s) as [[[] | e] s1]; [apply IH | reflexivity].
Qed.

(** Two nested loops run like one loop over the pairs. *)
Lemma for_of_nested {St A B} (l : list A) (l' : list B)
    (f : A -> B -> M St unit) (s : St) :
  for_of l (fun x => for_of l' (f x)) s
  = for_of (list_prod l l') (fun p => f (fst p) (snd p)) s.
Proof.
  revert s. induction l as [| x l IH]; intros s; simpl.
  - reflexivity.
  - rewrite for_of_app, for_of_map. simpl. unfold bind.
    destruct (for_of l' (f x) s) as [[[] | e] s1]; [apply IH | reflexivity].
Qed.

(** A loop whose steps all return, and act on a projection of the state as
    a function of that projection, returns and folds that function. *)
Lemma for_of_fold {St A B} (proj : St -> B) (g : B -> A -> B)
    (l : list A) (f : A -> M St unit) (s : St) :
  (forall x s0, x ∈ l ->
     fst (f x s0) = Return tt /\ proj (snd (f x s0)) = g (proj s0) x) ->
  fst (for_of l f s) = Return tt
  /\ proj (snd (for_of l f s)) = foldl g (proj s) l.
Proof.
  revert s. induction l as [| x l IH]; intros s Hf; simpl.
  - split; reflexivity.
  - unfold bind.
    destruct (Hf x s (list_elem_of_here x l)) as [Hret Hproj].
    destruct (f x s) as [r s1]. simpl in Hret, Hproj. subst r.
    rewrite <- Hproj. apply IH.
    intros y s0 Hy. apply Hf. apply list_elem_of_further. exact Hy.
Qed.

(** A loop that ends in a throw got it from one of its steps. *)
Lemma for_of_throw {St A} (l : list A) (f : A -> M St unit) (s : St) (e : string) :
  fst (for_of l f s) = Throw e ->
  exists x s0, x ∈ l /\ fst (f x s0) = Throw e.
Proof.
  revert s. induction l as [| x l IH]; intros s; simpl.
  - discriminate.
  - unfold bind. destruct (f x s) as [[[] | e'] s1] eqn:Hstep; simpl.
    + intros Hthrow. destruct (IH s1 Hthrow) as (y & s0 & Hy & Hfy).
      exists y, s0. split; [apply list_elem_of_further; exact Hy | exact Hfy].
    + intros [= ->]. exists x, s. split; [apply list_elem_of_here |].
      rewrite Hstep. reflexivity.
Qed.

(** ** Loading permissions *)

(** X10. Without a session the browser learns nothing and asks the remote
    service nothing: each of the fifteen requests of [loadUserPermissions]
    is answered 401, the permission cache and the approval list are what
    they were, and the world of the server is untouched; only the "Loaded"
    line is written to the browser console. *)
Theorem unauthenticated_load_caches_nothing {R} (fgaClient : FgaClient R)
    (management_getUser : string -> Result AppMetadata)
    (a : App.AppState) (w : World R) :
  System.loadUserPermissions fgaClient management_getUser None (a, w)
  = (Return tt, (App.app_log (LogText "Loaded FGA permissions:") a, w)).
Proof.
  unfold System.loadUserPermissions, App.loadUserPermissions, try_catch.
  unfold bind at 1. rewrite for_of_skip.
  - reflexivity.
  - intros res _. apply for_of_skip. intros rel _. reflexivity.
Qed.

Lemma load_permission_keeps_lists {Net} (fetch : string -> string -> M Net Response)
    (res rel : string) (s : App.AppState * Net) :
  App.app_console (fst (snd (App.load_permission fetch res rel s)))
  = App.app_console (fst s)
  /\ App.approvalRequests (fst (snd (App.load_permission fetch res rel s)))
     = App.approvalRequests (fst s).
Proof.
  rewrite load_permission_cases.
  destruct (fetch res rel (snd s)) as [[resp | e] n']; simpl; [| split; reflexivity].
  destruct (App.response_ok resp); simpl; [| split; reflexivity].
  destruct (is_null (body resp)); simpl; [split; reflexivity |].
  destruct (App.data_allowed (body resp)); simpl; split; reflexivity.
Qed.

(** An iteration throws only the error of its fetch, or the [TypeError] of
    reading [allowed] from the body [null] of an ok response. *)
Lemma load_permission_throw {Net} (fetch : string -> string -> M Net Response)
    (res rel : string) (s : App.AppState * Net) (e : string) :
  fst (App.load_permission fetch res rel s) = Throw e ->
  fst (fetch res rel (snd s)) = Throw e
  \/ (exists resp,
        fst (fetch res rel (snd s)) = Return resp
        /\ App.response_ok resp = true /\ body resp = JNull
        /\ e = "TypeError: Cannot read properties of null").
Proof.
  rewrite load_permission_cases.
  destruct (fetch res rel (snd s)) as [[resp | e'] n']; simpl;
    [| intros [= ->]; left; reflexivity].
  destruct (App.response_ok resp) eqn:Hok; simpl; [| discriminate].
  destruct (body resp) eqn:Hbody; simpl;
    try (destruct (App.data_allowed (body resp)); discriminate);
    try (match goal with |- context [if ?b then _ else _] => destruct b end;
         discriminate).
  intros [= <-]. right. exists resp.
  split_and!; [reflexivity | exact Hok | exact Hbody | reflexivity].
Qed.

(** X11. [loadUserPermissions] never throws, whatever the network does: it
    returns normally, leaves the approval list alone, and writes exactly
    one line to the browser console: the "Loaded" line, or the error that
    ended the loop at one of the pairs it asks about, which is the error of
    the fetch that failed there, or the [TypeError] of reading [allowed]
    from the body [null] of an ok response. *)
Theorem loadUserPermissions_never_throws {Net}
    (fetch : string -> string -> M Net Response) (s : App.AppState * Net) :
  let out := App.loadUserPermissions fetch s in
  fst out = Return tt
  /\ App.approvalRequests (fst (snd out)) = App.approvalRequests (fst s)
  /\ (App.app_console (fst (snd out))
      = (App.app_console (fst s) ++ [LogText "Loaded FGA permissions:"])%list
      \/ exists e res rel n,
           res ∈ App.resources /\ rel ∈ App.relations
           /\ (fst (fetch res rel n) = Throw e
               \/ exists resp,
                    fst (fetch res rel n) = Return resp
                    /\ App.response_ok resp = true /\ body resp = JNull
                    /\ e = "TypeError: Cannot read properties of null")
           /\ App.app_console (fst (snd out))
              = (App.app_console (fst s)
                 ++ [LogError "Error loading permissions:" e])%list).
Proof.
  cbv zeta. unfold App.loadUserPermissions, try_catch, bind.
  set (loops := for_of App.resources
    (fun resource =>
       for_of App.relations
         (fun relation => App.load_permission fetch resource relation))).
  assert (Hkeep : App.app_console (fst (snd (loops s))) = App.app_console (fst s)
                  /\ App.approvalRequests (fst (snd (loops s)))
                     = App.approvalRequests (fst s)).
  { apply (for_of_invariant
      (fun s1 : App.AppState * Net =>
         App.app_console (fst s1) = App.app_console (fst s)
         /\ App.approvalRequests (fst s1) = App.approvalRequests (fst s)));
      [| split; reflexivity].
    intros res _ s1 Hs1.
    apply (for_of_invariant
      (fun s1 : App.AppState * Net =>
         App.app_console (fst s1) = App.app_console (fst s)
         /\ App.approvalRequests (fst s1) = App.approvalRequests (fst s)));
      [| exact Hs1].
    intros rel _ s2 [Hc Ha].
    destruct (load_permission_keeps_lists fetch res rel s2) as [Hc' Ha'].
    split; congruence. }
  pose proof (for_of_throw App.resources
    (fun resource =>
       for_of App.relations (fun relation => App.load_permission fetch resource relation))
    s) as Hthrow.
  fold loops in Hthrow.
  destruct (loops s) as [[[] | e] s1]; cbn [fst snd] in Hkeep, Hthrow |- *;
    destruct Hkeep as [Hconsole Happrovals].
  - split_and!; [reflexivity | exact Happrovals |].
    left. cbn. rewrite Hconsole. reflexivity.
  - split_and!; [reflexivity | exact Happrovals |].
    right. destruct (Hthrow e eq_refl) as (res & s2 & Hres & Hinner).
    apply for_of_throw in Hinner as (rel & s3 & Hrel & Hstep).
    apply load_permission_throw in Hstep.
    exists e, res, rel, (snd s3). split_and!; try assumption.
    cbn. rewrite Hconsole. reflexivity.
Qed.

Lemma load_permission_keeps_true {Net} (fetch : string -> string -> M Net Response)
    (res rel k : string) (s : App.AppState * Net) :
  App.fgaPermissions (fst s) !! k = Some true ->
  App.fgaPermissions (fst (snd (App.load_permission fetch res rel s))) !! k = Some true.
Proof.
  intros Hk. rewrite load_permission_cases.
  destruct (fetch res rel (snd s)) as [[resp | e] n']; simpl; [| exact Hk].
  destruct (App.response_ok resp); simpl; [| exact Hk].
  destruct (is_null (body resp)); simpl; [exact Hk |].
  destruct (App.data_allowed (body resp)); simpl; [| exact Hk].
  destruct (decide (mk_key res rel = k)) as [<- | Hne].
  - apply lookup_insert_eq.
  - rewrite lookup_insert_ne by exact Hne. exact Hk.
Qed.

(** X12. Loading never revokes: a key cached as [true] before
    [loadUserPermissions] runs is cached as [true] after it, and
    [hasPermission] keeps answering [true] for it, whatever the server
    answers now. *)
Theorem load_never_revokes {Net} (fetch : string -> string -> M Net Response)
    (s : App.AppState * Net) (res rel : string) :
  App.fgaPermissions (fst s) !! mk_key res rel = Some true ->
  let a' := fst (snd (App.loadUserPermissions fetch s)) in
  App.fgaPermissions a' !! mk_key res rel = Some true
  /\ App.hasPermission a' res rel = true.
Proof.
  intros Hk. cbv zeta.
  assert (Hkept : App.fgaPermissions (fst (snd (App.loadUserPermissions fetch s)))
                  !! mk_key res rel = Some true).
  { unfold App.loadUserPermissions, try_catch, bind.
    set (loops := for_of App.resources
      (fun resource =>
         for_of App.relations
           (fun relation => App.load_permission fetch resource relation))).
    assert (Hkeep : App.fgaPermissions (fst (snd (loops s))) !! mk_key res rel
                    = Some true).
    { apply (for_of_invariant
        (fun s1 : App.AppState * Net =>
           App.fgaPermissions (fst s1) !! mk_key res rel = Some true));
        [| exact Hk].
      intros res1 _ s1 Hs1.
      apply (for_of_invariant
        (fun s1 : App.AppState * Net =>
           App.fgaPermissions (fst s1) !! mk_key res rel = Some true));
        [| exact Hs1].
      intros rel1 _ s2 Hs2. apply load_permission_keeps_true. exact Hs2. }
    destruct (loops s) as [[[] | e] s1]; cbn [fst snd] in Hkeep |- *;
      exact Hkeep. }
  split; [exact Hkept |].
  unfold App.hasPermission, App.Map_has. rewrite Hkept.
  rewrite bool_decide_true by eauto. reflexivity.
Qed.

Lemma load_never_revokes_witness :
  let s := (App.permissions_set "document:project-plan:viewer" true App.appState,
            world0 []) in
  App.fgaPermissions (fst s) !! mk_key "document:project-plan" "viewer" = Some true /\
  App.hasPermission
    (fst (snd (System.loadUserPermissions memory_fga no_metadata (Some alice) s)))
    "document:project-plan" "viewer" = true.
Proof.
  cbv zeta. split; [reflexivity |].
  exact (proj2 (load_never_revokes
                  (System.fetch_check_access memory_fga no_metadata (Some alice))
                  (App.permissions_set "document:project-plan:viewer" true App.appState,
                   world0 [])
                  "document:project-plan" "viewer" eq_refl)).
Defined.

(** One iteration of the loading loop against server.js, for a session. *)
Lemma load_permission_run {R} (fgaClient : FgaClient R)
    (management_getUser : string -> Result AppMetadata) (u : User)
    (p : string * string) (s : App.AppState * World R) :
  let out := App.load_permission
               (System.fetch_check_access fgaClient management_getUser (Some u))
               (fst p) (snd p) s in
  fst out = Return tt
  /\ (App.fgaPermissions (fst (snd out)), fga_store (snd (snd out)),
      journal (snd (snd out)))
     = (cache_step fgaClient (fga_store (snd s)) u (App.fgaPermissions (fst s)) p,
        fga_store (snd s),
        (journal (snd s) ++ [check_of u p])%list).
Proof.
  cbv zeta. destruct p as [res rel]. destruct s as [a w].
  unfold App.load_permission, App.on_net, System.fetch_check_access, cache_step,
    remote_allows, check_of, property_of. simpl.
  unfold Server.requireAuth, isAuthenticated, Server.check_access. simpl.
  unfold try_catch, bind, await_check. simpl.
  destruct (fga_check fgaClient (fga_store w)
              (mkTuple ("user:" +:+ sub u) rel res)) as [[|] | e];
    simpl; split; reflexivity.
Qed.

Lemma foldl_cache_step {R} (fgaClient : FgaClient R) (u : User)
    (pairs : list (string * string)) (c : gmap string bool) (store : R)
    (j : list Effect) :
  foldl (fun (b : gmap string bool * R * list Effect) p =>
           (cache_step fgaClient (snd (fst b)) u (fst (fst b)) p, snd (fst b),
            (snd b ++ [check_of u p])%list))
        (c, store, j) pairs
  = (foldl (cache_step fgaClient store u) c pairs, store,
     (j ++ map (check_of u) pairs)%list).
Proof.
  revert c j. induction pairs as [| p pairs IH]; intros c j; simpl.
  - rewrite app_nil_r. reflexivity.
  - rewrite IH. rewrite <- app_assoc. reflexivity.
Qed.

Lemma lookup_foldl_cache_step {R} (fgaClient : FgaClient R) (store : R) (u : User)
    (pairs : list (string * string)) (c : gmap string bool) (k : string) :
  foldl (cache_step fgaClient store u) c pairs !! k
  = if existsb (fun p => String.eqb (mk_key (fst p) (snd p)) k
                         && remote_allows fgaClient store u (fst p) (snd p)) pairs
    then Some true
    else c !! k.
Proof.
  revert c. induction pairs as [| p pairs IH]; intros c; simpl.
  - reflexivity.
  - rewrite IH.
    destruct (existsb _ pairs); [rewrite orb_true_r; reflexivity |].
    rewrite orb_false_r. unfold cache_step.
    destruct (remote_allows fgaClient store u (fst p) (snd p)).
    + rewrite andb_true_r.
      destruct (String.eqb_spec (mk_key (fst p) (snd p)) k) as [-> | Hne].
      * apply lookup_insert_eq.
      * apply lookup_insert_ne. exact Hne.
    + rewrite andb_false_r. reflexivity.
Qed.

Lemma relations_colon_free (rel : string) :
  rel ∈ App.relations -> colon_free rel = true.
Proof.
  unfold App.relations. intros Hin.
  repeat (apply elem_of_cons in Hin as [-> | Hin]; [reflexivity |]).
  apply elem_of_nil in Hin. destruct Hin.
Qed.

(** Among the pairs of the loading loop, only the pair itself produces its
    key. *)
Lemma existsb_loaded_pair (allows : string -> string -> bool) (res rel : string) :
  res ∈ App.resources -> rel ∈ App.relations ->
  existsb (fun p => String.eqb (mk_key (fst p) (snd p)) (mk_key res rel)
                    && allows (fst p) (snd p)) loaded_pairs
  = allows res rel.
Proof.
  intros Hres Hrel. apply eq_true_iff_eq. rewrite existsb_exists. split.
  - intros ([res' rel'] & Hin & Hp). simpl in Hp.
    apply andb_true_iff in Hp as [Hkey Hallows].
    apply String.eqb_eq in Hkey.
    unfold loaded_pairs in Hin. apply in_prod_iff in Hin as [_ Hrel'].
    apply list_elem_of_In in Hrel'.
    apply mk_key_inj in Hkey as [-> ->];
      [exact Hallows | apply relations_colon_free; exact Hrel'
       | apply relations_colon_free; exact Hrel].
  - intros Hallows. exists (res, rel). split.
    + unfold loaded_pairs. apply in_prod; apply list_elem_of_In; assumption.
    + simpl. rewrite String.eqb_refl. exact Hallows.
Qed.

(** The loading loop over any list of pairs, against server.js. *)
Lemma load_loop_run {R} (fgaClient : FgaClient R)
    (management_getUser : string -> Result AppMetadata) (u : User)
    (pairs : list (string * string)) (a : App.AppState) (w : World R) :
  let out := for_of pairs
               (fun p => App.load_permission
                  (System.fetch_check_access fgaClient management_getUser (Some u))
                  (fst p) (snd p)) (a, w) in
  fst out = Return tt
  /\ App.fgaPermissions (fst (snd out))
     = foldl (cache_step fgaClient (fga_store w) u) (App.fgaPermissions a) pairs
  /\ fga_store (snd (snd out)) = fga_store w
  /\ journal (snd (snd out)) = (journal w ++ map (check_of u) pairs)%list.
Proof.
  cbv zeta.
  destruct (for_of_fold
    (fun s : App.AppState * World R =>
       (App.fgaPermissions (fst s), fga_store (snd s), journal (snd s)))
    (fun (b : gmap string bool * R * list Effect) p =>
       (cache_step fgaClient (snd (fst b)) u (fst (fst b)) p, snd (fst b),
        (snd b ++ [check_of u p])%list))
    pairs
    (fun p => App.load_permission
                (System.fetch_check_access fgaClient management_getUser (Some u))
                (fst p) (snd p))
    (a, w)) as [Hret Hproj].
  { intros p s0 _. apply load_permission_run. }
  cbn [fst snd] in Hproj. rewrite foldl_cache_step in Hproj.
  injection Hproj as Hcache Hstore Hjournal. split_and!; assumption.
Qed.

(** X13. With a session, the cache after [loadUserPermissions] mirrors the
    remote service at loading time: the load returns normally after exactly
    one check per (resource, relation) pair, in loop order, each for the
    session's user; the store is not changed; and for each of these pairs
    [hasPermission] is then true exactly when the remote check returned true
    or the pair was cached before. *)
Theorem load_mirrors_remote {R} (fgaClient : FgaClient R)
    (management_getUser : string -> Result AppMetadata)
    (u : User) (a : App.AppState) (w : World R) :
  let out := System.loadUserPermissions fgaClient management_getUser (Some u) (a, w) in
  let a' := fst (snd out) in
  let w' := snd (snd out) in
  fst out = Return tt
  /\ fga_store w' = fga_store w
  /\ effects_since w w' = map (check_of u) loaded_pairs
  /\ (forall res rel, res ∈ App.resources -> rel ∈ App.relations ->
        App.hasPermission a' res rel
        = remote_allows fgaClient (fga_store w) u res rel
          || App.hasPermission a res rel).
Proof.
  cbv zeta.
  unfold System.loadUserPermissions, App.loadUserPermissions, try_catch, bind.
  rewrite for_of_nested. fold loaded_pairs.
  destruct (load_loop_run fgaClient management_getUser u loaded_pairs a w)
    as (Hret & Hcache & Hstore & Hjournal).
  destruct (for_of loaded_pairs _ (a, w)) as [r [a1 w1]].
  cbn [fst snd] in Hret, Hcache, Hstore, Hjournal. subst r.
  unfold App.on_app, modify, App.app_log.
  cbn [fst snd App.fgaPermissions]. split_and!.
  - reflexivity.
  - exact Hstore.
  - unfold effects_since. rewrite Hjournal. apply drop_app_length.
  - intros res rel Hres Hrel.
    unfold App.hasPermission, App.Map_has. cbn [App.fgaPermissions].
    rewrite Hcache.
    rewrite lookup_foldl_cache_step.
    rewrite (existsb_loaded_pair (remote_allows fgaClient (fga_store w) u) res rel
               Hres Hrel).
    destruct (remote_allows fgaClient (fga_store w) u res rel); reflexivity.
Qed.

(** ** Asking for approval from the browser *)

(** X14. With a session, [requestApproval] adds one entry to the browser's
    approval list, with status [pending], the resource (or ["system"] when it
    is empty), and the very request id for which the server has set its
    timer.  Without a session the request is answered 401 and nothing
    changes, in the browser or on the server. *)
Theorem requestApproval_matches_server {R} (fgaClient : FgaClient R)
    (management_getUser : string -> Result AppMetadata)
    (now action resource : string) (a : App.AppState) (w : World R) :
  (forall u : User,
     let out := System.requestApproval fgaClient management_getUser (Some u)
                  now action resource (a, w) in
     let id := "req_" +:+ String.substring 2 9 (entropy w (draws w)) in
     let target := if String.eqb resource "" then "system" else resource in
     fst out = Return tt
     /\ App.approvalRequests (fst (snd out))
        = (App.approvalRequests a
           ++ [App.mkApprovalEntry id target action "pending" now])%list
     /\ timers (snd (snd out)) = (timers w ++ [mkTimer 5000 id])%list
     /\ App.fgaPermissions (fst (snd out)) = App.fgaPermissions a)
  /\ System.requestApproval fgaClient management_getUser None
       now action resource (a, w)
     = (Return tt, (a, w)).
Proof.
  split.
  - intros u. cbv zeta. split_and!; reflexivity.
  - reflexivity.
Qed.

(** * The post-login action *)

(** Up to [2^53] in absolute value the integers are doubles. *)
Lemma to_double_exact (z : Z) :
  - 2 ^ 53 <= z <= 2 ^ 53 -> PostLogin.to_double z = z.
Proof.
  intros Hz. unfold PostLogin.to_double.
  destruct (Z.eq_dec (Z.abs z) (2 ^ 53)) as [Hmax | Hless].
  - assert (Hcases : z = 2 ^ 53 \/ z = - 2 ^ 53) by lia.
    destruct Hcases as [-> | ->]; reflexivity.
  - assert (Hlog : Z.log2 (Z.abs z) < 53).
    { destruct (Z.eq_dec (Z.abs z) 0) as [-> | Hpos]; [reflexivity |].
      apply Z.log2_lt_pow2; lia. }
    destruct (Z.leb_spec (Z.log2 (Z.abs z) - 52) 0); [reflexivity | lia].
Qed.

Lemma plus_one_exact (count : Z) :
  - 2 ^ 53 <= count + 1 <= 2 ^ 53 -> PostLogin.plus_one count = count + 1.
Proof. apply to_double_exact. Qed.

(** X15. The action never blocks a login: whatever the external API does, it
    returns normally, after at most one request, and it has done exactly one
    of three things to the user's metadata: nothing (data already synced),
    the seven writes of a successful sync ending with [is_data_synced] true
    and a timestamp, or the single write of a [data_sync_error] whose retry
    count is the previous one plus one as JavaScript adds them: one more
    than the previous count as long as that is at most [2^53] in absolute
    value. *)
Theorem post_login_never_blocks (external_api : string -> Result PostLogin.FetchResponse)
    (now : string) (event : PostLogin.Event) (a : PostLogin.Api) :
  let out := PostLogin.onExecutePostLogin external_api now event a in
  let written := PostLogin.metadata_set (snd out) in
  let previous := PostLogin.previous_retry_count event in
  fst out = Return tt
  /\ (length (PostLogin.fetched (snd out)) <= S (length (PostLogin.fetched a)))%nat
  /\ (written = PostLogin.metadata_set a
      \/ (exists tier employee department level permissions,
            PostLogin.truthy tier = true
            /\ written
               = (PostLogin.metadata_set a ++
                  [("loyalty_tier", tier); ("employee_id", employee);
                   ("department", department); ("access_level", level);
                   ("custom_permissions", permissions);
                   ("is_data_synced", PostLogin.MBool true);
                   ("data_sync_timestamp", PostLogin.MString now)])%list)
      \/ (exists err count,
            written
            = (PostLogin.metadata_set a ++
               [("data_sync_error", PostLogin.MSyncError err now count)])%list
            /\ count = PostLogin.plus_one previous
            /\ (- 2 ^ 53 <= previous + 1 <= 2 ^ 53 -> count = previous + 1))).
Proof.
  cbv zeta.
  assert (Hcount : forall err,
    exists err0 count,
      (PostLogin.metadata_set a ++
       [("data_sync_error",
         PostLogin.MSyncError err now
           (PostLogin.plus_one (PostLogin.previous_retry_count event)))])%list
      = (PostLogin.metadata_set a ++
         [("data_sync_error", PostLogin.MSyncError err0 now count)])%list
      /\ count = PostLogin.plus_one (PostLogin.previous_retry_count event)
      /\ (- 2 ^ 53 <= PostLogin.previous_retry_count event + 1 <= 2 ^ 53 ->
          count = PostLogin.previous_retry_count event + 1)).
  { intros err. exists err, (PostLogin.plus_one (PostLogin.previous_retry_count event)).
    split_and!; [reflexivity | reflexivity | apply plus_one_exact]. }
  unfold PostLogin.onExecutePostLogin, try_catch, bind, PostLogin.api_fetch.
  destruct (PostLogin.truthy (PostLogin.meta_field event "is_data_synced")); simpl.
  { split_and!; [reflexivity | lia | left; reflexivity]. }
  destruct (external_api _) as [[ok code json] | err]; simpl.
  2: { rewrite length_app. simpl.
       split_and!; [reflexivity | lia | right; right; apply Hcount]. }
  destruct ok; simpl.
  2: { rewrite length_app. simpl.
       split_and!; [reflexivity | lia | right; right; apply Hcount]. }
  destruct json as [[ud |] | err]; simpl; rewrite length_app; simpl.
  - split_and!; [reflexivity | lia |]. right; left.
    exists (PostLogin.or_else (PostLogin.ud_loyalty_tier ud) (PostLogin.MString "Bronze")).
    do 4 eexists. split.
    + unfold PostLogin.or_else.
      destruct (PostLogin.truthy (PostLogin.ud_loyalty_tier ud)) eqn:Htier;
        [exact Htier | reflexivity].
    + rewrite <- !app_assoc. reflexivity.
  - split_and!; [reflexivity | lia | right; right; apply Hcount].
  - split_and!; [reflexivity | lia | right; right; apply Hcount].
Qed.

(** X16. For a user whose data is already synced the action does nothing but
    log: no request to the external API, no metadata write, no claim. *)
Theorem post_login_skips_synced (external_api : string -> Result PostLogin.FetchResponse)
    (now : string) (event : PostLogin.Event) (a : PostLogin.Api) :
  PostLogin.truthy (PostLogin.meta_field event "is_data_synced") = true ->
  PostLogin.onExecutePostLogin external_api now event a
  = (Return tt,
     PostLogin.add_console
       (LogText ("User " +:+ PostLogin.user_id event +:+
                 " data already synced, skipping enrichment")) a).
Proof.
  intros Hsynced.
  unfold PostLogin.onExecutePostLogin, try_catch. rewrite Hsynced. reflexivity.
Qed.

Lemma post_login_skips_synced_witness :
  let event := PostLogin.mkEvent "auth0|alice"
                 (Some {["is_data_synced" := PostLogin.MBool true]}) in
  PostLogin.truthy (PostLogin.meta_field event "is_data_synced") = true /\
  PostLogin.fetched
    (snd (PostLogin.onExecutePostLogin failing_api "2025-10-09T12:00:00.000Z"
            event PostLogin.api0)) = [].
Proof.
  cbv zeta.
  assert (Hsynced : PostLogin.truthy
            (PostLogin.meta_field
               (PostLogin.mkEvent "auth0|alice"
                  (Some {["is_data_synced" := PostLogin.MBool true]}))
               "is_data_synced") = true) by reflexivity.
  split; [exact Hsynced |].
  rewrite (post_login_skips_synced failing_api "2025-10-09T12:00:00.000Z" _
             PostLogin.api0 Hsynced).
  reflexivity.
Defined.

Lemma meta_field_default (event : PostLogin.Event) (field : string) :
  PostLogin.meta_field event field
  = default PostLogin.MUndefined
      (default ∅ (PostLogin.app_metadata event) !! field).
Proof.
  unfold PostLogin.meta_field. destruct (PostLogin.app_metadata event); simpl.
  - reflexivity.
  - rewrite lookup_empty. reflexivity.
Qed.

(** X17. A successful sync happens once.  When the user is not yet synced and
    the external API answers with user data, the action makes one request,
    puts the same two claims on the ID token and on the access token, and
    marks the user as synced; at the user's next login it makes no request
    and writes nothing. *)
Theorem post_login_syncs_once (external_api : string -> Result PostLogin.FetchResponse)
    (now : string) (event : PostLogin.Event) (code : Z) (ud : PostLogin.UserData) :
  PostLogin.truthy (PostLogin.meta_field event "is_data_synced") = false ->
  external_api ("https://api.internal-db.com/user-data?id=" +:+ PostLogin.user_id event)
  = Return (PostLogin.mkFetchResponse true code (Return (Some ud))) ->
  let a := snd (PostLogin.onExecutePostLogin external_api now event PostLogin.api0) in
  let again := PostLogin.onExecutePostLogin external_api now
                 (PostLogin.next_event event a) PostLogin.api0 in
  PostLogin.fetched a
  = ["https://api.internal-db.com/user-data?id=" +:+ PostLogin.user_id event]
  /\ PostLogin.idToken_claims a
     = [("loyalty_tier",
         PostLogin.or_else (PostLogin.ud_loyalty_tier ud) (PostLogin.MString "Bronze"));
        ("access_level", PostLogin.ud_access_level ud)]
  /\ PostLogin.accessToken_claims a = PostLogin.idToken_claims a
  /\ PostLogin.meta_field (PostLogin.next_event event a) "is_data_synced"
     = PostLogin.MBool true
  /\ fst again = Return tt
  /\ PostLogin.fetched (snd again) = []
  /\ PostLogin.metadata_set (snd again) = [].
Proof.
  intros Hnot Hapi. cbv zeta.
  assert (Hrun : snd (PostLogin.onExecutePostLogin external_api now event PostLogin.api0)
    = PostLogin.mkApi
        ["https://api.internal-db.com/user-data?id=" +:+ PostLogin.user_id event]
        [("loyalty_tier",
          PostLogin.or_else (PostLogin.ud_loyalty_tier ud) (PostLogin.MString "Bronze"));
         ("employee_id", PostLogin.ud_employee_id ud);
         ("department", PostLogin.ud_department ud);
         ("access_level", PostLogin.ud_access_level ud);
         ("custom_permissions",
          PostLogin.or_else (PostLogin.ud_custom_permissions ud) (PostLogin.MList []));
         ("is_data_synced", PostLogin.MBool true);
         ("data_sync_timestamp", PostLogin.MString now)]
        [("loyalty_tier",
          PostLogin.or_else (PostLogin.ud_loyalty_tier ud) (PostLogin.MString "Bronze"));
         ("access_level", PostLogin.ud_access_level ud)]
        [("loyalty_tier",
          PostLogin.or_else (PostLogin.ud_loyalty_tier ud) (PostLogin.MString "Bronze"));
         ("access_level", PostLogin.ud_access_level ud)]
        [LogText ("Starting data enrichment for user " +:+ PostLogin.user_id event);
         LogText ("Successfully fetched user data for " +:+ PostLogin.user_id event);
         LogText ("Successfully updated app_metadata for user " +:+
                  PostLogin.user_id event)]).
  { unfold PostLogin.onExecutePostLogin, try_catch, bind, PostLogin.api_fetch.
    rewrite Hnot. simpl. rewrite Hapi. reflexivity. }
  rewrite Hrun. clear Hrun.
  assert (Hsynced : PostLogin.meta_field
            (PostLogin.next_event event
               (PostLogin.mkApi
                  ["https://api.internal-db.com/user-data?id=" +:+ PostLogin.user_id event]
                  [("loyalty_tier",
                    PostLogin.or_else (PostLogin.ud_loyalty_tier ud)
                      (PostLogin.MString "Bronze"));
                   ("employee_id", PostLogin.ud_employee_id ud);
                   ("department", PostLogin.ud_department ud);
                   ("access_level", PostLogin.ud_access_level ud);
                   ("custom_permissions",
                    PostLogin.or_else (PostLogin.ud_custom_permissions ud)
                      (PostLogin.MList []));
                   ("is_data_synced", PostLogin.MBool true);
                   ("data_sync_timestamp", PostLogin.MString now)]
                  [("loyalty_tier",
                    PostLogin.or_else (PostLogin.ud_loyalty_tier ud)
                      (PostLogin.MString "Bronze"));
                   ("access_level", PostLogin.ud_access_level ud)]
                  [("loyalty_tier",
                    PostLogin.or_else (PostLogin.ud_loyalty_tier ud)
                      (PostLogin.MString "Bronze"));
                   ("access_level", PostLogin.ud_access_level ud)]
                  [LogText ("Starting data enrichment for user " +:+
                            PostLogin.user_id event);
                   LogText ("Successfully fetched user data for " +:+
                            PostLogin.user_id event);
                   LogText ("Successfully updated app_metadata for user " +:+
                            PostLogin.user_id event)]))
            "is_data_synced" = PostLogin.MBool true).
  { unfold PostLogin.meta_field, PostLogin.next_event, PostLogin.metadata_after.
    simpl. rewrite lookup_insert_ne by done. rewrite lookup_insert_eq. reflexivity. }
  rewrite post_login_skips_synced by (rewrite Hsynced; reflexivity).
  split_and!; try reflexivity. exact Hsynced.
Qed.

Lemma post_login_syncs_once_witness :
  PostLogin.truthy (PostLogin.meta_field first_login "is_data_synced") = false /\
  gold_api ("https://api.internal-db.com/user-data?id=" +:+ PostLogin.user_id first_login)
  = Return (PostLogin.mkFetchResponse true 200
      (Return (Some (PostLogin.mkUserData
         (PostLogin.MString "Gold") (PostLogin.MString "E-17")
         (PostLogin.MString "Engineering") (PostLogin.MString "admin")
         PostLogin.MUndefined)))) /\
  PostLogin.fetched
    (snd (PostLogin.onExecutePostLogin gold_api "2025-10-10T08:00:00.000Z"
       (PostLogin.next_event first_login
          (snd (PostLogin.onExecutePostLogin gold_api "2025-10-10T08:00:00.000Z"
                  first_login PostLogin.api0)))
       PostLogin.api0)) = [].
Proof.
  split; [reflexivity | split; [reflexivity |]].
  exact (proj1 (proj2 (proj2 (proj2 (proj2 (proj2
    (post_login_syncs_once gold_api "2025-10-10T08:00:00.000Z" first_login 200 _
       eq_refl eq_refl))))))).
Defined.

(** A login at which the external API delivers no user data: one request,
    one [data_sync_error] written. *)
Lemma failed_login_run (external_api : string -> Result PostLogin.FetchResponse)
    (now : string) (event : PostLogin.Event) :
  PostLogin.truthy (PostLogin.meta_field event "is_data_synced") = false ->
  PostLogin.no_user_data
    (external_api ("https://api.internal-db.com/user-data?id=" +:+
                   PostLogin.user_id event)) ->
  let a := snd (PostLogin.onExecutePostLogin external_api now event PostLogin.api0) in
  length (PostLogin.fetched a) = 1%nat
  /\ exists err,
       PostLogin.metadata_set a
       = [("data_sync_error",
           PostLogin.MSyncError err now
             (PostLogin.plus_one (PostLogin.previous_retry_count event)))].
Proof.
  intros Hnot Hfail. cbv zeta.
  unfold PostLogin.onExecutePostLogin, try_catch, bind, PostLogin.api_fetch.
  rewrite Hnot. simpl.
  destruct (external_api _) as [[ok code json] | err]; simpl in Hfail |- *.
  - destruct ok; simpl.
    + destruct Hfail as [Hok | Hjson]; [discriminate Hok |].
      destruct json as [[ud |] | err]; simpl; [destruct Hjson | |];
        (split; [reflexivity | eexists; reflexivity]).
    + split; [reflexivity | eexists; reflexivity].
  - split; [reflexivity | eexists; reflexivity].
Qed.

(** The event of the next login after one that failed. *)
Lemma failed_login_next (external_api : string -> Result PostLogin.FetchResponse)
    (now : string) (event : PostLogin.Event) :
  PostLogin.truthy (PostLogin.meta_field event "is_data_synced") = false ->
  PostLogin.no_user_data
    (external_api ("https://api.internal-db.com/user-data?id=" +:+
                   PostLogin.user_id event)) ->
  let a := snd (PostLogin.onExecutePostLogin external_api now event PostLogin.api0) in
  let next := PostLogin.next_event event a in
  PostLogin.truthy (PostLogin.meta_field next "is_data_synced") = false
  /\ PostLogin.previous_retry_count next
     = PostLogin.plus_one (PostLogin.previous_retry_count event).
Proof.
  intros Hnot Hfail. cbv zeta.
  destruct (failed_login_run external_api now event Hnot Hfail) as (_ & err & Hset).
  set (a := snd (PostLogin.onExecutePostLogin external_api now event PostLogin.api0))
    in *.
  assert (Hfield : forall field,
    PostLogin.meta_field (PostLogin.next_event event a) field
    = if decide (field = "data_sync_error")
      then PostLogin.MSyncError err now
             (PostLogin.plus_one (PostLogin.previous_retry_count event))
      else PostLogin.meta_field event field).
  { intros field.
    unfold PostLogin.meta_field at 1.
    unfold PostLogin.next_event, PostLogin.metadata_after. rewrite Hset. simpl.
    destruct (decide (field = "data_sync_error")) as [-> | Hne].
    - rewrite lookup_insert_eq. reflexivity.
    - rewrite lookup_insert_ne by congruence. symmetry. apply meta_field_default. }
  split.
  - rewrite Hfield. destruct (decide _) as [Heq | _]; [discriminate Heq | exact Hnot].
  - unfold PostLogin.previous_retry_count at 1. rewrite Hfield.
    destruct (decide _) as [_ | Hne]; [reflexivity | congruence].
Qed.

(** X18. While the external API delivers no user data, every login of a user
    who is not synced makes one request and raises the retry count of the
    recorded [data_sync_error] by one, and the user stays unsynced: after
    [n] such logins the count is [n] more than at the start, as long as it
    stays within [2^53], up to where a JavaScript number counts. *)
Theorem post_login_counts_failures
    (external_api : string -> Result PostLogin.FetchResponse) (now : string)
    (n : nat) (event : PostLogin.Event) :
  (forall url, PostLogin.no_user_data (external_api url)) ->
  PostLogin.truthy (PostLogin.meta_field event "is_data_synced") = false ->
  - 2 ^ 53 <= PostLogin.previous_retry_count event ->
  PostLogin.previous_retry_count event + Z.of_nat n <= 2 ^ 53 ->
  let out := PostLogin.logins external_api now n event in
  PostLogin.previous_retry_count (fst out)
  = PostLogin.previous_retry_count event + Z.of_nat n
  /\ PostLogin.truthy (PostLogin.meta_field (fst out) "is_data_synced") = false
  /\ length (snd out) = n
  /\ Forall (fun a => length (PostLogin.fetched a) = 1%nat) (snd out).
Proof.
  intros Hdown. cbv zeta. revert event.
  induction n as [| n IH]; intros event Hnot Hlow Hhigh.
  - simpl. split_and!; [lia | exact Hnot | reflexivity | constructor].
  - cbn [PostLogin.logins fst snd].
    destruct (failed_login_run external_api now event Hnot (Hdown _))
      as (Hfetched & _).
    destruct (failed_login_next external_api now event Hnot (Hdown _))
      as (Hnot' & Hcount).
    set (a := snd (PostLogin.onExecutePostLogin external_api now event PostLogin.api0))
      in *.
    rewrite plus_one_exact in Hcount by lia.
    destruct (IH (PostLogin.next_event event a) Hnot') as (Hretry & Hstill & Hlen & Hall);
      [lia | lia |].
    split_and!.
    + rewrite Hretry, Hcount. lia.
    + exact Hstill.
    + simpl. rewrite Hlen. reflexivity.
    + constructor; [exact Hfetched | exact Hall].
Qed.

Lemma post_login_counts_failures_witness :
  (forall url, PostLogin.no_user_data (failing_api url)) /\
  PostLogin.truthy (PostLogin.meta_field first_login "is_data_synced") = false /\
  - 2 ^ 53 <= PostLogin.previous_retry_count first_login /\
  PostLogin.previous_retry_count first_login + Z.of_nat 3 <= 2 ^ 53 /\
  PostLogin.previous_retry_count
    (fst (PostLogin.logins failing_api "2025-10-10T08:00:00.000Z" 3 first_login))
  = 3.
Proof.
  assert (Hdown : forall url, PostLogin.no_user_data (failing_api url)).
  { intros url. simpl. left. reflexivity. }
  assert (Hlow : - 2 ^ 53 <= PostLogin.previous_retry_count first_login)
    by (vm_compute; discriminate).
  assert (Hhigh : PostLogin.previous_retry_count first_login + Z.of_nat 3 <= 2 ^ 53)
    by (vm_compute; discriminate).
  split; [exact Hdown | split; [reflexivity | split; [exact Hlow | split; [exact Hhigh |]]]].
  exact (proj1 (post_login_counts_failures failing_api "2025-10-10T08:00:00.000Z"
                  3 first_login Hdown eq_refl Hlow Hhigh)).
Defined.

(** Beyond [2^53] the count stops: a user whose recorded count is [2^53]
    has the same count after another failed login. *)
Example retry_count_stops_at_2_53 :
  PostLogin.previous_retry_count worn_out_login = 2 ^ 53
  /\ PostLogin.previous_retry_count
       (fst (PostLogin.logins failing_api "2025-10-10T08:00:00.000Z" 1 worn_out_login))
     = 2 ^ 53
  /\ PostLogin.plus_one (2 ^ 53 + 2) = 2 ^ 53 + 4.
Proof. split_and!; reflexivity. Qed.

(** * The dashboard *)

(** ** The security log *)

Lemma remove_excess_take {A} (limit : nat) (children : list A) :
  Dashboard.remove_excess limit children = take limit children.
Proof.
  funelim (Dashboard.remove_excess limit children).
  - rewrite H. apply firstn_removelast. assumption.
  - symmetry. apply take_ge. lia.
Qed.

(** X19. The security log shows the ten most recent entries, newest first:
    [updateSecurityLogs] puts the new entry in front of the first nine of the
    entries shown before and drops the rest, so the list never exceeds ten;
    when the document has no [.log-entries] element it does nothing. *)
Theorem security_log_keeps_newest_ten (newLog : Dashboard.LogEntryDiv)
    (p : Dashboard.Page) :
  let p' := Dashboard.updateSecurityLogs newLog p in
  Dashboard.log_entries p'
  = (fun children => newLog :: take 9 children) <$> Dashboard.log_entries p
  /\ (forall shown, Dashboard.log_entries p' = Some shown ->
        (length shown <= 10)%nat /\ head shown = Some newLog)
  /\ Dashboard.notifications p' = Dashboard.notifications p
  /\ Dashboard.loading p' = Dashboard.loading p.
Proof.
  cbv zeta. unfold Dashboard.updateSecurityLogs.
  destruct (Dashboard.log_entries p) as [children |] eqn:Hentries; simpl.
  - rewrite remove_excess_take. simpl. split_and!; try reflexivity.
    intros shown [= <-]. simpl. rewrite length_take. split; [lia | reflexivity].
  - rewrite Hentries. split_and!; try reflexivity. intros shown Hshown.
    discriminate Hshown.
Qed.

(** ** Token Vault tokens in the browser *)

Lemma addSecurityLog_keeps_rest (time event status details : string)
    (p : Dashboard.Page) :
  Dashboard.notifications (Dashboard.addSecurityLog time event status details p)
  = Dashboard.notifications p
  /\ Dashboard.loading (Dashboard.addSecurityLog time event status details p)
     = Dashboard.loading p.
Proof.
  unfold Dashboard.addSecurityLog, Dashboard.updateSecurityLogs.
  destruct (Dashboard.log_entries p); split; reflexivity.
Qed.

(** The endings of [refreshCalendarData], spelled out. *)
Lemma refresh_run {Net} (fetch_calendar_token : M Net Response) (time : string)
    (b : Dashboard.Browser) (n : Net) :
  let ending := fun (event status details message type : string)
                    (b0 : Dashboard.Browser) =>
    Dashboard.on_page (Dashboard.addSecurityLog time event status details)
      (Dashboard.on_page (Dashboard.showNotification message type)
         (Dashboard.on_page Dashboard.hideLoadingState b0)) in
  let failed := fun (error : string) (b0 : Dashboard.Browser) =>
    ending "Calendar sync failed" "error" error
           "Failed to refresh calendar data" "error"
           (Dashboard.browser_log (LogError "Error refreshing calendar:" error) b0) in
  let announced := fun (b0 : Dashboard.Browser) =>
    Dashboard.on_page
      (Dashboard.showNotification "Calendar data refreshed via Token Vault" "success")
      (Dashboard.on_page Dashboard.hideLoadingState b0) in
  let b1 := Dashboard.on_page Dashboard.showLoadingState b in
  Dashboard.refreshCalendarData fetch_calendar_token time (b, n)
  = if Dashboard.not_token (Dashboard.getTokenVaultToken b "google-calendar") then
      match fetch_calendar_token n with
      | (Return response, n') =>
          if App.response_ok response then
            let b2 := announced
                        (Dashboard.tokens_set "google-calendar" (body response) b1) in
            if is_null (body response)
            then (Return tt,
                  (failed "TypeError: Cannot read properties of null" b2, n'))
            else (Return tt,
                  (Dashboard.on_page
                     (Dashboard.addSecurityLog time "Calendar sync completed" "success"
                        ("Events synchronized from Google Calendar using Token Vault (expires in "
                         +:+ Dashboard.show_expires_in (body response) +:+ "s)"))
                     b2, n'))
          else (Return tt, (failed "Failed to get calendar token" b1, n'))
      | (Throw error, n') => (Return tt, (failed error b1, n'))
      end
    else
      (Return tt,
       (ending "Calendar sync completed" "success"
          "Events synchronized from Google Calendar using cached Token Vault token"
          "Calendar data refreshed via Token Vault" "success" b1, n)).
Proof.
  cbv zeta.
  unfold Dashboard.refreshCalendarData, try_catch, bind, get, Dashboard.in_browser,
    modify, Dashboard.via_net, Dashboard.getTokenVaultToken, property_of.
  cbn [fst snd Dashboard.tokenVaultTokens Dashboard.on_page].
  destruct (Dashboard.not_token (Dashboard.tokenVaultTokens b !! "google-calendar"));
    [| reflexivity].
  cbn [fst snd].
  destruct (fetch_calendar_token n) as [[resp | err] n']; cbn [fst snd];
    [| reflexivity].
  destruct (App.response_ok resp); [| reflexivity].
  destruct (is_null (body resp)); reflexivity.
Qed.

(** Notifications and the loading class after the steps that end a
    refresh. *)
Lemma refresh_page_after (time event status details : string)
    (p : Dashboard.Page) :
  forall message type,
    let p' := Dashboard.addSecurityLog time event status details
                (Dashboard.showNotification message type
                   (Dashboard.hideLoadingState p)) in
    Dashboard.loading p' = false
    /\ Dashboard.notifications p'
       = (Dashboard.notifications p ++ [(message, type)])%list.
Proof.
  intros message type. cbv zeta.
  destruct (addSecurityLog_keeps_rest time event status details
              (Dashboard.showNotification message type
                 (Dashboard.hideLoadingState p))) as [Hn Hl].
  rewrite Hn, Hl. split; reflexivity.
Qed.

(** X20. [refreshCalendarData] always comes to an end with the loading
    indicator cleared: whatever is cached and whatever the network does, it
    returns normally, the body is not [loading], and it has added one
    notification, the success or the failure one.  There is one exception to
    "one": when the token it has just fetched is the JSON value [null], the
    success notification is shown, reading [expires_in] then throws, and the
    failure notification follows it. *)
Theorem refresh_always_clears_loading {Net} (fetch_calendar_token : M Net Response)
    (time : string) (s : Dashboard.Browser * Net) :
  let out := Dashboard.refreshCalendarData fetch_calendar_token time s in
  let p' := Dashboard.page (fst (snd out)) in
  let shown := Dashboard.notifications (Dashboard.page (fst s)) in
  let success := ("Calendar data refreshed via Token Vault", "success") in
  let failure := ("Failed to refresh calendar data", "error") in
  let fetched_null :=
    Dashboard.not_token (Dashboard.getTokenVaultToken (fst s) "google-calendar") = true
    /\ exists resp n',
         fetch_calendar_token (snd s) = (Return resp, n')
         /\ App.response_ok resp = true /\ body resp = JNull in
  fst out = Return tt
  /\ Dashboard.loading p' = false
  /\ ((Dashboard.notifications p' = (shown ++ [success])%list /\ ~ fetched_null)
      \/ (Dashboard.notifications p' = (shown ++ [failure])%list /\ ~ fetched_null)
      \/ (Dashboard.notifications p' = (shown ++ [success; failure])%list
          /\ fetched_null)).
Proof.
  cbv zeta. destruct s as [b n]. rewrite refresh_run. cbv zeta. cbn [fst snd].
  destruct (Dashboard.not_token (Dashboard.getTokenVaultToken b "google-calendar"))
    eqn:Hnot.
  2: { cbn [fst snd Dashboard.page Dashboard.on_page].
       destruct (refresh_page_after time "Calendar sync completed" "success"
                   "Events synchronized from Google Calendar using cached Token Vault token"
                   (Dashboard.showLoadingState (Dashboard.page b))
                   "Calendar data refreshed via Token Vault" "success") as [Hl Hn].
       split_and!; [reflexivity | exact Hl |].
       left. split; [exact Hn |]. intros [Hfalse _]. discriminate Hfalse. }
  destruct (fetch_calendar_token n) as [[resp | err] n'] eqn:Hfetch.
  2: { cbn [fst snd Dashboard.page Dashboard.on_page Dashboard.browser_log].
       destruct (refresh_page_after time "Calendar sync failed" "error" err
                   (Dashboard.showLoadingState (Dashboard.page b))
                   "Failed to refresh calendar data" "error") as [Hl Hn].
       split_and!; [reflexivity | exact Hl |].
       right; left. split; [exact Hn |].
       intros (_ & resp & n0 & Hreturn & _). discriminate Hreturn. }
  destruct (App.response_ok resp) eqn:Hok.
  2: { cbn [fst snd Dashboard.page Dashboard.on_page Dashboard.browser_log].
       destruct (refresh_page_after time "Calendar sync failed" "error"
                   "Failed to get calendar token"
                   (Dashboard.showLoadingState (Dashboard.page b))
                   "Failed to refresh calendar data" "error") as [Hl Hn].
       split_and!; [reflexivity | exact Hl |].
       right; left. split; [exact Hn |].
       intros (_ & resp0 & n0 & [= <- <-] & Hok0 & _). congruence. }
  destruct (is_null (body resp)) eqn:Hnull.
  - cbn [fst snd Dashboard.page Dashboard.on_page Dashboard.browser_log
         Dashboard.tokens_set].
    destruct (refresh_page_after time "Calendar sync failed" "error"
                "TypeError: Cannot read properties of null"
                (Dashboard.showNotification "Calendar data refreshed via Token Vault"
                   "success"
                   (Dashboard.hideLoadingState
                      (Dashboard.showLoadingState (Dashboard.page b))))
                "Failed to refresh calendar data" "error") as [Hl Hn].
    split_and!; [reflexivity | exact Hl |].
    right; right. split.
    + rewrite Hn. cbn. rewrite <- app_assoc. reflexivity.
    + split; [reflexivity |]. exists resp, n'.
      split_and!; [reflexivity | exact Hok |].
      destruct (body resp); try discriminate Hnull. reflexivity.
  - cbn [fst snd Dashboard.page Dashboard.on_page Dashboard.tokens_set].
    destruct (addSecurityLog_keeps_rest time "Calendar sync completed" "success"
                ("Events synchronized from Google Calendar using Token Vault (expires in "
                 +:+ Dashboard.show_expires_in (body resp) +:+ "s)")
                (Dashboard.showNotification "Calendar data refreshed via Token Vault"
                   "success"
                   (Dashboard.hideLoadingState
                      (Dashboard.showLoadingState (Dashboard.page b))))) as [Hn Hl].
    split_and!; [reflexivity | rewrite Hl; reflexivity |].
    left. split; [rewrite Hn; reflexivity |].
    intros (_ & resp0 & n0 & [= <- <-] & _ & Hbody). rewrite Hbody in Hnull.
    discriminate Hnull.
Qed.

(** X21. The calendar token is fetched once.  With no usable token cached
    (none, or a falsy one) and a token route that answers ok with a truthy
    body, [refreshCalendarData] sends one request and caches the answer
    under ["google-calendar"]; a second refresh finds it there and sends
    nothing. *)
Theorem refresh_caches_token {Net} (fetch_calendar_token : M Net Response)
    (time : string) (b : Dashboard.Browser) (n n' : Net) (resp : Response) :
  Dashboard.not_token (Dashboard.getTokenVaultToken b "google-calendar") = true ->
  fetch_calendar_token n = (Return resp, n') ->
  App.response_ok resp = true ->
  json_truthy (body resp) = true ->
  let s1 := snd (Dashboard.refreshCalendarData fetch_calendar_token time (b, n)) in
  let s2 := snd (Dashboard.refreshCalendarData fetch_calendar_token time s1) in
  Dashboard.getTokenVaultToken (fst s1) "google-calendar" = Some (body resp)
  /\ snd s1 = n'
  /\ snd s2 = n'
  /\ Dashboard.tokenVaultTokens (fst s2) = Dashboard.tokenVaultTokens (fst s1).
Proof.
  intros Hnone Hfetch Hok Htruthy. cbv zeta.
  assert (Hnull : is_null (body resp) = false).
  { destruct (body resp); try reflexivity. discriminate Htruthy. }
  rewrite refresh_run. cbv zeta. rewrite Hnone, Hfetch, Hok, Hnull.
  cbn [fst snd].
  assert (Hcached : forall b0 : Dashboard.Browser,
    Dashboard.getTokenVaultToken
      (Dashboard.on_page
         (Dashboard.addSecurityLog time "Calendar sync completed" "success"
            ("Events synchronized from Google Calendar using Token Vault (expires in "
             +:+ Dashboard.show_expires_in (body resp) +:+ "s)"))
         (Dashboard.on_page
            (Dashboard.showNotification "Calendar data refreshed via Token Vault"
               "success")
            (Dashboard.on_page Dashboard.hideLoadingState
               (Dashboard.tokens_set "google-calendar" (body resp) b0))))
      "google-calendar" = Some (body resp)).
  { intros b0. unfold Dashboard.getTokenVaultToken. simpl. apply lookup_insert_eq. }
  rewrite refresh_run. cbv zeta. rewrite Hcached.
  unfold Dashboard.not_token. rewrite Htruthy. cbn [negb fst snd].
  split_and!; reflexivity || apply Hcached.
Qed.

Lemma refresh_caches_token_witness :
  let fetch := fetch_calendar_token memory_fga no_metadata (Some alice) in
  let resp := mkResponse 200
                (JToken "tvault_google-calendar_4fzyo82mvyr" 3600
                        "https://www.googleapis.com/auth/calendar") in
  Dashboard.not_token (Dashboard.getTokenVaultToken browser0 "google-calendar") = true /\
  fetch (world0 plan_tuples) = (Return resp, next_draw (world0 plan_tuples)) /\
  App.response_ok resp = true /\
  json_truthy (body resp) = true /\
  draws (snd (snd (Dashboard.refreshCalendarData fetch "12:00:00"
                     (snd (Dashboard.refreshCalendarData fetch "12:00:00"
                             (browser0, world0 plan_tuples))))))
  = 1%nat.
Proof.
  cbv zeta.
  assert (Hfetch : fetch_calendar_token memory_fga no_metadata (Some alice)
                     (world0 plan_tuples)
                   = (Return (mkResponse 200
                        (JToken "tvault_google-calendar_4fzyo82mvyr" 3600
                                "https://www.googleapis.com/auth/calendar")),
                      next_draw (world0 plan_tuples))) by reflexivity.
  split; [reflexivity | split; [exact Hfetch | split; [reflexivity |]]].
  split; [reflexivity |].
  destruct (refresh_caches_token
              (fetch_calendar_token memory_fga no_metadata (Some alice)) "12:00:00"
              browser0 (world0 plan_tuples) (next_draw (world0 plan_tuples)) _
              eq_refl Hfetch eq_refl eq_refl) as (_ & _ & Hsecond & _).
  rewrite Hsecond. reflexivity.
Defined.

(** A token route that answers ok with the body [null]: the refresh shows
    both notifications, and the next refresh asks again. *)
Example refresh_with_null_token :
  let fetch : M nat Response := fun n => (Return (mkResponse 200 JNull), S n) in
  let s1 := snd (Dashboard.refreshCalendarData fetch "12:00:00" (browser0, 0%nat)) in
  let s2 := snd (Dashboard.refreshCalendarData fetch "12:00:01" s1) in
  Dashboard.notifications (Dashboard.page (fst s1))
  = [("Calendar data refreshed via Token Vault", "success");
     ("Failed to refresh calendar data", "error")]
  /\ Dashboard.getTokenVaultToken (fst s1) "google-calendar" = Some JNull
  /\ snd s1 = 1%nat
  /\ snd s2 = 2%nat.
Proof. cbv zeta. split_and!; reflexivity. Qed.

(** X22. Loading the Token Vault tokens against server.js.  With a session,
    [loadTokenVaultTokens] caches a calendar token and a Slack token, each of
    the form [tvault_<service>_<draw>] for its own draw of [Math.random], with
    the scope of its service, and a later [refreshCalendarData] does not
    contact the server.  Without a session both requests are answered 401,
    nothing is cached and the server's world is untouched. *)
Theorem loadTokenVaultTokens_against_server {R} (fgaClient : FgaClient R)
    (management_getUser : string -> Result AppMetadata)
    (time : string) (b : Dashboard.Browser) (w : World R) :
  (forall u : User,
     let calendar := fetch_calendar_token fgaClient management_getUser (Some u) in
     let slack := fetch_slack_token fgaClient management_getUser (Some u) in
     let out := Dashboard.loadTokenVaultTokens calendar slack (b, w) in
     fst out = Return tt
     /\ Dashboard.getTokenVaultToken (fst (snd out)) "google-calendar"
        = Some (JToken ("tvault_google-calendar_" +:+
                        String.substring 2 16 (entropy w (draws w)))
                       3600 "https://www.googleapis.com/auth/calendar")
     /\ Dashboard.getTokenVaultToken (fst (snd out)) "slack"
        = Some (JToken ("tvault_slack_" +:+
                        String.substring 2 16 (entropy w (S (draws w))))
                       3600 "chat:write,channels:read")
     /\ draws (snd (snd out)) = S (S (draws w))
     /\ snd (snd (Dashboard.refreshCalendarData calendar time (snd out)))
        = snd (snd out))
  /\ Dashboard.loadTokenVaultTokens
       (fetch_calendar_token fgaClient management_getUser None)
       (fetch_slack_token fgaClient management_getUser None) (b, w)
     = (Return tt,
        (Dashboard.browser_log (LogText "Loaded Token Vault tokens:") b, w)).
Proof.
  split; [| reflexivity].
  intros u. cbv zeta.
  assert (Hrun : Dashboard.loadTokenVaultTokens
            (fetch_calendar_token fgaClient management_getUser (Some u))
            (fetch_slack_token fgaClient management_getUser (Some u)) (b, w)
          = (Return tt,
             (Dashboard.browser_log (LogText "Loaded Token Vault tokens:")
                (Dashboard.tokens_set "slack"
                   (JToken ("tvault_slack_" +:+
                            String.substring 2 16 (entropy w (S (draws w))))
                           3600 "chat:write,channels:read")
                   (Dashboard.tokens_set "google-calendar"
                      (JToken ("tvault_google-calendar_" +:+
                               String.substring 2 16 (entropy w (draws w)))
                              3600 "https://www.googleapis.com/auth/calendar")
                      b)),
              next_draw (next_draw w)))) by reflexivity.
  rewrite Hrun. cbn [fst snd].
  assert (Hcal : Dashboard.getTokenVaultToken
            (Dashboard.browser_log (LogText "Loaded Token Vault tokens:")
               (Dashboard.tokens_set "slack"
                  (JToken ("tvault_slack_" +:+
                           String.substring 2 16 (entropy w (S (draws w))))
                          3600 "chat:write,channels:read")
                  (Dashboard.tokens_set "google-calendar"
                     (JToken ("tvault_google-calendar_" +:+
                              String.substring 2 16 (entropy w (draws w)))
                             3600 "https://www.googleapis.com/auth/calendar")
                     b)))
            "google-calendar"
          = Some (JToken ("tvault_google-calendar_" +:+
                          String.substring 2 16 (entropy w (draws w)))
                         3600 "https://www.googleapis.com/auth/calendar")).
  { unfold Dashboard.getTokenVaultToken. simpl.
    rewrite lookup_insert_ne by done. apply lookup_insert_eq. }
  split_and!.
  - reflexivity.
  - exact Hcal.
  - unfold Dashboard.getTokenVaultToken. simpl. apply lookup_insert_eq.
  - reflexivity.
  - rewrite refresh_run. cbv zeta. rewrite Hcal. reflexivity.
Qed.

(** * Configuration and health *)

(** X23. When the health endpoint reports [fga_configured: false], the JWT
    server has no FGA client, whatever constructing one would have given:
    every check is decided by the mock table (source [fallback]) and every
    grant is answered 500. *)
Theorem health_fga_off_means_mock {R} (env : gmap string string) (now : string)
    (new_client : Result (FgaClient R)) :
  Env.h_fga_configured (Env.health env now) = false ->
  Env.configured_client env new_client = None
  /\ forall (principal : string) (auth : ServerJwt.JwtAuth) (req : Request)
            (w : World R),
       decision_of w
         (ServerJwt.check_access (Env.configured_client env new_client) auth req w)
       = Some (mkDecision
                 (ServerJwt.fallback_decide principal (relation req) (resource req))
                 fallback)
       /\ fst (ServerJwt.grant_access (Env.configured_client env new_client) auth req w)
          = Return (mkResponse 500 (JError "Failed to grant access")).
Proof.
  unfold Env.health. simpl. intros Hoff.
  assert (Hnone : Env.configured_client env new_client = None).
  { unfold Env.configured_client. rewrite Hoff. reflexivity. }
  split; [exact Hnone |]. intros principal auth req w. rewrite Hnone. split.
  - unfold ServerJwt.check_access, decision_of, try_catch, bind, modify, ret. simpl.
    rewrite effects_since_add. reflexivity.
  - reflexivity.
Qed.

Lemma health_fga_off_means_mock_witness :
  Env.h_fga_configured (Env.health demo_env "2025-10-09T12:00:00.000Z") = false /\
  fst (ServerJwt.check_access
         (Env.configured_client demo_env (Return memory_fga)) alice_token
         (check_plan_viewer None) (world0 []))
  = Return (mkResponse 200 (JDecision true "document:project-plan" "viewer")).
Proof.
  assert (Hoff : Env.h_fga_configured (Env.health demo_env "2025-10-09T12:00:00.000Z")
                 = false) by reflexivity.
  split; [exact Hoff |].
  rewrite (proj1 (health_fga_off_means_mock demo_env "2025-10-09T12:00:00.000Z"
                    (Return memory_fga) Hoff)).
  reflexivity.
Defined.

Lemma is_set_lookup (env : gmap string string) (name : string) :
  Env.is_set env name = true ->
  exists v, env !! name = Some v /\ v <> "".
Proof.
  unfold Env.is_set. destruct (env !! name) as [v |]; [| discriminate].
  intros Hv. exists v. split; [reflexivity |].
  intros ->. discriminate Hv.
Qed.

(** X24. When the health endpoint reports [auth0_configured: true], the
    authentication middleware is mounted, and the domain used in the
    configuration is the one of the environment, which the endpoint also
    reports, not the demo domain. *)
Theorem health_auth0_on_means_mounted (env : gmap string string) (now : string) :
  Env.h_auth0_configured (Env.health env now) = true ->
  Env.auth_mounted env = true
  /\ env !! "AUTH0_DOMAIN" = Some (Env.config_domain env)
  /\ Env.config_domain env <> "demo.auth0.com"
  /\ Env.h_auth0_domain (Env.health env now) = Env.config_domain env.
Proof.
  unfold Env.health. simpl. intros Hon.
  apply andb_true_iff in Hon as [Hon Hclient].
  apply andb_true_iff in Hon as [Hmounted Hdomain].
  split; [exact Hmounted |].
  unfold Env.auth_mounted in Hmounted.
  apply andb_true_iff in Hmounted as [Hmounted _].
  apply andb_true_iff in Hmounted as [Hset _].
  apply is_set_lookup in Hset as (v & Hv & Hne).
  unfold Env.config_domain, Env.or_default, Env.differs in *.
  rewrite Hv in *.
  destruct (String.eqb_spec v "") as [-> | _]; [congruence |].
  split_and!; try reflexivity.
  intros ->. discriminate Hdomain.
Qed.

Lemma health_auth0_on_means_mounted_witness :
  let env : gmap string string :=
    {[ "AUTH0_DOMAIN" := "acme.eu.auth0.com"; "AUTH0_CLIENT_ID" := "abc123";
       "AUTH0_CLIENT_SECRET" := "s3cret" ]} in
  Env.h_auth0_configured (Env.health env "2025-10-09T12:00:00.000Z") = true /\
  Env.auth_mounted env = true.
Proof.
  cbv zeta.
  assert (Hon : Env.h_auth0_configured
                  (Env.health
                     ({[ "AUTH0_DOMAIN" := "acme.eu.auth0.com";
                         "AUTH0_CLIENT_ID" := "abc123";
                         "AUTH0_CLIENT_SECRET" := "s3cret" ]} : gmap string string)
                     "2025-10-09T12:00:00.000Z") = true) by reflexivity.
  split; [exact Hon |].
  exact (proj1 (health_auth0_on_means_mounted _ _ Hon)).
Defined.

(** The converse fails: with the demo domain set by hand, the middleware is
    mounted while the endpoint reports that Auth0 is not configured. *)
Example demo_env_mounted_not_configured :
  Env.auth_mounted demo_env = true
  /\ Env.h_auth0_configured (Env.health demo_env "2025-10-09T12:00:00.000Z") = false.
Proof. split; reflexivity. Qed.

(** X25. [validateConfig] returns [true] exactly when each of the four
    required variables is set to a non-empty value; otherwise it warns
    about exactly the variables that are not, in the order of the list.  A
    configuration that validates has the authentication middleware
    mounted. *)
Theorem validateConfig_sound (env : gmap string string) :
  (fst (Env.validateConfig env) = true
   <-> Forall (fun name => Env.is_set env name = true) Env.requiredEnvVars)
  /\ (fst (Env.validateConfig env) = false ->
      snd (Env.validateConfig env)
      = filter (fun name => Env.is_set env name = false) Env.requiredEnvVars
      /\ snd (Env.validateConfig env) <> [])
  /\ (fst (Env.validateConfig env) = true -> Env.auth_mounted env = true).
Proof.
  assert (Hiff : fst (Env.validateConfig env) = true
                 <-> Forall (fun name => Env.is_set env name = true)
                            Env.requiredEnvVars).
  { unfold Env.validateConfig.
    destruct (filter (fun name => Env.is_set env name = false) Env.requiredEnvVars)
      as [| name missing] eqn:Hmissing; simpl.
    - split; [intros _ | reflexivity].
      apply Forall_forall. intros name Hname.
      destruct (Env.is_set env name) eqn:Hset; [reflexivity |].
      assert (Hin : name ∈ filter (fun name => Env.is_set env name = false)
                             Env.requiredEnvVars)
        by (apply list_elem_of_filter; split; assumption).
      rewrite Hmissing in Hin. apply elem_of_nil in Hin. destruct Hin.
    - split; [discriminate |]. intros Hall.
      assert (Hin : name ∈ filter (fun name => Env.is_set env name = false)
                             Env.requiredEnvVars)
        by (rewrite Hmissing; apply list_elem_of_here).
      apply list_elem_of_filter in Hin as [Hunset Hin].
      rewrite Forall_forall in Hall. rewrite (Hall name Hin) in Hunset.
      discriminate Hunset. }
  split_and!.
  - exact Hiff.
  - unfold Env.validateConfig.
    destruct (filter (fun name => Env.is_set env name = false) Env.requiredEnvVars)
      as [| name missing]; simpl; [discriminate |].
    intros _. split; [reflexivity | discriminate].
  - intros Hvalid. apply Hiff in Hvalid.
    unfold Env.requiredEnvVars in Hvalid.
    apply Forall_cons in Hvalid as [Hd Hvalid].
    apply Forall_cons in Hvalid as [Hc Hvalid].
    apply Forall_cons in Hvalid as [Hs _].
    unfold Env.auth_mounted. rewrite Hd, Hc, Hs. reflexivity.
Qed.

(** * The redirect to the login page *)

Lemma append_assoc (a b c : string) : (a +:+ b) +:+ c = a +:+ (b +:+ c).
Proof.
  induction a as [| x a IH].
  - reflexivity.
  - rewrite !append_String, IH. reflexivity.
Qed.

(** X26. [initiateAuth0Login] draws two random states: the one it puts at
    the end of the authorization URL is the first draw, the one it stores
    under [auth0_state] in the session storage is the next draw.  The stored
    state is therefore the state of the URL only when two successive draws
    give the same sixteen characters. *)
Theorem login_state_is_drawn_twice (config : Login.Auth0Config)
    (encodeURIComponent : string -> string) (w : Login.Window) :
  let out := Login.initiateAuth0Login config encodeURIComponent w in
  let w' := snd out in
  let sent := String.substring 2 16 (Login.random w (Login.drawn w)) in
  let stored := String.substring 2 16 (Login.random w (S (Login.drawn w))) in
  fst out = Return tt
  /\ (exists prefix, Login.href w' = prefix +:+ "state=" +:+ sent)
  /\ Login.sessionStorage w' !! "auth0_state" = Some stored
  /\ Login.drawn w' = S (S (Login.drawn w))
  /\ (Login.sessionStorage w' !! "auth0_state" = Some sent <-> stored = sent).
Proof.
  cbv zeta.
  unfold Login.initiateAuth0Login, bind, get, modify, Login.generateRandomState.
  cbn [fst snd Login.href Login.sessionStorage Login.drawn Login.random Login.origin].
  rewrite lookup_insert_eq. split_and!; try reflexivity.
  - eexists. rewrite <- !append_assoc. reflexivity.
  - split; [intros [= ->] | intros ->]; reflexivity.
Qed.

(** With draws that differ, the stored state is not the one that was sent. *)
Example login_state_mismatch :
  let w' := snd (Login.initiateAuth0Login browser_config (fun s => s) window0) in
  Login.sessionStorage w' !! "auth0_state" = Some "k1x9q7hd2pm"
  /\ Login.href w'
     = "https://your-domain.auth0.com/authorize?response_type=code&client_id=your_client_id&redirect_uri=http://localhost:3000/callback&scope=openid profile email read:projects write:projects manage:calendar&audience=https://api.ai-project-manager.com&state=4fzyo82mvyr".
Proof. split; reflexivity. Qed.

(** * Opening a document *)

Section ViewDocument.
Context {Net : Type}.
Variable inherited : string -> bool.
Variable show_inherited : string -> string.
Variable fetch_access_request : Documents.Resource -> string -> M Net Response.
Variable time now userContext : string.

Let view := Documents.viewDocument inherited show_inherited fetch_access_request
              time now userContext.

(** What a notification followed by a security log entry leaves in the tab. *)
Lemma notified_and_logged (message type event status details : string)
    (t : Documents.Tab) :
  let t' := Documents.on_tab_page
              (Dashboard.addSecurityLog time event status details)
              (Documents.on_tab_page (Dashboard.showNotification message type) t) in
  Documents.app t' = Documents.app t
  /\ Dashboard.notifications (Documents.page t')
     = (Dashboard.notifications (Documents.page t) ++ [(message, type)])%list.
Proof.
  cbv zeta. split; [reflexivity |].
  cbn [Documents.page Documents.on_tab_page].
  rewrite (proj1 (addSecurityLog_keeps_rest time event status details _)).
  reflexivity.
Qed.

(** X27. A permission passed by the caller is taken at its word: with a
    non-empty [permission] argument, [viewDocument] looks neither at the
    permission cache nor at the network; it denies when the argument is
    ["no-access"] and otherwise announces the document as opened with that
    permission. *)
Theorem viewDocument_trusts_given_permission (docId : string)
    (permission : option string) (p : string) (s : Documents.Tab * Net) :
  Documents.given permission = Some p ->
  let out := view docId permission s in
  let t' := fst (snd out) in
  fst out = Return tt
  /\ snd (snd out) = snd s
  /\ Documents.app t' = Documents.app (fst s)
  /\ Dashboard.notifications (Documents.page t')
     = (Dashboard.notifications (Documents.page (fst s)) ++
        [if String.eqb p "no-access"
         then ("Access denied: Insufficient permissions", "error")
         else ("Document opened with " +:+ p +:+ " permissions", "success")])%list.
Proof.
  intros Hgiven. cbv zeta. subst view.
  unfold Documents.viewDocument, try_catch. rewrite Hgiven.
  unfold bind, Documents.notify, Documents.security_log, Documents.in_tab, modify.
  destruct (String.eqb p "no-access"); cbn [fst snd];
    match goal with
    | |- context [Documents.on_tab_page (Dashboard.addSecurityLog ?t ?e ?st ?d)
                    (Documents.on_tab_page (Dashboard.showNotification ?m ?ty) ?t0)] =>
        destruct (notified_and_logged m ty e st d t0) as [Happ Hnotes]
    end;
    split_and!; try reflexivity; assumption.
Qed.

(** X28. Without a permission argument, a document for which a permission
    is cached opens without any request to the network, at the highest of
    the cached levels: full permissions for [owner], else edit permissions
    for [editor], else read-only for [viewer]. *)
Theorem viewDocument_opens_at_highest_cached (docId : string)
    (permission : option string) (s : Documents.Tab * Net) :
  Documents.given permission = None ->
  let r := Documents.show show_inherited (Documents.resource_of inherited docId) in
  let a := Documents.app (fst s) in
  App.hasPermission a r "owner" = true \/ App.hasPermission a r "editor" = true
  \/ App.hasPermission a r "viewer" = true ->
  let out := view docId permission s in
  let t' := fst (snd out) in
  fst out = Return tt
  /\ snd (snd out) = snd s
  /\ Documents.app t' = a
  /\ Dashboard.notifications (Documents.page t')
     = (Dashboard.notifications (Documents.page (fst s)) ++
        [if App.hasPermission a r "owner"
         then ("Document opened with full permissions", "success")
         else if App.hasPermission a r "editor"
              then ("Document opened with edit permissions", "success")
              else ("Document opened in read-only mode", "info")])%list.
Proof.
  intros Hgiven. cbv zeta. intros Hsome. subst view.
  unfold Documents.viewDocument, try_catch. rewrite Hgiven.
  unfold bind, get. cbn [fst snd].
  destruct (App.hasPermission (Documents.app (fst s)) _ "owner") eqn:Howner;
    [| destruct (App.hasPermission (Documents.app (fst s)) _ "editor") eqn:Heditor;
       [| destruct (App.hasPermission (Documents.app (fst s)) _ "viewer") eqn:Hviewer;
          [| destruct Hsome as [H | [H | H]]; discriminate H]]];
    unfold bind, Documents.notify, Documents.security_log, Documents.in_tab, modify;
    cbn [fst snd String.eqb Ascii.eqb Bool.eqb];
    match goal with
    | |- context [Documents.on_tab_page (Dashboard.addSecurityLog ?t ?e ?st ?d)
                    (Documents.on_tab_page (Dashboard.showNotification ?m ?ty) ?t0)] =>
        destruct (notified_and_logged m ty e st d t0) as [Happ Hnotes]
    end;
    split_and!; try reflexivity; assumption.
Qed.

(** What [requestDocumentAccess] does, spelled out. *)
Lemma requestDocumentAccess_run (resource : Documents.Resource) (relation : string)
    (t : Documents.Tab) (n : Net) :
  let justification :=
    "User needs " +:+ relation +:+ " access to " +:+
    Documents.show show_inherited resource +:+ " for project work" in
  let failed := fun (error : string) =>
    Documents.on_tab_page (Dashboard.showNotification "Error requesting access" "error")
      (Documents.tab_log (LogError "Error requesting document access:" error) t) in
  Documents.requestDocumentAccess show_inherited fetch_access_request now
    resource relation (t, n)
  = match fetch_access_request resource justification n with
    | (Return response, n') =>
        if App.response_ok response then
          if is_null (body response)
          then (Return tt, (failed "TypeError: Cannot read properties of null", n'))
          else
            (Return tt,
             (Documents.on_tab_app
                (App.approvals_push
                   (App.mkApprovalEntry (App.data_request_id (body response))
                      (Documents.show show_inherited resource) relation "pending" now))
                (Documents.on_tab_page
                   (Dashboard.showNotification
                      ("Access request submitted (ID: " +:+
                       App.data_request_id (body response) +:+
                       "). You'll be notified when approved.") "info") t), n'))
        else (Return tt, (failed "Failed to submit access request", n'))
    | (Throw error, n') => (Return tt, (failed error, n'))
    end.
Proof.
  cbv zeta.
  unfold Documents.requestDocumentAccess, try_catch, bind, Documents.to_net,
    Documents.notify, Documents.in_tab, modify, property_of. cbn [fst snd].
  destruct (fetch_access_request resource _ n) as [[resp | err] n']; cbn [fst snd];
    [destruct (App.response_ok resp); [destruct (is_null (body resp)) |] |];
    reflexivity.
Qed.

(** X29. Without a permission argument and with nothing cached for the
    document, [viewDocument] never opens it: it warns that access is denied,
    sends one approval request for [viewer] on the resource, and ends
    normally with one more notification, either the confirmation, together
    with a new [pending] entry in the approval list, or the error. *)
Theorem viewDocument_requests_approval (docId : string)
    (permission : option string) (s : Documents.Tab * Net) :
  Documents.given permission = None ->
  let resource := Documents.resource_of inherited docId in
  let r := Documents.show show_inherited resource in
  let a := Documents.app (fst s) in
  App.hasPermission a r "owner" = false ->
  App.hasPermission a r "editor" = false ->
  App.hasPermission a r "viewer" = false ->
  let out := view docId permission s in
  let t' := fst (snd out) in
  let sent := fetch_access_request resource
                ("User needs viewer access to " +:+ r +:+ " for project work")
                (snd s) in
  let before := Dashboard.notifications (Documents.page (fst s)) in
  fst out = Return tt
  /\ snd (snd out) = snd sent
  /\ App.fgaPermissions (Documents.app t') = App.fgaPermissions a
  /\ ((exists response,
         fst sent = Return response /\ App.response_ok response = true
         /\ Dashboard.notifications (Documents.page t')
            = (before ++
               [("Access denied. Requesting approval...", "warning");
                ("Access request submitted (ID: " +:+
                 App.data_request_id (body response) +:+
                 "). You'll be notified when approved.", "info")])%list
         /\ App.approvalRequests (Documents.app t')
            = (App.approvalRequests a ++
               [App.mkApprovalEntry (App.data_request_id (body response)) r
                                    "viewer" "pending" now])%list)
      \/ (Dashboard.notifications (Documents.page t')
          = (before ++
             [("Access denied. Requesting approval...", "warning");
              ("Error requesting access", "error")])%list
          /\ App.approvalRequests (Documents.app t') = App.approvalRequests a)).
Proof.
  intros Hgiven. cbv zeta. intros Howner Heditor Hviewer. subst view.
  unfold Documents.viewDocument, try_catch. rewrite Hgiven.
  unfold bind, get. cbn [fst snd].
  rewrite Howner, Heditor, Hviewer.
  unfold Documents.notify, Documents.in_tab, modify. cbn [fst snd].
  rewrite requestDocumentAccess_run. cbv zeta.
  change ("User needs " +:+ "viewer" +:+ " access to " +:+
          Documents.show show_inherited (Documents.resource_of inherited docId) +:+
          " for project work")
    with ("User needs viewer access to " +:+
          Documents.show show_inherited (Documents.resource_of inherited docId) +:+
          " for project work").
  destruct (fetch_access_request _ _ (snd s)) as [[resp | err] n']; cbn [fst snd];
    [destruct (App.response_ok resp) eqn:Hok;
     [destruct (is_null (body resp)) eqn:Hnull |] |]; cbn [fst snd].
  - split_and!; try reflexivity. right. split; [| reflexivity].
    cbn. rewrite <- app_assoc. reflexivity.
  - split_and!; try reflexivity. left. exists resp.
    split_and!; try reflexivity; try assumption.
    cbn. rewrite <- app_assoc. reflexivity.
  - split_and!; try reflexivity. right. split; [| reflexivity].
    cbn. rewrite <- app_assoc. reflexivity.
  - split_and!; try reflexivity. right. split; [| reflexivity].
    cbn. rewrite <- app_assoc. reflexivity.
Qed.
End ViewDocument.

Lemma viewDocument_trusts_given_permission_witness :
  Documents.given (Some "editor") = Some "editor" /\
  Dashboard.notifications
    (Documents.page
       (fst (snd (Documents.viewDocument no_inherited (fun name => name)
                    accepting_route "12:00:00" "2025-10-09T12:00:00.000Z" "Alice"
                    "doc2" (Some "editor") (tab0, tt)))))
  = [("Document opened with editor permissions", "success")].
Proof.
  split; [reflexivity |].
  destruct (viewDocument_trusts_given_permission no_inherited (fun name => name)
              accepting_route "12:00:00" "2025-10-09T12:00:00.000Z" "Alice"
              "doc2" (Some "editor") "editor" (tab0, tt) eq_refl)
    as (_ & _ & _ & Hnotes).
  rewrite Hnotes. reflexivity.
Defined.

Lemma viewDocument_opens_at_highest_cached_witness :
  Documents.given None = None /\
  App.hasPermission (Documents.app tab_owner) "document:project-plan" "owner" = true /\
  Dashboard.notifications
    (Documents.page
       (fst (snd (Documents.viewDocument no_inherited (fun name => name)
                    accepting_route "12:00:00" "2025-10-09T12:00:00.000Z" "Alice"
                    "doc1" None (tab_owner, tt)))))
  = [("Document opened with full permissions", "success")].
Proof.
  assert (Howner : App.hasPermission (Documents.app tab_owner)
                     "document:project-plan" "owner" = true) by reflexivity.
  split; [reflexivity | split; [exact Howner |]].
  destruct (viewDocument_opens_at_highest_cached no_inherited (fun name => name)
              accepting_route "12:00:00" "2025-10-09T12:00:00.000Z" "Alice"
              "doc1" None (tab_owner, tt) eq_refl (or_introl Howner))
    as (_ & _ & _ & Hnotes).
  rewrite Hnotes. reflexivity.
Defined.

Lemma viewDocument_requests_approval_witness :
  Documents.given None = None /\
  App.hasPermission (Documents.app tab0) "document:roadmap" "owner" = false /\
  App.hasPermission (Documents.app tab0) "document:roadmap" "editor" = false /\
  App.hasPermission (Documents.app tab0) "document:roadmap" "viewer" = false /\
  App.fgaPermissions
    (Documents.app
       (fst (snd (Documents.viewDocument no_inherited (fun name => name)
                    accepting_route "12:00:00" "2025-10-09T12:00:00.000Z" "Alice"
                    "roadmap" None (tab0, tt)))))
  = ∅.
Proof.
  split; [reflexivity |]. do 3 (split; [reflexivity |]).
  destruct (viewDocument_requests_approval no_inherited (fun name => name)
              accepting_route "12:00:00" "2025-10-09T12:00:00.000Z" "Alice"
              "roadmap" None (tab0, tt) eq_refl eq_refl eq_refl eq_refl)
    as (_ & _ & Hcache & _).
  exact Hcache.
Defined.
